(** * DrBN: request normalisation and response reconciliation

    A shallow embedding of the Cloud Functions entry points
    ([functions/src/index.ts]) and of the browser-side client
    ([firebaseFunctions.ts]), followed by the properties the specification
    states about them.

    Strings are JavaScript strings: finite sequences of UTF-16 code units.
    JSON values are a first-order datatype.  The handlers are written in a
    small monad that threads the module state (the lazily created model
    client), records the external calls that were made, and propagates
    thrown errors to the handler's catch-all. *)

From Stdlib Require Import List NArith ZArith Bool Lia String Ascii DecimalString.
Import ListNotations.

Local Open Scope N_scope.

(* ====================================================================== *)
(** * JavaScript strings *)
(* ====================================================================== *)

Module Js.

(** A code unit is a 16-bit number; a string is a list of code units. *)
Abbreviation code_unit := N (only parsing).
Abbreviation jsstring := (list N) (only parsing).

(** ** Literals

    A Rocq string literal holds the UTF-8 bytes of the source text;
    [utf16] decodes them into the code units the JavaScript literal with
    the same text denotes. *)

Definition emit (cp : N) : jsstring :=
  if cp <? 65536 then [cp]
  else [55296 + (cp - 65536) / 1024; 56320 + (cp - 65536) mod 1024].

Fixpoint utf16_go (s : string) (need : nat) (acc : N) : jsstring :=
  match s with
  | EmptyString => []
  | String a rest =>
      let b := N_of_ascii a in
      match need with
      | O =>
          if b <? 128 then b :: utf16_go rest 0 0
          else if b <? 224 then utf16_go rest 1 (b - 192)
          else if b <? 240 then utf16_go rest 2 (b - 224)
          else utf16_go rest 3 (b - 240)
      | S k =>
          let acc' := acc * 64 + (b - 128) in
          match k with
          | O => emit acc' ++ utf16_go rest 0 0
          | S _ => utf16_go rest k acc'
          end
      end
  end.

Definition utf16 (s : string) : jsstring := utf16_go s 0 0.

(** Literals that contain the double quote are written with a circumflex
    in its place (the circumflex occurs in none of them). *)
Definition quoted (s : string) : jsstring :=
  map (fun c => if c =? 94 then 34 else c) (utf16 s).

(** ** [String.prototype.length] *)
Fixpoint length (s : jsstring) : N :=
  match s with
  | [] => 0
  | _ :: r => N.succ (length r)
  end.

Definition isEmpty (s : jsstring) : bool :=
  match s with [] => true | _ => false end.

Fixpoint eqb (a b : jsstring) : bool :=
  match a, b with
  | [], [] => true
  | x :: a', y :: b' => (x =? y) && eqb a' b'
  | _, _ => false
  end.

(** ** White space (ECMAScript [WhiteSpace] and [LineTerminator]) *)

(** LF, CR, LINE SEPARATOR, PARAGRAPH SEPARATOR. *)
Definition isLineTerminator (c : code_unit) : bool :=
  (c =? 10) || (c =? 13) || (c =? 8232) || (c =? 8233).

(** TAB, VT, FF, ZWNBSP and the Unicode space separators. *)
Definition isWhiteSpace (c : code_unit) : bool :=
  (c =? 9) || (c =? 11) || (c =? 12) || (c =? 32) || (c =? 160)
  || (c =? 5760) || ((8192 <=? c) && (c <=? 8202))
  || (c =? 8239) || (c =? 8287) || (c =? 12288) || (c =? 65279).

Definition isTrimmed (c : code_unit) : bool :=
  isWhiteSpace c || isLineTerminator c.

(** ** [String.prototype.trim] *)
Fixpoint trimStart (s : jsstring) : jsstring :=
  match s with
  | [] => []
  | c :: r => if isTrimmed c then trimStart r else s
  end.

Definition trimEnd (s : jsstring) : jsstring := rev (trimStart (rev s)).

Definition trim (s : jsstring) : jsstring := trimEnd (trimStart s).

(** ** [startsWith], [endsWith], [includes], [slice] *)
Fixpoint startsWith (s p : jsstring) {struct p} : bool :=
  match p, s with
  | [], _ => true
  | x :: p', y :: s' => (x =? y) && startsWith s' p'
  | _ :: _, [] => false
  end.

Definition endsWith (s p : jsstring) : bool := startsWith (rev s) (rev p).

Fixpoint includes (s p : jsstring) : bool :=
  startsWith s p
  || match s with
     | [] => false
     | _ :: r => includes r p
     end.

(** [s.slice(n)] for [0 <= n]. *)
Definition sliceFrom (n : nat) (s : jsstring) : jsstring := skipn n s.

(** [s.slice(0, -n)] for [0 < n]. *)
Definition sliceDropEnd (n : nat) (s : jsstring) : jsstring :=
  firstn (List.length s - n) s.

(** ** Case mapping, on the ASCII letters.

    [toLowerCase] also maps letters outside ASCII; none of them is mapped
    to an ASCII letter except U+0130 and U+212A, which do not occur in
    header values (a header value is a Latin-1 string). *)
Definition lowerAscii (c : code_unit) : code_unit :=
  if (65 <=? c) && (c <=? 90) then c + 32 else c.

Definition toLowerCase (s : jsstring) : jsstring := map lowerAscii s.

(** [Array.prototype.join] on strings. *)
Fixpoint join (sep : jsstring) (l : list jsstring) : jsstring :=
  match l with
  | [] => []
  | [x] => x
  | x :: r => x ++ sep ++ join sep r
  end.

End Js.

Import Js.

(* ====================================================================== *)
(** * JSON values and [JSON.parse] *)
(* ====================================================================== *)

Module Json.

(** A number is kept as the exact decimal [mantissa * 10 ^ exponent] its
    text denotes; rounding to a double is not modelled.  An object keeps
    its members in source order. *)
#[warnings="-register-all"] Inductive json : Type :=
  | JNull
  | JBool (b : bool)
  | JNumber (mantissa exponent : Z)
  | JString (s : jsstring)
  | JArray (elements : list json)
  | JObject (members : list (jsstring * json)).

(** An integer literal of the program. *)
Definition JInt (n : Z) : json := JNumber n 0.

(** ** Tokens *)
Inductive token : Type :=
  | TLBrace | TRBrace | TLBracket | TRBracket | TColon | TComma
  | TString (s : jsstring)
  | TNumber (mantissa exponent : Z)
  | TTrue | TFalse | TNull.

(** JSON white space: TAB, LF, CR, SPACE. *)
Definition isJsonSpace (c : code_unit) : bool :=
  (c =? 9) || (c =? 10) || (c =? 13) || (c =? 32).

Definition isDigit (c : code_unit) : bool := (48 <=? c) && (c <=? 57).

Definition isLetter (c : code_unit) : bool :=
  ((97 <=? c) && (c <=? 122)) || ((65 <=? c) && (c <=? 90)).

(** The characters of numbers and of the literals [true], [false], [null]. *)
Definition isWordChar (c : code_unit) : bool :=
  isDigit c || isLetter c || (c =? 43) || (c =? 45) || (c =? 46).

(** ** Numbers: an optional minus sign; [0], or a non-zero digit and more
    digits; optionally a point and one digit or more; optionally [e] or
    [E], a sign, and one digit or more. *)

Fixpoint takeDigits (s : jsstring) (acc count : N) : N * N * jsstring :=
  match s with
  | [] => (acc, count, [])
  | c :: r =>
      if isDigit c then takeDigits r (acc * 10 + (c - 48)) (count + 1)
      else (acc, count, s)
  end.

Definition intPart (s : jsstring) : option (N * jsstring) :=
  match s with
  | [] => None
  | c :: r =>
      if c =? 48 then Some (0, r)
      else if isDigit c then
        let '(v, _, rest) := takeDigits r (c - 48) 1 in Some (v, rest)
      else None
  end.

Definition fracPart (m : N) (s : jsstring) : option (N * N * jsstring) :=
  match s with
  | c :: r =>
      if c =? 46 then
        let '(v, k, rest) := takeDigits r m 0 in
        if k =? 0 then None else Some (v, k, rest)
      else Some (m, 0, s)
  | [] => Some (m, 0, s)
  end.

Definition expPart (s : jsstring) : option Z :=
  match s with
  | [] => Some 0%Z
  | c :: r =>
      if (c =? 101) || (c =? 69) then
        let '(sign, r') :=
          match r with
          | x :: r'' =>
              if x =? 43 then (1%Z, r'')
              else if x =? 45 then ((-1)%Z, r'')
              else (1%Z, r)
          | [] => (1%Z, r)
          end in
        let '(v, k, rest) := takeDigits r' 0 0 in
        if (k =? 0) || negb (isEmpty rest) then None
        else Some (sign * Z.of_N v)%Z
      else None
  end.

Definition numberOfLexeme (s : jsstring) : option (Z * Z) :=
  let '(sign, s1) :=
    match s with
    | c :: r => if c =? 45 then ((-1)%Z, r) else (1%Z, s)
    | [] => (1%Z, s)
    end in
  match intPart s1 with
  | None => None
  | Some (i, s2) =>
      match fracPart i s2 with
      | None => None
      | Some (m, k, s3) =>
          match expPart s3 with
          | None => None
          | Some e => Some ((sign * Z.of_N m)%Z, (e - Z.of_N k)%Z)
          end
      end
  end.

Definition classify (w : jsstring) : option token :=
  if eqb w (utf16 "true") then Some TTrue
  else if eqb w (utf16 "false") then Some TFalse
  else if eqb w (utf16 "null") then Some TNull
  else match numberOfLexeme w with
       | Some (m, e) => Some (TNumber m e)
       | None => None
       end.

(** ** The lexer, one code unit at a time *)

Inductive mode : Type :=
  | Between
  | InWord (rev_word : jsstring)
  | InString (rev_chars : jsstring)
  | InEscape (rev_chars : jsstring)
  | InUnicode (rev_chars : jsstring) (rev_hex : list N).

(** The tokens read so far, latest first, and the mode. *)
Definition lexer := (list token * mode)%type.

Definition closeWord (toks : list token) (rev_word : jsstring)
  : option (list token) :=
  match classify (rev rev_word) with
  | Some t => Some (t :: toks)
  | None => None
  end.

Definition stepBetween (toks : list token) (c : code_unit) : option lexer :=
  if isJsonSpace c then Some (toks, Between)
  else if c =? 123 then Some (TLBrace :: toks, Between)
  else if c =? 125 then Some (TRBrace :: toks, Between)
  else if c =? 91 then Some (TLBracket :: toks, Between)
  else if c =? 93 then Some (TRBracket :: toks, Between)
  else if c =? 58 then Some (TColon :: toks, Between)
  else if c =? 44 then Some (TComma :: toks, Between)
  else if c =? 34 then Some (toks, InString [])
  else if isWordChar c then Some (toks, InWord [c])
  else None.

(** The character a one-letter escape stands for. *)
Definition escapeChar (c : code_unit) : option code_unit :=
  if c =? 34 then Some 34
  else if c =? 92 then Some 92
  else if c =? 47 then Some 47
  else if c =? 98 then Some 8
  else if c =? 102 then Some 12
  else if c =? 110 then Some 10
  else if c =? 114 then Some 13
  else if c =? 116 then Some 9
  else None.

Definition hexValue (c : code_unit) : option N :=
  if isDigit c then Some (c - 48)
  else if (97 <=? c) && (c <=? 102) then Some (c - 87)
  else if (65 <=? c) && (c <=? 70) then Some (c - 55)
  else None.

Definition step (st : lexer) (c : code_unit) : option lexer :=
  let '(toks, m) := st in
  match m with
  | Between => stepBetween toks c
  | InWord w =>
      if isWordChar c then Some (toks, InWord (c :: w))
      else match closeWord toks w with
           | Some toks' => stepBetween toks' c
           | None => None
           end
  | InString b =>
      if c =? 34 then Some (TString (rev b) :: toks, Between)
      else if c =? 92 then Some (toks, InEscape b)
      else if c <? 32 then None
      else Some (toks, InString (c :: b))
  | InEscape b =>
      match escapeChar c with
      | Some d => Some (toks, InString (d :: b))
      | None => if c =? 117 then Some (toks, InUnicode b []) else None
      end
  | InUnicode b h =>
      match hexValue c with
      | None => None
      | Some d =>
          match h with
          | [d3; d2; d1] =>
              Some (toks, InString ((((d1 * 16 + d2) * 16 + d3) * 16 + d) :: b))
          | _ => Some (toks, InUnicode b (d :: h))
          end
      end
  end.

Fixpoint run (st : lexer) (s : jsstring) : option lexer :=
  match s with
  | [] => Some st
  | c :: r =>
      match step st c with
      | Some st' => run st' r
      | None => None
      end
  end.

Definition finish (st : lexer) : option (list token) :=
  match st with
  | (toks, Between) => Some (rev toks)
  | (toks, InWord w) =>
      match closeWord toks w with
      | Some toks' => Some (rev toks')
      | None => None
      end
  | _ => None
  end.

Definition tokens (s : jsstring) : option (list token) :=
  match run ([], Between) s with
  | Some st => finish st
  | None => None
  end.

(** ** The parser, one token at a time *)

(** An enclosing container that waits for its next value. *)
Inductive frame : Type :=
  | InArray (rev_elements : list json)
  | InObject (rev_members : list (jsstring * json)) (key : jsstring).

Inductive parser : Type :=
  | WantValue (stack : list frame)
  | ArrayOpened (stack : list frame)
  | ObjectOpened (stack : list frame)
  | WantKey (rev_members : list (jsstring * json)) (stack : list frame)
  | WantColon (rev_members : list (jsstring * json)) (key : jsstring)
      (stack : list frame)
  | AfterElement (rev_elements : list json) (stack : list frame)
  | AfterMember (rev_members : list (jsstring * json)) (stack : list frame)
  | Done (v : json).

(** A value is complete: hand it to the enclosing container. *)
Definition reduce (v : json) (stack : list frame) : parser :=
  match stack with
  | [] => Done v
  | InArray es :: rest => AfterElement (v :: es) rest
  | InObject ms k :: rest => AfterMember ((k, v) :: ms) rest
  end.

Definition valueStep (stack : list frame) (t : token) : option parser :=
  match t with
  | TNull => Some (reduce JNull stack)
  | TTrue => Some (reduce (JBool true) stack)
  | TFalse => Some (reduce (JBool false) stack)
  | TNumber m e => Some (reduce (JNumber m e) stack)
  | TString s => Some (reduce (JString s) stack)
  | TLBracket => Some (ArrayOpened stack)
  | TLBrace => Some (ObjectOpened stack)
  | _ => None
  end.

Definition parseStep (p : parser) (t : token) : option parser :=
  match p with
  | WantValue stack => valueStep stack t
  | ArrayOpened stack =>
      match t with
      | TRBracket => Some (reduce (JArray []) stack)
      | _ => valueStep (InArray [] :: stack) t
      end
  | ObjectOpened stack =>
      match t with
      | TRBrace => Some (reduce (JObject []) stack)
      | TString k => Some (WantColon [] k stack)
      | _ => None
      end
  | WantKey ms stack =>
      match t with
      | TString k => Some (WantColon ms k stack)
      | _ => None
      end
  | WantColon ms k stack =>
      match t with
      | TColon => Some (WantValue (InObject ms k :: stack))
      | _ => None
      end
  | AfterElement es stack =>
      match t with
      | TComma => Some (WantValue (InArray es :: stack))
      | TRBracket => Some (reduce (JArray (rev es)) stack)
      | _ => None
      end
  | AfterMember ms stack =>
      match t with
      | TComma => Some (WantKey ms stack)
      | TRBrace => Some (reduce (JObject (rev ms)) stack)
      | _ => None
      end
  | Done _ => None
  end.

Fixpoint parseRun (p : parser) (ts : list token) : option parser :=
  match ts with
  | [] => Some p
  | t :: r =>
      match parseStep p t with
      | Some p' => parseRun p' r
      | None => None
      end
  end.

Definition parseTokens (ts : list token) : option json :=
  match parseRun (WantValue []) ts with
  | Some (Done v) => Some v
  | _ => None
  end.

(** [JSON.parse(text)]: [None] stands for the [SyntaxError] it throws. *)
Definition parse (text : jsstring) : option json :=
  match tokens text with
  | Some ts => parseTokens ts
  | None => None
  end.

(** ** Reading values the way the program does *)

(** [o[k]]: [None] is [undefined].  A later member overrides an earlier
    one of the same name, and a value that is no object has none of the
    names the program reads. *)
Fixpoint lookup (k : jsstring) (ms : list (jsstring * json)) : option json :=
  match ms with
  | [] => None
  | (k', v) :: r =>
      match lookup k r with
      | Some v' => Some v'
      | None => if eqb k k' then Some v else None
      end
  end.

Definition prop (o : option json) (k : jsstring) : option json :=
  match o with
  | Some (JObject ms) => lookup k ms
  | _ => None
  end.

(** ToBoolean. *)
Definition truthy (o : option json) : bool :=
  match o with
  | None => false
  | Some JNull => false
  | Some (JBool b) => b
  | Some (JNumber m _) => negb (m =? 0)%Z
  | Some (JString s) => negb (isEmpty s)
  | Some (JArray _) => true
  | Some (JObject _) => true
  end.

(** [a || b]. *)
Definition orElse (a b : option json) : option json :=
  if truthy a then a else b.

(** [a ?? b]. *)
Definition coalesce (a : option json) (b : json) : json :=
  match a with
  | None => b
  | Some JNull => b
  | Some v => v
  end.

(** ** Text of a value: template interpolation and [Array.prototype.join]

    [numberText m e] is the platform's text of the number
    [m * 10 ^ e]; it is left to the platform. *)

Fixpoint toString (numberText : Z -> Z -> jsstring) (v : json) : jsstring :=
  match v with
  | JNull => utf16 "null"
  | JBool true => utf16 "true"
  | JBool false => utf16 "false"
  | JNumber m e => numberText m e
  | JString s => s
  | JArray l =>
      join (utf16 ",")
        (map (fun x => match x with
                       | JNull => []
                       | _ => toString numberText x
                       end) l)
  | JObject _ => utf16 "[object Object]"
  end.

(** [l.join(sep)]: a [null] element gives the empty text. *)
Definition joinArray (numberText : Z -> Z -> jsstring) (sep : jsstring)
  (l : list json) : jsstring :=
  join sep
    (map (fun x => match x with
                   | JNull => []
                   | _ => toString numberText x
                   end) l).

(** A value in a template literal; [None] is [undefined]. *)
Definition interpolate (numberText : Z -> Z -> jsstring) (o : option json)
  : jsstring :=
  match o with
  | None => utf16 "undefined"
  | Some v => toString numberText v
  end.

End Json.

Import Json.

(* ====================================================================== *)
(** * The Cloud Functions: [functions/src/index.ts] *)
(* ====================================================================== *)

Module Server.

(** ** What a handler sees and produces *)

(** The request: [req.method], [req.headers["content-type"]] and
    [req.body] ([None] is [undefined]). *)
Record request : Type := {
  method : jsstring;
  contentType : option jsstring;
  body : option json
}.

(** [res.status(status).json(payload)]. *)
Record response : Type := {
  status : Z;
  payload : json
}.

(** A thrown value, as the catch-all reads it: its message, and its
    [statusCode] when that is an integer ([None] otherwise). *)
Record error : Type := {
  message : jsstring;
  statusCode : option Z
}.

(** One part of the content sent to the model. *)
Inductive part : Type :=
  | Text (text : jsstring)
  | InlineData (data mimeType : jsstring).

(** What [model.generateContent] does: it throws, or it resolves and
    [result?.response?.text?.()] is a string or nullish ([None]). *)
Inductive generated : Type :=
  | Failed (e : error)
  | Answered (text : option jsstring).

(** What the handlers depend on and do not define: the environment, the
    model service, and the platform's conversion of a number to text. *)
Record runtime : Type := {
  GEMINI_API_KEY : option jsstring;
  generateContent : jsstring -> list part -> generated;
  numberToString : Z -> Z -> jsstring
}.

(** The module-level state: whether the lazy singleton is set. *)
Record state : Type := {
  geminiClient : bool
}.

(** The external calls a handler makes. *)
Inductive event : Type :=
  | Generate (model : jsstring) (parts : list part)
  | LoggerError (label : jsstring).

(** ** The handler monad: state, trace and thrown errors *)

Inductive completion (A : Type) : Type :=
  | Value (a : A)
  | Thrown (e : error).
Arguments Value {A} a.
Arguments Thrown {A} e.

Definition M (A : Type) : Type := state -> completion A * state * list event.

Definition ret {A : Type} (a : A) : M A := fun st => (Value a, st, []).

Definition throw {A : Type} (e : error) : M A := fun st => (Thrown e, st, []).

Definition bind {A B : Type} (m : M A) (k : A -> M B) : M B :=
  fun st =>
    match m st with
    | (Value a, st1, tr1) =>
        let '(r, st2, tr2) := k a st1 in (r, st2, tr1 ++ tr2)
    | (Thrown e, st1, tr1) => (Thrown e, st1, tr1)
    end.

Definition tryCatch {A : Type} (m : M A) (handler : error -> M A) : M A :=
  fun st =>
    match m st with
    | (Value a, st1, tr1) => (Value a, st1, tr1)
    | (Thrown e, st1, tr1) =>
        let '(r, st2, tr2) := handler e st1 in (r, st2, tr1 ++ tr2)
    end.

Definition loggerError (label : jsstring) : M unit :=
  fun st => (Value tt, st, [LoggerError label]).

Notation "x <- m ;; k" := (bind m (fun x => k))
  (at level 61, m at next level, right associativity).
Notation "m ;; k" := (bind m (fun _ => k))
  (at level 61, right associativity).

(** ** [getGeminiClient]

    The dynamic import of the SDK is taken to succeed; the API key is
    missing when it is [undefined] or empty. *)
Definition getGeminiClient (rt : runtime) : M unit :=
  fun st =>
    if geminiClient st then (Value tt, st, [])
    else
      match GEMINI_API_KEY rt with
      | Some (_ :: _) => (Value tt, {| geminiClient := true |}, [])
      | _ =>
          (Thrown {| message := quoted "Missing GEMINI_API_KEY. Set it with: npx firebase-tools functions:config:set gemini.key=^...^ then redeploy, OR set env var in runtime.";
                     statusCode := None |}, st, [])
      end.

(** [client.getGenerativeModel({ model }).generateContent(parts)], read
    through [result?.response?.text?.()]. *)
Definition generate (rt : runtime) (model : jsstring) (parts : list part)
  : M (option jsstring) :=
  fun st =>
    match generateContent rt model parts with
    | Failed e => (Thrown e, st, [Generate model parts])
    | Answered t => (Value t, st, [Generate model parts])
    end.

(** ** [normalizeBase64] *)

Record image : Type := {
  mimeType : jsstring;
  base64 : jsstring
}.

(** A pattern character of the regular expression under the [i] flag:
    an ASCII letter matches in either case, anything else only itself. *)
Definition matchesChar (pattern c : code_unit) : bool :=
  pattern =? lowerAscii c.

(** The text after a literal piece of the pattern, when it is there. *)
Fixpoint afterLiteral (lit s : jsstring) {struct lit} : option jsstring :=
  match lit, s with
  | [], _ => Some s
  | p :: lit', c :: s' =>
      if matchesChar p c then afterLiteral lit' s' else None
  | _ :: _, [] => None
  end.

(** [(.+)$]: one character or more, none a line terminator, to the end. *)
Definition dotPlusToEnd (s : jsstring) : bool :=
  negb (isEmpty s) && forallb (fun c => negb (isLineTerminator c)) s.

(** [(.+?);base64,(.+)$] by backtracking: the first group grows one
    character at a time, and stops as soon as the rest matches. *)
Fixpoint lazyGroup (rev_group s : jsstring) : option (jsstring * jsstring) :=
  match s with
  | [] => None
  | c :: r =>
      if isLineTerminator c then None
      else
        match afterLiteral (utf16 ";base64,") r with
        | Some rest =>
            if dotPlusToEnd rest then Some (rev (c :: rev_group), rest)
            else lazyGroup (c :: rev_group) r
        | None => lazyGroup (c :: rev_group) r
        end
  end.

(** [s.match(/^data:(.+?);base64,(.+)$/i)]: the two groups. *)
Definition matchDataUrl (s : jsstring) : option (jsstring * jsstring) :=
  match afterLiteral (utf16 "data:") s with
  | Some r => lazyGroup [] r
  | None => None
  end.

Definition normalizeBase64 (input : jsstring) : image :=
  let trimmed := trim input in
  match matchDataUrl trimmed with
  | Some (m, b) => {| mimeType := m; base64 := b |}
  | None => {| mimeType := utf16 "image/jpeg"; base64 := trimmed |}
  end.

(** ** [assertPostJson] *)
Definition assertPostJson (req : request) : M unit :=
  if negb (eqb (method req) (utf16 "POST")) then
    throw {| message := utf16 "Method not allowed. Use POST.";
             statusCode := Some 405%Z |}
  else
    let header := match contentType req with
                  | Some h => h
                  | None => []
                  end in
    if negb (includes (toLowerCase header) (utf16 "application/json")) then
      throw {| message := utf16 "Unsupported content-type. Use application/json.";
               statusCode := Some 415%Z |}
    else ret tt.

(** ** Responses *)

Definition errorBody (msg : jsstring) : json :=
  JObject [(utf16 "ok", JBool false); (utf16 "error", JString msg)].

Definition respond (code : Z) (v : json) : response :=
  {| status := code; payload := v |}.

(** The catch-all of both handlers: the error's own status when it is a
    non-zero integer, 500 otherwise. *)
Definition catchAll (label : jsstring) (e : error) : M response :=
  loggerError label ;;
  ret (respond
         match statusCode e with
         | Some n => if (n =? 0)%Z then 500%Z else n
         | None => 500%Z
         end
         (errorBody (message e))).

(** ** Text of a value, with the platform's text of numbers *)

Definition toString (rt : runtime) : json -> jsstring :=
  Json.toString (numberToString rt).

Definition joinArray (rt : runtime) : jsstring -> list json -> jsstring :=
  Json.joinArray (numberToString rt).

Definition interpolate (rt : runtime) : option json -> jsstring :=
  Json.interpolate (numberToString rt).

(** ** The prompts of [skinAnalysis] *)

Definition isFrench (language : option json) : bool :=
  match language with
  | Some (JString l) => eqb l (utf16 "fr")
  | _ => false
  end.

Definition systemPromptFr : jsstring := quoted
"Tu es un dermatologue expert spécialisé dans les soins des peaux riches en mélanine. Analyse le profil de peau fourni et génère des recommandations personnalisées de soins.

IMPORTANT: Réponds UNIQUEMENT avec un objet JSON valide, sans texte supplémentaire, sans backticks, sans ^json^ au début. Le format doit être:

{
  ^skinType^: ^le type de peau^,
  ^concerns^: [^liste^, ^des^, ^préoccupations^],
  ^overallScore^: 85,
  ^summary^: ^Résumé personnalisé de l'analyse^,
  ^recommendations^: [
    {^title^: ^Titre^, ^description^: ^Description détaillée^, ^priority^: ^high|medium|low^}
  ],
  ^morningRoutine^: [
    {^step^: 1, ^product^: ^Produit^, ^instructions^: ^Instructions^, ^timing^: ^Durée^}
  ],
  ^eveningRoutine^: [
    {^step^: 1, ^product^: ^Produit^, ^instructions^: ^Instructions^, ^timing^: ^Durée^}
  ],
  ^ingredients^: [
    {^name^: ^Ingrédient^, ^benefit^: ^Bénéfice^, ^safeForMelaninRich^: true, ^caution^: ^optionnel^}
  ]
}".

Definition systemPromptEn : jsstring := quoted
"You are an expert dermatologist specializing in melanin-rich skin care. Analyze the provided skin profile and generate personalized skincare recommendations.

IMPORTANT: Respond ONLY with a valid JSON object, no additional text, no backticks, no ^json^ prefix. The format must be:

{
  ^skinType^: ^the skin type^,
  ^concerns^: [^list^, ^of^, ^concerns^],
  ^overallScore^: 85,
  ^summary^: ^Personalized analysis summary^,
  ^recommendations^: [
    {^title^: ^Title^, ^description^: ^Detailed description^, ^priority^: ^high|medium|low^}
  ],
  ^morningRoutine^: [
    {^step^: 1, ^product^: ^Product^, ^instructions^: ^Instructions^, ^timing^: ^Duration^}
  ],
  ^eveningRoutine^: [
    {^step^: 1, ^product^: ^Product^, ^instructions^: ^Instructions^, ^timing^: ^Duration^}
  ],
  ^ingredients^: [
    {^name^: ^Ingredient^, ^benefit^: ^Benefit^, ^safeForMelaninRich^: true, ^caution^: ^optional^}
  ]
}".

Definition systemPrompt (language : option json) : jsstring :=
  if isFrench language then systemPromptFr else systemPromptEn.

(** [profile.name || placeholder], interpolated. *)
Definition fieldOr (rt : runtime) (profile : option json)
  (name placeholder : string) : jsstring :=
  interpolate rt
    (orElse (prop profile (utf16 name)) (Some (JString (utf16 placeholder)))).

(** [Array.isArray(profile.concerns) ? profile.concerns.join(", ")
     : profile.concerns || placeholder], interpolated. *)
Definition concernsOr (rt : runtime) (profile : option json)
  (placeholder : string) : jsstring :=
  match prop profile (utf16 "concerns") with
  | Some (JArray l) => joinArray rt (utf16 ", ") l
  | c => interpolate rt (orElse c (Some (JString (utf16 placeholder))))
  end.

Definition photoNoticeFr : jsstring :=
  utf16 "Photo de peau fournie pour analyse visuelle.".

Definition photoNoticeEn : jsstring :=
  utf16 "Skin photo provided for visual analysis.".

Definition userPromptFr (rt : runtime) (profile photoData : option json)
  : jsstring :=
  utf16 "Analyse ce profil de peau et génère des recommandations personnalisées:

Type de peau: " ++ fieldOr rt profile "skinType" "Non spécifié" ++ utf16 "
Préoccupations: " ++ concernsOr rt profile "Aucune" ++ utf16 "
Tranche d'âge: " ++ fieldOr rt profile "ageRange" "Non spécifié" ++ utf16 "
Exposition au soleil: " ++ fieldOr rt profile "sunExposure" "Non spécifié" ++ utf16 "
Routine actuelle: " ++ fieldOr rt profile "currentRoutine" "Non spécifié" ++ utf16 "
" ++ (if truthy photoData then photoNoticeFr else []) ++ utf16 "

Génère une analyse complète avec:
- Un score de santé de la peau (0-100)
- Un résumé personnalisé
- 3-4 recommandations prioritaires
- Une routine matin (4-5 étapes)
- Une routine soir (4-5 étapes)
- 5-6 ingrédients recommandés (avec précautions pour peaux riches en mélanine)".

Definition userPromptEn (rt : runtime) (profile photoData : option json)
  : jsstring :=
  utf16 "Analyze this skin profile and generate personalized recommendations:

Skin Type: " ++ fieldOr rt profile "skinType" "Not specified" ++ utf16 "
Concerns: " ++ concernsOr rt profile "None" ++ utf16 "
Age Range: " ++ fieldOr rt profile "ageRange" "Not specified" ++ utf16 "
Sun Exposure: " ++ fieldOr rt profile "sunExposure" "Not specified" ++ utf16 "
Current Routine: " ++ fieldOr rt profile "currentRoutine" "Not specified" ++ utf16 "
" ++ (if truthy photoData then photoNoticeEn else []) ++ utf16 "

Generate a complete analysis with:
- A skin health score (0-100)
- A personalized summary
- 3-4 priority recommendations
- A morning routine (4-5 steps)
- An evening routine (4-5 steps)
- 5-6 recommended ingredients (with cautions for melanin-rich skin)".

Definition userPrompt (rt : runtime) (language profile photoData : option json)
  : jsstring :=
  if isFrench language then userPromptFr rt profile photoData
  else userPromptEn rt profile photoData.

(** The content array: the two prompts, and the photo when it is a
    non-empty string. *)
Definition contentParts (rt : runtime) (language profile photoData : option json)
  : list part :=
  Text (systemPrompt language ++ utf16 "

" ++ userPrompt rt language profile photoData)
  :: match photoData with
     | Some (JString (c :: p)) =>
         let img := normalizeBase64 (c :: p) in
         [InlineData (base64 img) (mimeType img)]
     | _ => []
     end.

(** ** The response reconciler of [skinAnalysis] *)

Definition fence : jsstring := utf16 "```".
Definition fenceJson : jsstring := utf16 "```json".

Definition stripFences (responseText : jsstring) : jsstring :=
  let c0 := trim responseText in
  let c1 := if startsWith c0 fenceJson then sliceFrom 7 c0 else c0 in
  let c2 := if startsWith c1 fence then sliceFrom 3 c1 else c1 in
  let c3 := if endsWith c2 fence then sliceDropEnd 3 c2 else c2 in
  trim c3.

(** Fence stripping, then [JSON.parse]. *)
Definition decode (responseText : jsstring) : option json :=
  parse (stripFences responseText).

Definition modelName : jsstring := utf16 "gemini-1.5-flash".

Definition emptyModelResponse : response :=
  respond 502 (errorBody (utf16 "Empty response from AI model.")).

(** ** [skinAnalysis]

    The handler is the callback handed to the CORS middleware.  The
    middleware is not part of this development: it answers a preflight
    itself and runs the callback for every other request. *)
Definition skinAnalysis (rt : runtime) (req : request) : M response :=
  tryCatch
    (assertPostJson req ;;
     let fields := Some (coalesce (body req) (JObject [])) in
     let profile := prop fields (utf16 "profile") in
     let language := match prop fields (utf16 "language") with
                     | None => Some (JString (utf16 "en"))
                     | Some l => Some l
                     end in
     let photoData := prop fields (utf16 "photoData") in
     if negb (truthy profile) then
       ret (respond 400 (errorBody (utf16 "Missing profile data.")))
     else
       getGeminiClient rt ;;
       result <- generate rt modelName
                   (contentParts rt language profile photoData) ;;
       let responseText := match result with Some t => t | None => [] end in
       if isEmpty responseText then ret emptyModelResponse
       else
         match decode responseText with
         | None =>
             loggerError (utf16 "Failed to parse AI response") ;;
             ret (respond 502 (errorBody (utf16 "Invalid AI response format.")))
         | Some analysisResult => ret (respond 200 analysisResult)
         end)
    (catchAll (utf16 "skinAnalysis error")).

(** ** [analyzePhoto] *)

(** [lang === "fr" ? "French" : "English"]. *)
Definition languageName (lang : option json) : jsstring :=
  if isFrench lang then utf16 "French" else utf16 "English".

Definition coachPrompt (language : jsstring) : jsstring :=
  utf16 "You are a premium cosmetic beauty coach specialized in melanin-rich skin.
Analyze the selfie for cosmetic insights only (NOT medical diagnosis). Be specific and actionable.
Return concise, structured recommendations (cleanser/treatment/moisturizer/SPF + 1-2 weekly actions) and include safety cautions for irritation/PIH risk.
Write in " ++ language ++ utf16 ".".

(** [prompt && typeof prompt === "string" && prompt.trim().length > 0
     ? prompt.trim() : template]. *)
Definition basePrompt (prompt lang : option json) : jsstring :=
  let language := languageName lang in
  match prompt with
  | Some (JString p) =>
      if negb (isEmpty p) && (0 <? length (trim p)) then trim p
      else coachPrompt language
  | _ => coachPrompt language
  end.

Definition analyzePhoto (rt : runtime) (req : request) : M response :=
  tryCatch
    (assertPostJson req ;;
     let fields := Some (coalesce (body req) (JObject [])) in
     let prompt := prop fields (utf16 "prompt") in
     let lang := prop fields (utf16 "lang") in
     match prop fields (utf16 "imageBase64") with
     | Some (JString (c :: s)) =>
         let imageBase64 := c :: s in
         if 8000000 <? length imageBase64 then
           ret (respond 413
                  (errorBody (utf16 "Image too large. Please upload a smaller image.")))
         else
           let img := normalizeBase64 imageBase64 in
           getGeminiClient rt ;;
           result <- generate rt modelName
                       [Text (basePrompt prompt lang);
                        InlineData (base64 img) (mimeType img)] ;;
           let analysisText := match result with Some t => t | None => [] end in
           if isEmpty analysisText then ret emptyModelResponse
           else
             ret (respond 200
                    (JObject [(utf16 "ok", JBool true);
                              (utf16 "analysisText", JString analysisText)]))
     | _ =>
         ret (respond 400 (errorBody (utf16 "Missing imageBase64 (string).")))
     end)
    (catchAll (utf16 "analyzePhoto error")).

(** ** [health]

    Like the two handlers above it is the callback handed to the CORS
    middleware.  It looks neither at the method nor at the body; [time]
    is the instant of the answer, as [toISOString] writes it. *)
Definition health (time : jsstring) (req : request) : response :=
  respond 200
    (JObject [(utf16 "ok", JBool true);
              (utf16 "service", JString (utf16 "drbn-functions"));
              (utf16 "time", JString time)]).

(** ** The origin check handed to the CORS middleware *)

Definition allowedOrigins : list jsstring :=
  [utf16 "https://drbn1-40b01.web.app";
   utf16 "https://drbn1-40b01.firebaseapp.com";
   utf16 "http://localhost:5173";
   utf16 "http://localhost:5174"].

(** [!origin || allowedOrigins.includes(origin)]: the callback is given
    [true], or the error ([None]: no [Origin] header). *)
Definition corsOrigin (origin : option jsstring) : error + bool :=
  let absent := match origin with Some (_ :: _) => false | _ => true end in
  let o := match origin with Some o => o | None => [] end in
  if absent || existsb (eqb o) allowedOrigins then inr true
  else inl {| message := utf16 "Not allowed by CORS"; statusCode := None |}.

End Server.

(* ====================================================================== *)
(** * The browser-side client: [firebaseFunctions.ts] *)
(* ====================================================================== *)

Module Client.

(** [payload.photos]: [None] is [null] or [undefined]. *)
Record photoSet : Type := {
  front : option jsstring;
  left_profile : option jsstring;
  right_profile : option jsstring
}.

Record checkIn : Type := {
  profile : json;
  photos : photoSet;
  language : jsstring
}.

(** What [fetch] resolves to: the status line, and the body as
    [response.json()] reads it ([None]: it rejects). *)
Record reply : Type := {
  status : Z;
  statusText : jsstring;
  jsonBody : option json
}.

Inductive fetched : Type :=
  | Rejected
  | Resolved (r : reply).

Record runtime : Type := {
  FUNCTIONS_BASE_URL : jsstring;
  fetch : jsstring -> json -> fetched;
  numberToString : Z -> Z -> jsstring
}.

(** The POST requests that were issued: URL and the value serialised as
    the body. *)
Inductive call : Type :=
  | Fetch (url : jsstring) (body : json).

(** What the operation throws. *)
Inductive failure : Type :=
  | Error (message : jsstring)
  | FetchRejected
  | JsonRejected
  | KeysOfNull.

(** [response.ok]. *)
Definition ok (r : reply) : bool :=
  (200 <=? status r)%Z && (status r <=? 299)%Z.

Definition truthyText (o : option jsstring) : bool :=
  match o with
  | Some (_ :: _) => true
  | _ => false
  end.

(** [a || b] on optional strings. *)
Definition orText (a b : option jsstring) : option jsstring :=
  if truthyText a then a else b.

(** The message of a non-2xx reply: the body's [error] when it is truthy,
    the default when it is not, and the default with the status line when
    the body cannot be read. *)
Definition failureMessage (rt : runtime) (default : jsstring) (r : reply)
  : jsstring :=
  match jsonBody r with
  | None | Some JNull =>
      default ++ utf16 " (" ++ numberToString rt (status r) 0
        ++ utf16 " " ++ statusText r ++ utf16 ")"
  | Some errorData =>
      interpolate (numberToString rt)
        (orElse (prop (Some errorData) (utf16 "error")) (Some (JString default)))
  end.

(** The check-in shape of a structured result. *)
Definition checkInResult (data : json) : json :=
  JObject
    [(utf16 "overall_score",
        coalesce (prop (Some data) (utf16 "overallScore")) (JInt 75));
     (utf16 "summary",
        coalesce (prop (Some data) (utf16 "summary"))
          (JString (utf16 "Analysis complete.")));
     (utf16 "derived_features",
        JObject
          [(utf16 "detected_concerns",
              coalesce (prop (Some data) (utf16 "concerns")) (JArray []));
           (utf16 "ai_notes",
              coalesce (prop (Some data) (utf16 "summary")) (JString []))])].

(** ** [analyzeCheckInPhotos] *)
Definition analyzeCheckInPhotos (rt : runtime) (payload : checkIn)
  : (failure + json) * list call :=
  let photoToAnalyze :=
    orText (orText (front (photos payload)) (left_profile (photos payload)))
      (right_profile (photos payload)) in
  match photoToAnalyze with
  | Some (c :: p) =>
      let url := FUNCTIONS_BASE_URL rt ++ utf16 "/skinAnalysis" in
      let sent :=
        JObject [(utf16 "profile", profile payload);
                 (utf16 "language", JString (language payload));
                 (utf16 "photoData", JString (c :: p))] in
      match fetch rt url sent with
      | Rejected => (inl FetchRejected, [Fetch url sent])
      | Resolved response =>
          if negb (ok response) then
            (inl (Error (failureMessage rt
                           (utf16 "Failed to analyze check-in photos") response)),
             [Fetch url sent])
          else
            match jsonBody response with
            | None => (inl JsonRejected, [Fetch url sent])
            | Some JNull => (inl KeysOfNull, [Fetch url sent])
            | Some data => (inr (checkInResult data), [Fetch url sent])
            end
      end
  | _ => (inl (Error (utf16 "No photo available for analysis")), [])
  end.

(** ** [generateSkinAnalysis] and [analyzePhoto]

    Both run inside a [try] whose [catch] throws again what is an
    instance of [Error] and replaces every other thrown value by a network
    error.  What [new Error] throws is an instance of [Error], and so is
    the TypeError of a read on [null]; whether what a rejected [fetch] or
    a rejected [response.json()] rejects with is one is left to the
    platform (in a browser it is: a TypeError, a SyntaxError or a
    DOMException). *)
Record rejections : Type := {
  fetchError : bool;
  jsonError : bool
}.

(** [catch (error) { if (error instanceof Error) throw error;
     throw new Error(network) }]. *)
Definition caught (rj : rejections) (network : jsstring) (f : failure)
  : failure :=
  match f with
  | FetchRejected => if fetchError rj then FetchRejected else Error network
  | JsonRejected => if jsonError rj then JsonRejected else Error network
  | Error _ | KeysOfNull => f
  end.

(** [request] is the value [JSON.stringify] serialises. *)
Definition generateSkinAnalysis (rt : runtime) (rj : rejections)
  (request : json) : (failure + json) * list call :=
  let url := FUNCTIONS_BASE_URL rt ++ utf16 "/skinAnalysis" in
  let network := utf16 "Network error calling AI service" in
  (match fetch rt url request with
   | Rejected => inl (caught rj network FetchRejected)
   | Resolved response =>
       if negb (ok response) then
         inl (Error (failureMessage rt
                       (utf16 "Failed to generate skin analysis") response))
       else
         match jsonBody response with
         | None => inl (caught rj network JsonRejected)
         | Some JNull => inl KeysOfNull
         | Some (JObject ms) => inr (JObject ms)
         | Some (JArray l) => inr (JArray l)
         | Some _ =>
             inl (Error (utf16 "Invalid response format from AI service"))
         end
   end,
   [Fetch url request]).

(** What the client's [analyzePhoto] throws: a failure as above, or the
    TypeError of reading a property of [null]. *)
Inductive raised : Type :=
  | Failure (f : failure)
  | ReadOfNull.

(** [request.imageBase64?.length] is read before anything else: a [null]
    request throws there. *)
Definition analyzePhoto (rt : runtime) (rj : rejections) (request : json)
  : (raised + json) * list call :=
  let url := FUNCTIONS_BASE_URL rt ++ utf16 "/analyzePhoto" in
  let network := utf16 "Network error calling photo analysis" in
  match request with
  | JNull => (inl ReadOfNull, [])
  | _ =>
      (match fetch rt url request with
       | Rejected => inl (Failure (caught rj network FetchRejected))
       | Resolved response =>
           if negb (ok response) then
             inl (Failure (Error (failureMessage rt
                                    (utf16 "Failed to analyze photo") response)))
           else
             match jsonBody response with
             | None => inl (Failure (caught rj network JsonRejected))
             | Some JNull => inl ReadOfNull
             | Some data =>
                 if truthy (prop (Some data) (utf16 "ok")) then inr data
                 else
                   inl (Failure (Error
                     (interpolate (numberToString rt)
                        (orElse (prop (Some data) (utf16 "error"))
                           (Some (JString
                              (utf16 "Invalid response from photo analysis")))))))
             end
       end,
       [Fetch url request])
  end.

(** ** [healthCheck]

    [get] is [fetch] with the method GET.  Whatever is thrown is caught
    and answered [false]. *)
Definition healthCheck (rt : runtime) (get : jsstring -> fetched) : bool :=
  match get (FUNCTIONS_BASE_URL rt ++ utf16 "/health") with
  | Rejected => false
  | Resolved response =>
      if negb (ok response) then false
      else
        match jsonBody response with
        | None | Some JNull => false
        | Some data =>
            match prop (Some data) (utf16 "ok") with
            | Some (JBool true) => true
            | _ => false
            end
        end
  end.

(** ** [generateSkinAnalysisFromProfile]

    The six fields it reads of the profile ([None]: [undefined]). *)
Record UserProfile : Type := {
  skinType : option json;
  concerns : option json;
  ageRange : option json;
  sunExposure : option json;
  currentRoutine : option json;
  photoData : option json
}.

(** A member of an object literal as [JSON.stringify] writes it: one
    whose value is [undefined] is left out. *)
Definition written (name : string) (v : option json)
  : list (jsstring * json) :=
  match v with
  | Some x => [(utf16 name, x)]
  | None => []
  end.

(** [language] is [None] when the argument is left out. *)
Definition generateSkinAnalysisFromProfile (rt : runtime) (rj : rejections)
  (profile : UserProfile) (language : option jsstring)
  : (failure + json) * list call :=
  generateSkinAnalysis rt rj
    (JObject
       [(utf16 "profile",
           JObject (written "skinType" (skinType profile)
                    ++ written "concerns" (concerns profile)
                    ++ written "ageRange" (ageRange profile)
                    ++ written "sunExposure" (sunExposure profile)
                    ++ written "currentRoutine" (currentRoutine profile)
                    ++ written "photoData" (photoData profile)));
        (utf16 "language",
           JString (match language with
                    | Some l => l
                    | None => utf16 "en"
                    end))]).

End Client.

Import Server.

(* ====================================================================== *)
(** * The specification's notions *)
(* ====================================================================== *)

(** ** The data-URL pattern *)

(** No code unit of [s] is a line terminator. *)
Definition oneLine (s : jsstring) : bool :=
  forallb (fun c => negb (isLineTerminator c)) s.

(** The data-URL pattern as the specification words it:
    [data:<mime>;base64,<payload>], the scheme in any case. *)
Definition SpecDataUrl (s mime payload : jsstring) : Prop :=
  exists scheme,
    toLowerCase scheme = utf16 "data:"
    /\ s = scheme ++ mime ++ utf16 ";base64," ++ payload
    /\ mime <> [] /\ payload <> [].

(** The mime type is captured non-greedily: no split has a shorter one. *)
Definition SpecDataUrlShortest (s mime payload : jsstring) : Prop :=
  SpecDataUrl s mime payload
  /\ forall mime' payload',
       SpecDataUrl s mime' payload' ->
       (List.length mime <= List.length mime')%nat.

(** The pattern the code matches: both literal pieces in any case, and
    both groups non-empty and free of line terminators. *)
Definition DataUrl (s mime payload : jsstring) : Prop :=
  exists scheme sep,
    toLowerCase scheme = utf16 "data:"
    /\ toLowerCase sep = utf16 ";base64,"
    /\ s = scheme ++ mime ++ sep ++ payload
    /\ mime <> [] /\ payload <> []
    /\ oneLine mime = true /\ oneLine payload = true.

(** The same pattern without its scheme: what [lazyGroup] searches. *)
Definition Groups (r mime payload : jsstring) : Prop :=
  exists sep,
    toLowerCase sep = utf16 ";base64,"
    /\ r = mime ++ sep ++ payload
    /\ mime <> [] /\ payload <> []
    /\ oneLine mime = true /\ oneLine payload = true.

Definition DataUrlShortest (s mime payload : jsstring) : Prop :=
  DataUrl s mime payload
  /\ forall mime' payload',
       DataUrl s mime' payload' ->
       (List.length mime <= List.length mime')%nat.

(** ** Fence markers *)

(** All of [w] is white space that [trim] removes. *)
Definition blank (w : jsstring) : bool := forallb isTrimmed w.

(** The response a model produces when it wraps a text in a json fence:
    the tagged marker, a line feed, the text, a line feed, the marker. *)
Definition wrapInFences (s : jsstring) : jsstring :=
  fenceJson ++ [10] ++ s ++ [10] ++ fence.

(** The input holds at most one leading fence marker and at most one
    trailing fence marker: white space; an optional leading marker, the
    tagged one when the tag follows it; a body that, white space apart,
    neither starts nor ends with a marker; an optional trailing marker;
    white space. *)
Definition AtMostOneFenceEachEnd (s : jsstring) : Prop :=
  exists before lead body trail after,
    s = before ++ lead ++ body ++ trail ++ after
    /\ blank before = true /\ blank after = true
    /\ (lead = []
        \/ (lead = fence /\ startsWith body (utf16 "json") = false)
        \/ lead = fenceJson)
    /\ (trail = [] \/ trail = fence)
    /\ startsWith (trim body) fence = false
    /\ endsWith (trim body) fence = false.

(** ** The handlers, read from outside *)

(** A request that passes [assertPostJson]. *)
Definition validPost (req : request) : bool :=
  eqb (method req) (utf16 "POST")
  && includes
       (toLowerCase (match contentType req with Some h => h | None => [] end))
       (utf16 "application/json").

(** A field of the request body, as the handlers destructure it. *)
Definition field (req : request) (name : string) : option json :=
  prop (Some (coalesce (body req) (JObject []))) (utf16 name).

(** [language = "en"]: the default applies to [undefined] only. *)
Definition languageOf (req : request) : option json :=
  match field req "language" with
  | None => Some (JString (utf16 "en"))
  | Some l => Some l
  end.

(** The model client exists already, or the API key is set. *)
Definition clientReady (rt : runtime) (st : state) : bool :=
  geminiClient st
  || match GEMINI_API_KEY rt with
     | Some (_ :: _) => true
     | _ => false
     end.

Definition ready : state := {| geminiClient := true |}.

(** The status the catch-all answers with. *)
Definition statusOf (e : error) : Z :=
  match statusCode e with
  | Some n => if (n =? 0)%Z then 500%Z else n
  | None => 500%Z
  end.

(** The model's answer is no text, or the empty text. *)
Definition emptyText (t : option jsstring) : bool :=
  match t with
  | Some (_ :: _) => false
  | _ => true
  end.

(** The answer of [skinAnalysis] to what the model returned. *)
Definition reconciled (text : option jsstring) : response * list event :=
  match text with
  | Some (c :: t) =>
      match decode (c :: t) with
      | Some analysisResult => (respond 200 analysisResult, [])
      | None =>
          (respond 502 (errorBody (utf16 "Invalid AI response format.")),
           [LoggerError (utf16 "Failed to parse AI response")])
      end
  | _ => (emptyModelResponse, [])
  end.

(** The answer of [analyzePhoto] to what the model returned. *)
Definition relayed (text : option jsstring) : response :=
  match text with
  | Some (c :: t) =>
      respond 200
        (JObject [(utf16 "ok", JBool true);
                  (utf16 "analysisText", JString (c :: t))])
  | _ => emptyModelResponse
  end.

(** The content [analyzePhoto] sends for an image and a request. *)
Definition photoParts (req : request) (imageBase64 : jsstring) : list part :=
  [Text (basePrompt (field req "prompt") (field req "lang"));
   InlineData (base64 (normalizeBase64 imageBase64))
     (mimeType (normalizeBase64 imageBase64))].

(** The content [skinAnalysis] sends for a request. *)
Definition analysisParts (rt : runtime) (req : request) : list part :=
  contentParts rt (languageOf req) (field req "profile") (field req "photoData").

(** ** The profile of the data model *)

(** ProfileInput: every field is optional ([None]: absent). *)
Record ProfileInput : Type := {
  skinType : option jsstring;
  concerns : option (list jsstring);
  ageRange : option jsstring;
  sunExposure : option jsstring;
  currentRoutine : option jsstring
}.

Definition member (name : string) (v : option json) : list (jsstring * json) :=
  match v with
  | Some x => [(utf16 name, x)]
  | None => []
  end.

(** The profile as it arrives in the request body: the present fields. *)
Definition profileJson (p : ProfileInput) : json :=
  JObject
    (member "skinType" (option_map JString (skinType p))
     ++ member "concerns"
          (option_map (fun l => JArray (map JString l)) (concerns p))
     ++ member "ageRange" (option_map JString (ageRange p))
     ++ member "sunExposure" (option_map JString (sunExposure p))
     ++ member "currentRoutine" (option_map JString (currentRoutine p))).

Definition french (lang : jsstring) : bool := eqb lang (utf16 "fr").

(** The placeholders and the notice of each language. *)
Definition notSpecified (lang : jsstring) : jsstring :=
  if french lang then utf16 "Non spécifié" else utf16 "Not specified".

Definition noConcerns (lang : jsstring) : jsstring :=
  if french lang then utf16 "Aucune" else utf16 "None".

Definition photoNotice (lang : jsstring) : jsstring :=
  if french lang then photoNoticeFr else photoNoticeEn.

(** What a line shows for an optional text: the text when it is present
    and not empty, the placeholder otherwise. *)
Definition shown (placeholder : jsstring) (v : option jsstring) : jsstring :=
  match v with
  | Some (c :: t) => c :: t
  | _ => placeholder
  end.

Definition shownConcerns (lang : jsstring) (v : option (list jsstring))
  : jsstring :=
  match v with
  | Some l => join (utf16 ", ") l
  | None => noConcerns lang
  end.

(** A line of the prompt: the label of the language, the text, a line
    feed. *)
Definition labelled (lang : jsstring) (fr en : string) (text : jsstring)
  : jsstring :=
  (if french lang then utf16 fr else utf16 en) ++ text ++ [10].

(** The five texts a prompt shows for a profile. *)
Definition shownTexts (lang : jsstring) (p : ProfileInput) : list jsstring :=
  [shown (notSpecified lang) (skinType p);
   shownConcerns lang (concerns p);
   shown (notSpecified lang) (ageRange p);
   shown (notSpecified lang) (sunExposure p);
   shown (notSpecified lang) (currentRoutine p)].

(** The layout both user prompts share: a heading that ends with the
    first label, five labelled texts, the notice line, the closing
    instructions. *)
Definition layout (heading l2 l3 l4 l5 closing : jsstring)
  (v1 v2 v3 v4 v5 notice : jsstring) : jsstring :=
  heading ++ 58 :: 32 :: v1
  ++ 10 :: l2 ++ 58 :: 32 :: v2
  ++ 10 :: l3 ++ 58 :: 32 :: v3
  ++ 10 :: l4 ++ 58 :: 32 :: v4
  ++ 10 :: l5 ++ 58 :: 32 :: v5
  ++ 10 :: notice ++ 10 :: closing.

(** A text that can only lie inside one piece of a layout: it is not
    empty, does not start with a space, and holds neither a colon nor a
    line feed. *)
Definition unbroken (p : jsstring) : bool :=
  match p with
  | [] => false
  | x :: _ =>
      negb (x =? 32)
      && forallb (fun c => negb (c =? 58) && negb (c =? 10)) p
  end.

(** ** The check-in photos *)

Definition available (o : option jsstring) : list jsstring :=
  match o with
  | Some (c :: s) => [c :: s]
  | _ => []
  end.

(** The first photo that is a non-empty string, in the order front, left
    profile, right profile. *)
Definition firstAvailable (ps : Client.photoSet) : option jsstring :=
  hd_error (available (Client.front ps)
            ++ available (Client.left_profile ps)
            ++ available (Client.right_profile ps)).

(** ** What a handler called *)

(** The model calls of a trace: the model and the content of each. *)
Definition modelCalls (tr : list event) : list (jsstring * list part) :=
  flat_map (fun e => match e with
                     | Generate model parts => [(model, parts)]
                     | LoggerError _ => []
                     end) tr.

(** The content-type header as [assertPostJson] reads it. *)
Definition contentTypeOf (req : request) : jsstring :=
  match contentType req with
  | Some h => h
  | None => []
  end.

(** ** Data URLs, as a browser writes them *)

Definition dataUrl (mime payload : jsstring) : jsstring :=
  utf16 "data:" ++ mime ++ utf16 ";base64," ++ payload.

(** No code unit of [s] is white space that [trim] removes. *)
Definition spaceless (s : jsstring) : bool :=
  forallb (fun c => negb (isTrimmed c)) s.

(** ** Client and server together *)

(** The request a call of the client arrives as: every call of the
    client is a POST with the content type [application/json], and its
    body is the value the client serialised. *)
Definition arrives (c : Client.call) : request :=
  match c with
  | Client.Fetch _ b =>
      {| method := utf16 "POST";
         contentType := Some (utf16 "application/json");
         body := Some b |}
  end.

(** The reply [fetch] resolves to for an answer of a handler: the status
    of the answer, the status text of the connection, and the payload as
    [response.json()] reads it back. *)
Definition replyOf (r : response) (statusText : jsstring) : Client.reply :=
  {| Client.status := status r;
     Client.statusText := statusText;
     Client.jsonBody := Some (payload r) |}.

(** What the message [m] of a failed reply [r] is, for an operation
    whose own message is [default]: the [error] of the body when that is
    a text that is not empty; [default] when the body can be read, is
    not [null] and has no truthy [error]; and [default] with the status
    line when the body cannot be read or is [null]. *)
Definition Reported (rt : Client.runtime) (default : jsstring)
  (r : Client.reply) (m : jsstring) : Prop :=
  (forall e, prop (Client.jsonBody r) (utf16 "error") = Some (JString e) ->
             e <> [] -> m = e)
  /\ (forall v, Client.jsonBody r = Some v -> v <> JNull ->
                truthy (prop (Some v) (utf16 "error")) = false -> m = default)
  /\ (Client.jsonBody r = None \/ Client.jsonBody r = Some JNull ->
      m = default ++ utf16 " (" ++ Client.numberToString rt (Client.status r) 0
            ++ utf16 " " ++ Client.statusText r ++ utf16 ")").

(** The error of the origin check. *)
Definition notAllowed : error :=
  {| message := utf16 "Not allowed by CORS"; statusCode := None |}.

(** The message of the missing API key. *)
Definition missingKey : jsstring :=
  quoted "Missing GEMINI_API_KEY. Set it with: npx firebase-tools functions:config:set gemini.key=^...^ then redeploy, OR set env var in runtime.".

(** ** Sample surroundings, for concrete runs *)

(** The text of an integer [m * 10 ^ e], [0 <= e], in decimal. *)
Definition integerText (m e : Z) : jsstring :=
  utf16 (NilZero.string_of_int (Z.to_int (m * 10 ^ e))).

(** A runtime whose API key is set and whose model always does [g]. *)
Definition sampleRuntime (g : generated) : runtime :=
  {| GEMINI_API_KEY := Some (utf16 "test-key");
     generateContent := fun _ _ => g;
     numberToString := integerText |}.

Definition jsonPost (b : json) : request :=
  {| method := utf16 "POST";
     contentType := Some (utf16 "application/json; charset=utf-8");
     body := Some b |}.

Definition fresh : state := {| geminiClient := false |}.

(** A string of [n] letters A. *)
Definition letters (n : N) : jsstring := N.iter n (cons 65) [].

(** A POST that carries an image and nothing else. *)
Definition photoPost (imageBase64 : jsstring) : request :=
  jsonPost (JObject [(utf16 "imageBase64", JString imageBase64)]).

(** A POST that carries a profile and nothing else. *)
Definition profilePost (profile : json) : request :=
  jsonPost (JObject [(utf16 "profile", profile)]).

(** A data URL whose payload is broken over two lines. *)
Definition twoLinePayload : jsstring :=
  utf16 "iVBORw0KGgoAAAANSUhEUgAA" ++ [10] ++ utf16 "AAEAAAABCAYAAAAfFcSJ".

Definition twoLineDataUrl : jsstring :=
  utf16 "data:image/png;base64," ++ twoLinePayload.

(** A profile with every text field and no concerns. *)
Definition profileWithoutConcerns : ProfileInput :=
  {| skinType := Some (utf16 "combination");
     concerns := None;
     ageRange := Some (utf16 "25-34");
     sunExposure := Some (utf16 "moderate");
     currentRoutine := Some (utf16 "basic") |}.

(** A profile whose routine, a text of two lines, quotes the photo
    notice on its second line. *)
Definition profileQuotingNotice : ProfileInput :=
  {| skinType := None;
     concerns := Some [utf16 "dryness"];
     ageRange := None;
     sunExposure := None;
     currentRoutine := Some (utf16 "cleanser, then moisturizer" ++ [10]
                             ++ photoNoticeEn) |}.

Definition clientRuntime (f : Client.fetched) : Client.runtime :=
  {| Client.FUNCTIONS_BASE_URL :=
       utf16 "https://us-central1-drbn1-40b01.cloudfunctions.net";
     Client.fetch := fun _ _ => f;
     Client.numberToString := integerText |}.

Definition checkInOf (front left_profile right_profile : option jsstring)
  : Client.checkIn :=
  {| Client.profile := JObject [];
     Client.photos :=
       {| Client.front := front;
          Client.left_profile := left_profile;
          Client.right_profile := right_profile |};
     Client.language := utf16 "en" |}.

(** A small image, as a data URL. *)
Definition tinyPng : jsstring := utf16 "data:image/png;base64,iVBORw0KGgo=".

(** The error of a model call that ran out of quota. *)
Definition quotaError : error :=
  {| message := utf16 "Resource has been exhausted";
     statusCode := Some 429%Z |}.

(** A runtime whose API key is not set and whose model always does [g]. *)
Definition keyless (g : generated) : runtime :=
  {| GEMINI_API_KEY := None;
     generateContent := fun _ _ => g;
     numberToString := integerText |}.

(** A browser: what [fetch] and [response.json()] reject with are
    instances of [Error]. *)
Definition browser : Client.rejections :=
  {| Client.fetchError := true; Client.jsonError := true |}.

(** The request [generateSkinAnalysisFromProfile] issues for that
    profile. *)
Definition profileCall : Client.call :=
  Client.Fetch
    (utf16 "https://us-central1-drbn1-40b01.cloudfunctions.net/skinAnalysis")
    (JObject
       [(utf16 "profile",
           JObject [(utf16 "skinType", JString (utf16 "oily"));
                    (utf16 "concerns", JArray [JString (utf16 "acne")]);
                    (utf16 "photoData", JString tinyPng)]);
        (utf16 "language", JString (utf16 "en"))]).

(** A request whose method is in lower case, and a POST of plain text. *)
Definition lowerCasePost : request :=
  {| method := utf16 "post";
     contentType := Some (utf16 "application/json");
     body := None |}.

Definition plainTextPost : request :=
  {| method := utf16 "POST";
     contentType := Some (utf16 "text/plain");
     body := None |}.

(** A POST that carries a profile and a photo. *)
Definition photoProfilePost (profile photoData : json) : request :=
  jsonPost (JObject [(utf16 "profile", profile);
                     (utf16 "photoData", photoData)]).

(** A reply with a JSON body. *)
Definition jsonReply (status : Z) (statusText : string) (b : json)
  : Client.reply :=
  {| Client.status := status;
     Client.statusText := utf16 statusText;
     Client.jsonBody := Some b |}.

(** A profile of the application that holds a photo. *)
Definition profileWithPhoto : Client.UserProfile :=
  {| Client.skinType := Some (JString (utf16 "oily"));
     Client.concerns := Some (JArray [JString (utf16 "acne")]);
     Client.ageRange := None;
     Client.sunExposure := None;
     Client.currentRoutine := None;
     Client.photoData := Some (JString tinyPng) |}.

(* ====================================================================== *)
(** * Tactics *)
(* ====================================================================== *)

(** Case analysis on the comparisons of a hypothesis. *)
Ltac split_tests :=
  repeat match goal with
         | H : context [N.eqb ?k ?v] |- _ =>
             destruct (N.eqb_spec k v); cbn [andb] in H; try discriminate H
         end.

(** Case analysis on every comparison in sight, with arithmetic. *)
Ltac tests :=
  repeat
    (match goal with
     | H : context [N.eqb ?a ?b] |- _ => destruct (N.eqb_spec a b)
     | H : context [N.leb ?a ?b] |- _ => destruct (N.leb_spec a b)
     | H : context [N.ltb ?a ?b] |- _ => destruct (N.ltb_spec a b)
     | |- context [N.eqb ?a ?b] => destruct (N.eqb_spec a b)
     | |- context [N.leb ?a ?b] => destruct (N.leb_spec a b)
     | |- context [N.ltb ?a ?b] => destruct (N.ltb_spec a b)
     end;
     try subst; cbn [andb orb negb] in *; try discriminate; try lia).

(* ====================================================================== *)
(** * The definitions at work *)
(* ====================================================================== *)

Example utf16_ascii : utf16 "data:" = [100; 97; 116; 97; 58].
Proof. reflexivity. Qed.

Example utf16_accent : utf16 "Non spécifié" = [78; 111; 110; 32; 115; 112; 233; 99; 105; 102; 105; 233].
Proof. reflexivity. Qed.

Example trim_both_ends :
  trim ([32; 10; 160] ++ utf16 "a b" ++ [9; 8233; 65279]) = utf16 "a b".
Proof. reflexivity. Qed.

Example slice_short : sliceFrom 7 (utf16 "```") = [] /\ sliceDropEnd 3 (utf16 "ab```") = utf16 "ab".
Proof. split; reflexivity. Qed.

Example normalize_data_url :
  normalizeBase64 (utf16 "data:image/webp;base64,UklGRg==")
  = {| mimeType := utf16 "image/webp"; base64 := utf16 "UklGRg==" |}.
Proof. vm_compute. reflexivity. Qed.

Example normalize_shortest_mime :
  normalizeBase64 (utf16 "data:a;base64,b;base64,c")
  = {| mimeType := utf16 "a"; base64 := utf16 "b;base64,c" |}.
Proof. vm_compute. reflexivity. Qed.

Example normalize_empty_mime :
  normalizeBase64 (utf16 "data:;base64,UklGRg==")
  = {| mimeType := utf16 "image/jpeg"; base64 := utf16 "data:;base64,UklGRg==" |}.
Proof. vm_compute. reflexivity. Qed.

Example normalize_bare :
  normalizeBase64 (utf16 "  UklGRg==
")
  = {| mimeType := utf16 "image/jpeg"; base64 := utf16 "UklGRg==" |}.
Proof. vm_compute. reflexivity. Qed.

Example parse_object :
  parse (quoted "{^a^: [1, -2.50e3, true, null], ^b^: {^c^: ^x\u0041\n^}}")
  = Some (JObject
            [(utf16 "a", JArray [JNumber 1 0; JNumber (-250) 1; JBool true; JNull]);
             (utf16 "b", JObject [(utf16 "c", JString [120; 65; 10])])]).
Proof. vm_compute. reflexivity. Qed.

Example parse_rejects :
  map parse [[]; utf16 "[1,]"; utf16 "01"; utf16 "1."; utf16 "+1";
             utf16 "{} x"; utf16 "nul"; quoted "{^a^ 1}"; quoted "^a";
             [160; 49]; quoted "{^a^:1,}"; utf16 "[1 2]"]
  = repeat None 12.
Proof. vm_compute. reflexivity. Qed.

Example parse_scalars :
  map parse [utf16 " 0 "; utf16 "-0"; utf16 "1E+2"; utf16 "true"; quoted "^^";
             utf16 "[]"; utf16 "[[],{}]"]
  = [Some (JNumber 0 0); Some (JNumber 0 0); Some (JNumber 1 2);
     Some (JBool true); Some (JString []); Some (JArray []);
     Some (JArray [JArray []; JObject []])].
Proof. vm_compute. reflexivity. Qed.

Example lookup_last_wins :
  option_map (fun o => prop (Some o) (utf16 "a")) (parse (quoted "{^a^: 1, ^a^: 2}"))
  = Some (Some (JNumber 2 0)).
Proof. vm_compute. reflexivity. Qed.

Example strip_plain_fence :
  stripFences (utf16 "```
[1]
```") = utf16 "[1]".
Proof. vm_compute. reflexivity. Qed.

Example strip_no_fence : stripFences (utf16 " {} ") = utf16 "{}".
Proof. vm_compute. reflexivity. Qed.

Example strip_three_markers :
  stripFences (utf16 "``` ```x```") = utf16 "```x"
  /\ stripFences (utf16 "```x") = utf16 "x".
Proof. split; vm_compute; reflexivity. Qed.

Example english_prompt :
  userPrompt (sampleRuntime (Answered None)) None
    (Some (profileJson profileWithoutConcerns)) None
  = utf16 "Analyze this skin profile and generate personalized recommendations:

Skin Type: combination
Concerns: None
Age Range: 25-34
Sun Exposure: moderate
Current Routine: basic


Generate a complete analysis with:
- A skin health score (0-100)
- A personalized summary
- 3-4 priority recommendations
- A morning routine (4-5 steps)
- An evening routine (4-5 steps)
- 5-6 recommended ingredients (with cautions for melanin-rich skin)".
Proof. vm_compute. reflexivity. Qed.

Example skinAnalysis_get :
  skinAnalysis (sampleRuntime (Answered None))
    {| method := utf16 "GET"; contentType := None; body := None |} fresh
  = (Value (respond 405 (errorBody (utf16 "Method not allowed. Use POST."))),
     fresh, [LoggerError (utf16 "skinAnalysis error")]).
Proof. vm_compute. reflexivity. Qed.

Example skinAnalysis_fenced :
  fst (fst (skinAnalysis
              (sampleRuntime (Answered (Some (wrapInFences (quoted "{^overallScore^: 72}")))))
              (profilePost (profileJson profileWithoutConcerns)) fresh))
  = Value (respond 200 (JObject [(utf16 "overallScore", JInt 72)])).
Proof. vm_compute. reflexivity. Qed.

Example skinAnalysis_no_key :
  fst (fst (skinAnalysis
              {| GEMINI_API_KEY := None;
                 generateContent := fun _ _ => Answered None;
                 numberToString := integerText |}
              (profilePost (profileJson profileWithoutConcerns)) fresh))
  = Value (respond 500
             (errorBody (quoted "Missing GEMINI_API_KEY. Set it with: npx firebase-tools functions:config:set gemini.key=^...^ then redeploy, OR set env var in runtime."))).
Proof. vm_compute. reflexivity. Qed.

(* ====================================================================== *)
(** * Facts about strings *)
(* ====================================================================== *)

Section StringFacts.

Lemma eqb_refl (a : jsstring) : eqb a a = true.
Proof.
  induction a as [|x a IH]; simpl; [reflexivity|].
  now rewrite N.eqb_refl, IH.
Qed.

Lemma eqb_eq (a b : jsstring) : eqb a b = true <-> a = b.
Proof.
  split.
  - revert b; induction a as [|x a IH]; intros [|y b] H; simpl in H;
      try discriminate; [reflexivity|].
    apply andb_true_iff in H as [Hx Hr].
    apply N.eqb_eq in Hx. now rewrite Hx, (IH b Hr).
  - intros ->. apply eqb_refl.
Qed.

Lemma startsWith_app (p r : jsstring) : startsWith (p ++ r) p = true.
Proof.
  induction p as [|x p IH]; simpl; [reflexivity|].
  now rewrite N.eqb_refl, IH.
Qed.

Lemma startsWith_true (s p : jsstring) :
  startsWith s p = true -> exists r, s = p ++ r.
Proof.
  revert s; induction p as [|x p IH]; intros s H.
  - now exists s.
  - destruct s as [|y s]; simpl in H; [discriminate|].
    apply andb_true_iff in H as [Hx Hr].
    apply N.eqb_eq in Hx; subst y.
    destruct (IH s Hr) as [r ->]. now exists r.
Qed.

Lemma startsWith_iff (s p : jsstring) :
  startsWith s p = true <-> exists r, s = p ++ r.
Proof.
  split; [apply startsWith_true|].
  intros [r ->]. apply startsWith_app.
Qed.

Lemma endsWith_iff (s p : jsstring) :
  endsWith s p = true <-> exists r, s = r ++ p.
Proof.
  unfold endsWith. rewrite startsWith_iff. split.
  - intros [r H]. exists (rev r).
    rewrite <- (rev_involutive s), H, rev_app_distr, rev_involutive.
    reflexivity.
  - intros [r ->]. exists (rev r). apply rev_app_distr.
Qed.

Lemma includes_unfold (s p : jsstring) :
  includes s p
  = startsWith s p || match s with [] => false | _ :: r => includes r p end.
Proof. destruct s; reflexivity. Qed.

Lemma includes_iff (s p : jsstring) :
  includes s p = true <-> exists pre post, s = pre ++ p ++ post.
Proof.
  split.
  - induction s as [|c s IH]; simpl; intros H.
    + rewrite orb_false_r in H. apply startsWith_true in H as [r Hr].
      now exists [], r.
    + apply orb_true_iff in H as [H|H].
      * apply startsWith_true in H as [r Hr]. now exists [], r.
      * destruct (IH H) as (pre & post & ->). now exists (c :: pre), post.
  - intros (pre & post & ->).
    induction pre as [|c pre IH]; simpl.
    + now rewrite includes_unfold, startsWith_app.
    + rewrite IH. apply orb_true_r.
Qed.

End StringFacts.

(* ====================================================================== *)
(** * The image normalizer *)
(* ====================================================================== *)

Section NormalizerFacts.

Lemma afterLiteral_iff (lit s r : jsstring) :
  afterLiteral lit s = Some r
  <-> exists x, toLowerCase x = lit /\ s = x ++ r.
Proof.
  revert s; induction lit as [|a lit IH]; intros s; simpl.
  - split.
    + intros [= ->]. now exists [].
    + intros (x & Hx & ->). destruct x; [reflexivity|discriminate].
  - destruct s as [|c s].
    + split; [discriminate|]. intros (x & Hx & H). destruct x; discriminate.
    + unfold matchesChar. destruct (N.eqb_spec a (lowerAscii c)) as [E|E].
      * rewrite IH. split.
        -- intros (x & Hx & ->). exists (c :: x). simpl. now subst.
        -- intros (x & Hx & H). destruct x as [|c' x]; [discriminate|].
           simpl in Hx, H. injection Hx as _ Hx. injection H as _ H.
           now exists x.
      * split; [discriminate|]. intros (x & Hx & H).
        destruct x as [|c' x]; [discriminate|].
        simpl in Hx, H. injection Hx as Hc _. injection H as Hc' _.
        subst. contradiction.
Qed.

Lemma dotPlusToEnd_iff (s : jsstring) :
  dotPlusToEnd s = true <-> s <> [] /\ oneLine s = true.
Proof.
  unfold dotPlusToEnd, oneLine. rewrite andb_true_iff.
  destruct s; simpl; split; intros [H1 H2]; try discriminate;
    try (split; [easy|assumption]).
Qed.

Lemma toLowerCase_length (x : jsstring) :
  List.length (toLowerCase x) = List.length x.
Proof. apply length_map. Qed.

(** Two splits of one string at pieces of the same lengths agree. *)
Lemma app_same_length {A : Type} (a b c d : list A) :
  a ++ b = c ++ d -> List.length a = List.length c -> a = c /\ b = d.
Proof.
  revert c; induction a as [|x a IH]; intros [|y c] H L; simpl in *;
    try discriminate; [now split|].
  injection H as -> H. injection L as L.
  destruct (IH c H L) as [-> ->]. now split.
Qed.

Lemma Groups_cons (c : code_unit) (r m p : jsstring) :
  Groups (c :: r) m p ->
  exists m', m = c :: m' /\ isLineTerminator c = false
             /\ (m' = [] -> afterLiteral (utf16 ";base64,") r = Some p
                            /\ dotPlusToEnd p = true)
             /\ (m' <> [] -> Groups r m' p).
Proof.
  intros (sep & Hsep & Hr & Hm & Hp & Lm & Lp).
  destruct m as [|c' m']; [contradiction|].
  simpl in Hr. injection Hr as <- Hr.
  exists m'. split; [reflexivity|].
  unfold oneLine in Lm. simpl in Lm. apply andb_true_iff in Lm as [Lc Lm].
  split; [now apply negb_true_iff in Lc|]. split.
  - intros ->. simpl in Hr. split.
    + apply afterLiteral_iff. now exists sep.
    + now apply dotPlusToEnd_iff.
  - intros Hm'. exists sep. repeat split; assumption.
Qed.

Lemma lazyGroup_sound (s acc m p : jsstring) :
  lazyGroup acc s = Some (m, p) ->
  exists m0, m = rev acc ++ m0 /\ Groups s m0 p
             /\ forall m' p', Groups s m' p' ->
                   (List.length m0 <= List.length m')%nat.
Proof.
  revert acc; induction s as [|c r IH]; intros acc H; cbn [lazyGroup] in H;
    [discriminate|].
  destruct (isLineTerminator c) eqn:Lc; [discriminate|].
  assert (Later : lazyGroup (c :: acc) r = Some (m, p) ->
                  (forall p', afterLiteral (utf16 ";base64,") r = Some p' ->
                              dotPlusToEnd p' = false) ->
                  exists m0, m = rev acc ++ m0 /\ Groups (c :: r) m0 p
                    /\ forall m' p', Groups (c :: r) m' p' ->
                          (List.length m0 <= List.length m')%nat).
  { intros H' Hno. destruct (IH _ H') as (m1 & -> & G & Min).
    exists (c :: m1). split; [simpl; now rewrite <- app_assoc|]. split.
    - destruct G as (sep & Hsep & -> & Hm & Hp & Lm & Lp).
      exists sep. repeat split; try assumption; try discriminate.
      unfold oneLine. simpl. rewrite Lc. exact Lm.
    - intros m' p' G'.
      destruct (Groups_cons _ _ _ _ G') as (m'' & -> & _ & Hnil & Hcons).
      destruct m'' as [|c'' m''].
      + destruct (Hnil eq_refl) as [Ha Hd]. rewrite (Hno _ Ha) in Hd.
        discriminate.
      + cbn [List.length]. apply le_n_S.
        apply (Min (c'' :: m'') p'). apply Hcons. discriminate. }
  destruct (afterLiteral (utf16 ";base64,") r) as [rest|] eqn:Ha.
  - destruct (dotPlusToEnd rest) eqn:Hd.
    + injection H as <- <-. exists [c]. split; [reflexivity|]. split.
      * apply afterLiteral_iff in Ha as (sep & Hsep & ->).
        apply dotPlusToEnd_iff in Hd as [Hne Hl].
        exists sep. repeat split; try assumption; try discriminate.
        unfold oneLine. simpl. now rewrite Lc.
      * intros m' p' G'.
        destruct (Groups_cons _ _ _ _ G') as (m'' & -> & _). simpl. lia.
    + apply Later; [assumption|]. intros p' [= <-]. assumption.
  - apply Later; [assumption|]. intros p' [=].
Qed.

Lemma lazyGroup_complete (s acc m' p' : jsstring) :
  Groups s m' p' -> exists m p, lazyGroup acc s = Some (m, p).
Proof.
  revert acc m'; induction s as [|c r IH]; intros acc m' G.
  - destruct G as (sep & _ & Hr & Hm & _). destruct m'; [contradiction|].
    discriminate.
  - destruct (Groups_cons _ _ _ _ G) as (m'' & -> & Lc & Hnil & Hcons).
    cbn [lazyGroup]. rewrite Lc.
    destruct m'' as [|c'' m''].
    + destruct (Hnil eq_refl) as [-> ->]. eauto.
    + assert (G' : Groups r (c'' :: m'') p') by (apply Hcons; discriminate).
      destruct (afterLiteral (utf16 ";base64,") r) as [rest|];
        [destruct (dotPlusToEnd rest)|]; eauto.
Qed.

Lemma DataUrl_Groups (s m p : jsstring) :
  DataUrl s m p
  <-> exists r, afterLiteral (utf16 "data:") s = Some r /\ Groups r m p.
Proof.
  split.
  - intros (scheme & sep & Hs & Hsep & -> & H).
    exists (m ++ sep ++ p). split.
    + apply afterLiteral_iff. now exists scheme.
    + now exists sep.
  - intros (r & Ha & sep & Hsep & -> & H).
    apply afterLiteral_iff in Ha as (scheme & Hs & ->).
    now exists scheme, sep.
Qed.

(** The match of the regular expression is the shortest split. *)
Lemma matchDataUrl_sound (s m p : jsstring) :
  matchDataUrl s = Some (m, p) -> DataUrlShortest s m p.
Proof.
  unfold matchDataUrl. destruct (afterLiteral (utf16 "data:") s) as [r|] eqn:Ha;
    [|discriminate].
  intros H. destruct (lazyGroup_sound _ _ _ _ H) as (m0 & -> & G & Min).
  simpl. split.
  - apply DataUrl_Groups. now exists r.
  - intros m' p' D. apply DataUrl_Groups in D as (r' & Ha' & G').
    rewrite Ha in Ha'. injection Ha' as <-. now apply (Min m' p').
Qed.

Lemma matchDataUrl_complete (s m' p' : jsstring) :
  DataUrl s m' p' -> exists m p, matchDataUrl s = Some (m, p).
Proof.
  intros D. apply DataUrl_Groups in D as (r & Ha & G).
  unfold matchDataUrl. rewrite Ha. now apply (lazyGroup_complete r [] m' p').
Qed.

Lemma DataUrl_unique (s m p m' p' : jsstring) :
  DataUrl s m p -> DataUrl s m' p' -> List.length m = List.length m' ->
  m = m' /\ p = p'.
Proof.
  intros (sc & sep & Hsc & Hsep & -> & _) (sc' & sep' & Hsc' & Hsep' & E & _) L.
  assert (Lsc : List.length sc = List.length sc')
    by now rewrite <- (toLowerCase_length sc), <- (toLowerCase_length sc'), Hsc, Hsc'.
  assert (Lsep : List.length sep = List.length sep')
    by now rewrite <- (toLowerCase_length sep), <- (toLowerCase_length sep'), Hsep, Hsep'.
  destruct (app_same_length _ _ _ _ E Lsc) as [_ E1].
  destruct (app_same_length _ _ _ _ E1 L) as [-> E2].
  destruct (app_same_length _ _ _ _ E2 Lsep) as [_ ->]. now split.
Qed.

Lemma matchDataUrl_shortest (s m p : jsstring) :
  DataUrlShortest s m p -> matchDataUrl s = Some (m, p).
Proof.
  intros [D Min]. destruct (matchDataUrl_complete _ _ _ D) as (m0 & p0 & H).
  destruct (matchDataUrl_sound _ _ _ H) as [D0 Min0].
  destruct (DataUrl_unique s m p m0 p0 D D0) as [-> ->]; [|assumption].
  apply Nat.le_antisymm; [apply (Min _ _ D0)|apply (Min0 _ _ D)].
Qed.

Lemma matchDataUrl_none (s : jsstring) :
  (forall m p, ~ DataUrl s m p) -> matchDataUrl s = None.
Proof.
  intros H. destruct (matchDataUrl s) as [[m p]|] eqn:E; [|reflexivity].
  destruct (matchDataUrl_sound _ _ _ E) as [D _]. now destruct (H m p).
Qed.

End NormalizerFacts.


(* ====================================================================== *)
(** * Trimming *)
(* ====================================================================== *)

Section TrimFacts.

Lemma trimStart_kept (c : code_unit) (s : jsstring) :
  isTrimmed c = false -> trimStart (c :: s) = c :: s.
Proof. intros H. simpl. now rewrite H. Qed.

Lemma trimStart_dropped (w s : jsstring) :
  forallb isTrimmed w = true -> trimStart (w ++ s) = trimStart s.
Proof.
  induction w as [|c w IH]; intros H; [reflexivity|].
  simpl in H. apply andb_true_iff in H as [Hc Hw].
  simpl. rewrite Hc. now apply IH.
Qed.

(** Trimming at the start stops at the first character that stays. *)
Lemma trimStart_app_kept (a b : jsstring) (c : code_unit) :
  isTrimmed c = false -> trimStart (a ++ c :: b) = trimStart a ++ c :: b.
Proof.
  intros H. induction a as [|d a IH]; simpl.
  - now rewrite H.
  - destruct (isTrimmed d); [exact IH|reflexivity].
Qed.

Lemma trimStart_idem (s : jsstring) : trimStart (trimStart s) = trimStart s.
Proof.
  induction s as [|c s IH]; [reflexivity|].
  simpl. destruct (isTrimmed c) eqn:E; [exact IH|].
  simpl. now rewrite E.
Qed.

Lemma trimStart_suffix (s : jsstring) : exists w, s = w ++ trimStart s.
Proof.
  induction s as [|c s [w IH]]; [now exists []|].
  simpl. destruct (isTrimmed c).
  - exists (c :: w). simpl. now rewrite <- IH.
  - now exists [].
Qed.

Lemma trimEnd_prefix (s : jsstring) : exists w, s = trimEnd s ++ w.
Proof.
  unfold trimEnd. destruct (trimStart_suffix (rev s)) as [w H].
  exists (rev w). rewrite <- rev_app_distr, <- H. symmetry. apply rev_involutive.
Qed.

Lemma trimEnd_kept (s : jsstring) (c : code_unit) :
  isTrimmed c = false -> trimEnd (s ++ [c]) = s ++ [c].
Proof.
  intros H. unfold trimEnd. rewrite rev_app_distr. simpl. rewrite H.
  simpl. now rewrite rev_involutive.
Qed.

Lemma trimEnd_dropped (s : jsstring) (c : code_unit) :
  isTrimmed c = true -> trimEnd (s ++ [c]) = trimEnd s.
Proof.
  intros H. unfold trimEnd. rewrite rev_app_distr. simpl. now rewrite H.
Qed.

(** Trimming at the end stops at the last character that stays. *)
Lemma trimEnd_app_kept (a b : jsstring) (c : code_unit) :
  isTrimmed c = false -> trimEnd (a ++ c :: b) = a ++ c :: trimEnd b.
Proof.
  intros H. unfold trimEnd.
  rewrite rev_app_distr. simpl. rewrite <- app_assoc. simpl.
  rewrite (trimStart_app_kept _ _ _ H), rev_app_distr. simpl.
  rewrite rev_involutive, <- app_assoc. reflexivity.
Qed.

Lemma trimEnd_idem (s : jsstring) : trimEnd (trimEnd s) = trimEnd s.
Proof.
  unfold trimEnd. now rewrite rev_involutive, trimStart_idem.
Qed.

(** A trimmed string is empty or starts with a character that stays. *)
Lemma trim_head (s : jsstring) :
  trim s = [] \/ exists c r, trim s = c :: r /\ isTrimmed c = false.
Proof.
  unfold trim.
  assert (H : trimStart s = [] \/
              exists c r, trimStart s = c :: r /\ isTrimmed c = false).
  { induction s as [|c s IH]; [now left|].
    simpl. destruct (isTrimmed c) eqn:E; [exact IH|]. right. now exists c, s. }
  destruct H as [->|(c & r & -> & Hc)]; [now left|].
  right. exists c, (trimEnd r). split; [|assumption].
  now apply (trimEnd_app_kept []).
Qed.

Lemma trim_idem (s : jsstring) : trim (trim s) = trim s.
Proof.
  destruct (trim_head s) as [E|(c & r & E & Hc)].
  - now rewrite E.
  - unfold trim at 1. rewrite E, (trimStart_kept _ _ Hc), <- E.
    unfold trim. apply trimEnd_idem.
Qed.

(** White space at both ends does not change the trimmed string. *)
Lemma trim_end_dropped (s : jsstring) (c : code_unit) :
  isTrimmed c = true -> trim (s ++ [c]) = trim s.
Proof.
  intros H. unfold trim. induction s as [|d s IH]; cbn [app trimStart].
  - now rewrite H.
  - destruct (isTrimmed d); [exact IH|].
    exact (trimEnd_dropped (d :: s) c H).
Qed.

Lemma trim_surrounded (a s b : jsstring) :
  forallb isTrimmed a = true -> forallb isTrimmed b = true ->
  trim (a ++ s ++ b) = trim s.
Proof.
  intros Ha Hb. unfold trim at 1. rewrite (trimStart_dropped _ _ Ha).
  fold (trim (s ++ b)). clear Ha.
  induction b as [|c b IH] using rev_ind; [now rewrite app_nil_r|].
  rewrite forallb_app in Hb. apply andb_true_iff in Hb as [Hb Hc].
  simpl in Hc. rewrite andb_true_r in Hc.
  rewrite app_assoc, (trim_end_dropped _ _ Hc). now apply IH.
Qed.

(** A string that starts and ends with characters that stay is trimmed. *)
Lemma trim_fixed (c d : code_unit) (s : jsstring) :
  isTrimmed c = false -> isTrimmed d = false ->
  trim (c :: s ++ [d]) = c :: s ++ [d].
Proof.
  intros Hc Hd. unfold trim. rewrite (trimStart_kept _ _ Hc).
  now apply (trimEnd_kept (c :: s)).
Qed.

Lemma trimStart_snoc (l : jsstring) (c : code_unit) :
  trimStart (l ++ [c])
  = match trimStart l with
    | [] => if isTrimmed c then [] else [c]
    | y => y ++ [c]
    end.
Proof.
  induction l as [|d l IH]; cbn [app trimStart]; [reflexivity|].
  destruct (isTrimmed d); [exact IH|reflexivity].
Qed.

Lemma trimEnd_cons (c : code_unit) (r : jsstring) :
  trimEnd (c :: r)
  = match trimEnd r with
    | [] => if isTrimmed c then [] else [c]
    | y => c :: y
    end.
Proof.
  unfold trimEnd. cbn [rev]. rewrite trimStart_snoc.
  destruct (trimStart (rev r)) as [|y l] eqn:E;
    [now destruct (isTrimmed c)|].
  rewrite rev_app_distr. cbn [rev app].
  destruct (rev l ++ [y]) eqn:E'; [|reflexivity].
  now apply app_eq_nil in E' as [_ E'].
Qed.

(** Trimming one end and then the other is trimming both. *)
Lemma trimStart_trimEnd (s : jsstring) :
  trimStart (trimEnd s) = trimEnd (trimStart s).
Proof.
  induction s as [|c s IH]; [reflexivity|].
  rewrite trimEnd_cons. cbn [trimStart].
  destruct (isTrimmed c) eqn:E.
  - rewrite <- IH. destruct (trimEnd s); [reflexivity|].
    cbn [trimStart]. now rewrite E.
  - rewrite trimEnd_cons.
    destruct (trimEnd s); cbn [trimStart]; now rewrite E.
Qed.

Lemma trim_trimStart (s : jsstring) : trim (trimStart s) = trim s.
Proof. unfold trim. now rewrite trimStart_idem. Qed.

Lemma trim_trimEnd (s : jsstring) : trim (trimEnd s) = trim s.
Proof. unfold trim. now rewrite trimStart_trimEnd, trimEnd_idem. Qed.

Lemma sliceDropEnd_app (s p : jsstring) :
  sliceDropEnd (List.length p) (s ++ p) = s.
Proof.
  unfold sliceDropEnd. rewrite length_app, Nat.add_sub.
  rewrite firstn_app, Nat.sub_diag, firstn_all. simpl. apply app_nil_r.
Qed.

End TrimFacts.

(* ====================================================================== *)
(** * Fence stripping *)
(* ====================================================================== *)

Section FenceFacts.

Lemma fence_eq : fence = [96; 96; 96].
Proof. reflexivity. Qed.

Lemma fenceJson_eq : fenceJson = [96; 96; 96; 106; 115; 111; 110].
Proof. reflexivity. Qed.

(** A marker at the start, or at the end, of a text is kept by [trim]. *)
Lemma startsWith_fence_trim (x : jsstring) :
  startsWith x fence = true -> startsWith (trim x) fence = true.
Proof.
  intros H. apply startsWith_true in H as [r ->]. rewrite fence_eq.
  unfold trim. cbn [app]. rewrite (trimStart_kept 96 _ eq_refl).
  change (96 :: 96 :: 96 :: r) with ([96; 96] ++ 96 :: r).
  now rewrite (trimEnd_app_kept [96; 96] r 96 eq_refl).
Qed.

Lemma endsWith_fence_trim (x : jsstring) :
  endsWith x fence = true -> endsWith (trim x) fence = true.
Proof.
  intros H. apply endsWith_iff in H as [r ->]. rewrite fence_eq.
  unfold trim. rewrite (trimStart_app_kept r [96; 96] 96 eq_refl).
  rewrite (trimEnd_app_kept (trimStart r) [96; 96] 96 eq_refl).
  apply endsWith_iff. now exists (trimStart r).
Qed.

(** When a body that does not start with a marker and the trailing
    marker together start with a marker, the body is two backticks at
    most: removing three characters leaves the body. *)
Lemma short_body (b : jsstring) :
  startsWith b fence = false ->
  startsWith (b ++ fence) fence = true ->
  sliceFrom 3 (b ++ fence) = b
  /\ startsWith (b ++ fence) fenceJson = false
  /\ endsWith b fence = false.
Proof.
  rewrite fence_eq, fenceJson_eq. intros H S.
  destruct b as [|x [|y [|z b]]]; cbn [startsWith app] in S, H;
    [| | |congruence]; split_tests; subst; repeat split; reflexivity.
Qed.

(** After an untagged leading marker, a body that does not start with
    the tag: the text does not start with the tagged marker. *)
Lemma untagged_body (body trail : jsstring) :
  startsWith body (utf16 "json") = false ->
  trail = [] \/ trail = fence ->
  startsWith (fence ++ body ++ trail) fenceJson = false.
Proof.
  rewrite fence_eq, fenceJson_eq.
  change (utf16 "json") with [106; 115; 111; 110].
  intros H T.
  destruct body as [|a [|b [|c [|d body]]]];
    destruct T as [-> | ->]; cbn [startsWith app] in H |- *;
    rewrite ?N.eqb_refl; cbn [andb];
    repeat match goal with
           | |- context [N.eqb ?k ?v] =>
               destruct (N.eqb_spec k v); cbn [andb]; try reflexivity
           end;
    try lia; subst; cbn [startsWith] in H; rewrite ?N.eqb_refl in H;
    try discriminate H; try reflexivity.
Qed.

(** The three conditional removals, on a trimmed input of the shape the
    claim allows, leave the body. *)
Lemma removals_body (t lead body trail : jsstring) :
  t = lead ++ body ++ trail ->
  lead = []
  \/ (lead = fence /\ startsWith body (utf16 "json") = false)
  \/ lead = fenceJson ->
  trail = [] \/ trail = fence ->
  startsWith body fence = false ->
  (trail = [] -> endsWith body fence = false) ->
  let c1 := if startsWith t fenceJson then sliceFrom 7 t else t in
  let c2 := if startsWith c1 fence then sliceFrom 3 c1 else c1 in
  let c3 := if endsWith c2 fence then sliceDropEnd 3 c2 else c2 in
  c3 = body.
Proof.
  intros -> L T S E c1.
  assert (Tag : startsWith body fenceJson = false).
  { destruct (startsWith body fenceJson) eqn:J; [|reflexivity].
    apply startsWith_true in J as [r ->].
    now rewrite fenceJson_eq, fence_eq in S. }
  (* after the first removal: an optional untagged marker, the body, the trail *)
  assert (S1 : c1 = body ++ trail \/ c1 = fence ++ body ++ trail).
  { subst c1. destruct L as [-> | [[-> J] | ->]].
    - left. cbn [app].
      destruct (startsWith (body ++ trail) fenceJson) eqn:J; [|reflexivity].
      exfalso. destruct T as [-> | ->].
      + rewrite app_nil_r in J. congruence.
      + assert (F : startsWith (body ++ fence) fence = true).
        { apply startsWith_true in J as [r J]. rewrite J.
          now rewrite fenceJson_eq, fence_eq. }
        destruct (short_body _ S F) as (_ & J' & _). congruence.
    - right. now rewrite (untagged_body _ _ J T).
    - left. now rewrite startsWith_app. }
  clearbody c1. intros c2.
  (* after the second removal: the body and the trail, or a short body *)
  assert (S2 : c2 = body ++ trail \/ (c2 = body /\ endsWith body fence = false)).
  { subst c2. destruct S1 as [-> | ->].
    - destruct (startsWith (body ++ trail) fence) eqn:F; [|now left].
      destruct T as [-> | ->].
      + rewrite app_nil_r in F. congruence.
      + destruct (short_body _ S F) as (-> & _ & E'). now right.
    - rewrite startsWith_app. now left. }
  clearbody c2. intros c3. subst c3. destruct S2 as [-> | [-> E']].
  - destruct T as [-> | ->].
    + rewrite app_nil_r. now rewrite (E eq_refl).
    + assert (F : endsWith (body ++ fence) fence = true)
        by (apply endsWith_iff; now exists body).
      rewrite F. change 3%nat with (List.length fence).
      apply sliceDropEnd_app.
  - now rewrite E'.
Qed.

(** A trimmed text that neither starts nor ends with a marker is left as
    it is. *)
Lemma stripFences_fixed (r : jsstring) :
  trim r = r -> startsWith r fence = false -> endsWith r fence = false ->
  stripFences r = r.
Proof.
  intros Tr S E. unfold stripFences. rewrite Tr.
  assert (Tag : startsWith r fenceJson = false).
  { destruct (startsWith r fenceJson) eqn:J; [|reflexivity].
    apply startsWith_true in J as [x ->].
    now rewrite fenceJson_eq, fence_eq in S. }
  now rewrite Tag, S, E, Tr.
Qed.

(** The shape of the claim, read on the trimmed input. *)
Lemma trimmed_shape (s : jsstring) :
  AtMostOneFenceEachEnd s ->
  exists lead body trail,
    trim s = lead ++ body ++ trail
    /\ (lead = []
        \/ (lead = fence /\ startsWith body (utf16 "json") = false)
        \/ lead = fenceJson)
    /\ (trail = [] \/ trail = fence)
    /\ startsWith body fence = false
    /\ (trail = [] -> endsWith body fence = false)
    /\ startsWith (trim body) fence = false
    /\ endsWith (trim body) fence = false.
Proof.
  intros (before & lead & body & trail & after & -> & Hb & Ha & L & T & S & E).
  replace (before ++ lead ++ body ++ trail ++ after)
    with (before ++ (lead ++ body ++ trail) ++ after)
    by now rewrite <- !app_assoc.
  rewrite (trim_surrounded _ _ _ Hb Ha).
  assert (Keep : forall x, trim (x ++ fence) = trimStart x ++ fence).
  { intros x. unfold trim. rewrite fence_eq.
    rewrite (trimStart_app_kept x [96; 96] 96 eq_refl).
    now rewrite (trimEnd_app_kept (trimStart x) [96; 96] 96 eq_refl). }
  assert (Lead : forall l x, l = fence \/ l = fenceJson ->
                   trim (l ++ x) = l ++ trimEnd x).
  { intros l x [-> | ->]; [rewrite fence_eq|rewrite fenceJson_eq];
      unfold trim; cbn [app];
      rewrite (trimStart_kept 96 _ eq_refl).
    - exact (trimEnd_app_kept [96; 96] x 96 eq_refl).
    - exact (trimEnd_app_kept [96; 96; 96; 106; 115; 111] x 110 eq_refl). }
  (* what holds of the body holds of the body trimmed at either end *)
  assert (Start : forall b, trim b = trim body -> startsWith b fence = false).
  { intros b Eb. destruct (startsWith b fence) eqn:F; [|reflexivity].
    apply startsWith_fence_trim in F. congruence. }
  assert (End_ : forall b, trim b = trim body -> endsWith b fence = false).
  { intros b Eb. destruct (endsWith b fence) eqn:F; [|reflexivity].
    apply endsWith_fence_trim in F. congruence. }
  assert (Tag : startsWith body (utf16 "json") = false ->
                startsWith (trimEnd body) (utf16 "json") = false).
  { intros J. destruct (startsWith (trimEnd body) (utf16 "json")) eqn:J';
      [|reflexivity].
    apply startsWith_true in J' as [r J'].
    destruct (trimEnd_prefix body) as [w Hw]. rewrite J' in Hw.
    now rewrite Hw, <- app_assoc, startsWith_app in J. }
  destruct T as [-> | ->].
  - rewrite app_nil_r. destruct L as [-> | L].
    + exists [], (trim body), []. rewrite app_nil_r, trim_idem.
      repeat split; auto using trim_idem.
    + exists lead, (trimEnd body), [].
      rewrite app_nil_r, trim_trimEnd.
      replace (trim (lead ++ body)) with (lead ++ trimEnd body)
        by (symmetry; apply Lead; destruct L as [[-> _] | ->]; auto).
      repeat split; auto using trim_trimEnd.
      destruct L as [[-> J] | ->]; auto.
  - destruct L as [-> | L].
    + exists [], (trimStart body), fence. cbn [app].
      rewrite Keep, trim_trimStart.
      repeat split; auto using trim_trimStart.
    + exists lead, body, fence.
      replace (trim (lead ++ body ++ fence)) with (lead ++ body ++ fence).
      * repeat split; auto.
      * symmetry. rewrite Lead by (destruct L as [[-> _] | ->]; auto).
        f_equal. rewrite fence_eq.
        exact (trimEnd_app_kept body [96; 96] 96 eq_refl).
Qed.

(** On an input of the shape the claim allows, fence stripping gives the
    trimmed body. *)
Lemma stripFences_body (s : jsstring) :
  AtMostOneFenceEachEnd s ->
  trim (stripFences s) = stripFences s
  /\ startsWith (stripFences s) fence = false
  /\ endsWith (stripFences s) fence = false.
Proof.
  intros A.
  destruct (trimmed_shape s A)
    as (lead & body & trail & Et & L & T & S & E & St & En).
  unfold stripFences.
  rewrite (removals_body _ _ _ _ Et L T S E).
  split; [apply trim_idem|]. split; assumption.
Qed.

(** Wrapping in fences and stripping them gives the trimmed text. *)
Lemma stripFences_wrapInFences (s : jsstring) :
  stripFences (wrapInFences s) = trim s.
Proof.
  unfold stripFences, wrapInFences.
  assert (T : trim (fenceJson ++ [10] ++ s ++ [10] ++ fence)
              = fenceJson ++ [10] ++ s ++ [10] ++ fence).
  { rewrite fenceJson_eq, fence_eq.
    change ([96; 96; 96; 106; 115; 111; 110] ++ [10] ++ s ++ [10] ++ [96; 96; 96])
      with (96 :: [96; 96; 106; 115; 111; 110; 10] ++ s ++ [10; 96; 96] ++ [96]).
    rewrite !app_assoc. apply trim_fixed; reflexivity. }
  rewrite T, startsWith_app.
  replace (sliceFrom 7 (fenceJson ++ [10] ++ s ++ [10] ++ fence))
    with (10 :: s ++ [10] ++ fence) by reflexivity.
  replace (startsWith (10 :: s ++ [10] ++ fence) fence) with false
    by reflexivity.
  replace (10 :: s ++ [10] ++ fence) with ((10 :: s ++ [10]) ++ fence)
    by (cbn [app]; now rewrite <- app_assoc).
  assert (E : endsWith ((10 :: s ++ [10]) ++ fence) fence = true)
    by (apply endsWith_iff; now exists (10 :: s ++ [10])).
  rewrite E. change 3%nat with (List.length fence).
  rewrite sliceDropEnd_app.
  now apply (trim_surrounded [10] s [10]).
Qed.

End FenceFacts.

(** C3.  Fence stripping is idempotent on every input that holds at most
    one leading fence marker and at most one trailing fence marker. *)
Theorem C3_stripFences_idempotent (s : jsstring) :
  AtMostOneFenceEachEnd s ->
  stripFences (stripFences s) = stripFences s.
Proof.
  intros A. destruct (stripFences_body s A) as (T & S & E).
  now apply stripFences_fixed.
Qed.

(* ====================================================================== *)
(** * [JSON.parse] and surrounding white space *)
(* ====================================================================== *)

Section ParseFacts.

(** What [trim] removes is JSON white space, or a character that no JSON
    text holds outside a string. *)
Lemma stepBetween_trimmed (toks : list token) (c : code_unit) (st : lexer) :
  isTrimmed c = true -> stepBetween toks c = Some st -> st = (toks, Between).
Proof.
  unfold isTrimmed, isWhiteSpace, isLineTerminator, stepBetween, isJsonSpace,
    isWordChar, isDigit, isLetter.
  intros H S. tests; congruence.
Qed.

Lemma isWordChar_trimmed (c : code_unit) :
  isTrimmed c = true -> isWordChar c = false.
Proof.
  unfold isTrimmed, isWhiteSpace, isLineTerminator, isWordChar, isDigit,
    isLetter.
  intros H. tests; reflexivity.
Qed.

Lemma escape_trimmed (c : code_unit) :
  isTrimmed c = true ->
  escapeChar c = None /\ (c =? 117) = false /\ hexValue c = None
  /\ (c =? 34) = false /\ (c =? 92) = false.
Proof.
  unfold isTrimmed, isWhiteSpace, isLineTerminator, escapeChar, hexValue,
    isDigit.
  intros H. tests; repeat split; reflexivity.
Qed.

(** A trimmed character at the end of a text that lexes is white space
    between tokens: the text without it has the same tokens. *)
Lemma step_trimmed (st st' : lexer) (c : code_unit) (ts : list token) :
  isTrimmed c = true ->
  step st c = Some st' -> finish st' = Some ts -> finish st = Some ts.
Proof.
  intros H S F. destruct st as [toks m].
  destruct (escape_trimmed c H) as (E1 & E2 & E3 & E4 & E5).
  destruct m as [|w|b|b|b h]; cbn [step] in S.
  - now rewrite (stepBetween_trimmed _ _ _ H S) in F.
  - rewrite (isWordChar_trimmed c H) in S. cbn [finish].
    destruct (closeWord toks w) as [toks'|]; [|discriminate].
    now rewrite (stepBetween_trimmed _ _ _ H S) in F.
  - rewrite E4, E5 in S. destruct (c <? 32); [discriminate|].
    injection S as <-. discriminate F.
  - rewrite E1, E2 in S. discriminate.
  - rewrite E3 in S. discriminate.
Qed.

Lemma run_app (st : lexer) (a b : jsstring) :
  run st (a ++ b)
  = match run st a with
    | Some st' => run st' b
    | None => None
    end.
Proof.
  revert st; induction a as [|c a IH]; intros st; [reflexivity|].
  cbn [app run]. destruct (step st c); [apply IH|reflexivity].
Qed.

Lemma tokens_drop_first (c : code_unit) (s : jsstring) (ts : list token) :
  isTrimmed c = true -> tokens (c :: s) = Some ts -> tokens s = Some ts.
Proof.
  unfold tokens. cbn [run step]. intros H T.
  destruct (stepBetween [] c) as [st|] eqn:S; [|discriminate].
  now rewrite (stepBetween_trimmed _ _ _ H S) in T.
Qed.

Lemma tokens_drop_last (c : code_unit) (s : jsstring) (ts : list token) :
  isTrimmed c = true -> tokens (s ++ [c]) = Some ts -> tokens s = Some ts.
Proof.
  unfold tokens. rewrite run_app. intros H T.
  destruct (run ([], Between) s) as [st|]; [|discriminate].
  cbn [run] in T. destruct (step st c) as [st'|] eqn:S; [|discriminate].
  exact (step_trimmed _ _ _ _ H S T).
Qed.

Lemma tokens_trimStart (s : jsstring) (ts : list token) :
  tokens s = Some ts -> tokens (trimStart s) = Some ts.
Proof.
  induction s as [|c s IH]; intros T; [exact T|].
  cbn [trimStart]. destruct (isTrimmed c) eqn:E; [|exact T].
  apply IH. exact (tokens_drop_first _ _ _ E T).
Qed.

Lemma tokens_trimEnd (s : jsstring) (ts : list token) :
  tokens s = Some ts -> tokens (trimEnd s) = Some ts.
Proof.
  unfold trimEnd. rewrite <- (rev_involutive s) at 1.
  generalize (rev s) as l. clear s.
  induction l as [|c l IH]; intros T; [exact T|].
  cbn [trimStart]. destruct (isTrimmed c) eqn:E; [|exact T].
  apply IH. cbn [rev] in T. exact (tokens_drop_last _ _ _ E T).
Qed.

(** A text that parses parses to the same value once trimmed. *)
Lemma parse_trim (s : jsstring) (v : json) :
  parse s = Some v -> parse (trim s) = Some v.
Proof.
  unfold parse, trim. destruct (tokens s) as [ts|] eqn:T; [|discriminate].
  intros P.
  now rewrite (tokens_trimEnd _ _ (tokens_trimStart _ _ T)).
Qed.

End ParseFacts.

(** C2.  Round trip through the response reconciler: a JSON text that
    parses to [v], wrapped in a json fence, is decoded to [v] by fence
    stripping followed by [JSON.parse]. *)
Theorem C2_decode_wrapInFences (s : jsstring) (v : json) :
  parse s = Some v -> decode (wrapInFences s) = Some v.
Proof.
  intros P. unfold decode. rewrite stripFences_wrapInFences.
  now apply parse_trim.
Qed.

(* ====================================================================== *)
(** * The handlers, path by path *)
(* ====================================================================== *)

Section HandlerFacts.

Variable rt : runtime.

Lemma assertPostJson_valid (req : request) :
  validPost req = true -> assertPostJson req = ret tt.
Proof.
  unfold validPost, assertPostJson. intros H.
  apply andb_true_iff in H as [-> ->]. reflexivity.
Qed.

Lemma assertPostJson_invalid (req : request) :
  validPost req = false ->
  exists e, assertPostJson req = throw e
            /\ (statusCode e = Some 405%Z \/ statusCode e = Some 415%Z).
Proof.
  unfold validPost, assertPostJson. intros H.
  destruct (eqb (method req) (utf16 "POST")); cbn [negb andb] in *.
  - rewrite H. cbn [negb]. eexists. split; [reflexivity|]. now right.
  - eexists. split; [reflexivity|]. now left.
Qed.

Lemma getGeminiClient_ready (st : state) :
  clientReady rt st = true -> getGeminiClient rt st = (Value tt, ready, []).
Proof.
  unfold clientReady, getGeminiClient, ready. destruct st as [[|]]; cbn.
  - reflexivity.
  - destruct (GEMINI_API_KEY rt) as [[|c k]|]; intros H;
      try discriminate; reflexivity.
Qed.

Lemma getGeminiClient_missing (st : state) :
  clientReady rt st = false ->
  exists e, getGeminiClient rt st = (Thrown e, st, [])
            /\ statusCode e = None.
Proof.
  unfold clientReady, getGeminiClient. destruct st as [[|]]; cbn.
  - discriminate.
  - destruct (GEMINI_API_KEY rt) as [[|c k]|]; intros H;
      try discriminate; eexists; split; reflexivity.
Qed.

Lemma skinAnalysis_rejected (req : request) (st : state) :
  validPost req = false ->
  exists e, skinAnalysis rt req st
            = (Value (respond (statusOf e) (errorBody (message e))), st,
               [LoggerError (utf16 "skinAnalysis error")])
            /\ (statusCode e = Some 405%Z \/ statusCode e = Some 415%Z).
Proof.
  intros H. destruct (assertPostJson_invalid req H) as (e & E & C).
  exists e. split; [|exact C].
  unfold skinAnalysis, tryCatch, bind. now rewrite E.
Qed.

Lemma skinAnalysis_no_profile (req : request) (st : state) :
  validPost req = true -> truthy (field req "profile") = false ->
  skinAnalysis rt req st
  = (Value (respond 400 (errorBody (utf16 "Missing profile data."))), st, []).
Proof.
  intros V P. unfold skinAnalysis, tryCatch, bind.
  rewrite (assertPostJson_valid req V). cbn [ret].
  fold (field req "profile"). now rewrite P.
Qed.

Lemma skinAnalysis_no_client (req : request) (st : state) :
  validPost req = true -> truthy (field req "profile") = true ->
  clientReady rt st = false ->
  exists e, skinAnalysis rt req st
            = (Value (respond 500 (errorBody (message e))), st,
               [LoggerError (utf16 "skinAnalysis error")]).
Proof.
  intros V P C. destruct (getGeminiClient_missing st C) as (e & E & S).
  exists e. unfold skinAnalysis, tryCatch, bind.
  rewrite (assertPostJson_valid req V). cbn [ret].
  fold (field req "profile"). rewrite P. cbn [negb]. rewrite E.
  unfold catchAll, bind, loggerError, ret. now rewrite S.
Qed.

Lemma skinAnalysis_run (req : request) (st : state) :
  validPost req = true -> truthy (field req "profile") = true ->
  clientReady rt st = true ->
  skinAnalysis rt req st
  = match generateContent rt modelName (analysisParts rt req) with
    | Failed e =>
        (Value (respond (statusOf e) (errorBody (message e))), ready,
         [Generate modelName (analysisParts rt req);
          LoggerError (utf16 "skinAnalysis error")])
    | Answered t =>
        (Value (fst (reconciled t)), ready,
         Generate modelName (analysisParts rt req) :: snd (reconciled t))
    end.
Proof.
  intros V P C. unfold skinAnalysis, tryCatch, bind.
  rewrite (assertPostJson_valid req V). cbn [ret].
  fold (field req "profile"). rewrite P. cbn [negb].
  rewrite (getGeminiClient_ready st C). unfold generate.
  fold (field req "language") (field req "photoData").
  fold (languageOf req). fold (analysisParts rt req).
  destruct (generateContent rt modelName (analysisParts rt req)) as [e|t].
  - reflexivity.
  - unfold reconciled. destruct t as [[|c t]|]; try reflexivity.
    cbn [isEmpty]. destruct (decode (c :: t)); reflexivity.
Qed.

Lemma analyzePhoto_rejected (req : request) (st : state) :
  validPost req = false ->
  exists e, analyzePhoto rt req st
            = (Value (respond (statusOf e) (errorBody (message e))), st,
               [LoggerError (utf16 "analyzePhoto error")])
            /\ (statusCode e = Some 405%Z \/ statusCode e = Some 415%Z).
Proof.
  intros H. destruct (assertPostJson_invalid req H) as (e & E & C).
  exists e. split; [|exact C].
  unfold analyzePhoto, tryCatch, bind. now rewrite E.
Qed.

Lemma analyzePhoto_no_image (req : request) (st : state) :
  validPost req = true ->
  (forall s, field req "imageBase64" = Some (JString s) -> s = []) ->
  analyzePhoto rt req st
  = (Value (respond 400 (errorBody (utf16 "Missing imageBase64 (string)."))),
     st, []).
Proof.
  intros V I. unfold analyzePhoto, tryCatch, bind.
  rewrite (assertPostJson_valid req V). cbn [ret].
  fold (field req "imageBase64").
  destruct (field req "imageBase64") as [[| | | s | |]|]; try reflexivity.
  now rewrite (I s eq_refl).
Qed.

Lemma analyzePhoto_too_large (req : request) (st : state) (s : jsstring) :
  validPost req = true ->
  field req "imageBase64" = Some (JString s) ->
  8000000 < length s ->
  analyzePhoto rt req st
  = (Value (respond 413
              (errorBody (utf16 "Image too large. Please upload a smaller image."))),
     st, []).
Proof.
  intros V I L. unfold analyzePhoto, tryCatch, bind.
  rewrite (assertPostJson_valid req V). cbn [ret].
  fold (field req "imageBase64"). rewrite I.
  destruct s as [|c s]; [cbn in L; lia|].
  apply N.ltb_lt in L. now rewrite L.
Qed.

Lemma analyzePhoto_no_client (req : request) (st : state) (s : jsstring) :
  validPost req = true ->
  field req "imageBase64" = Some (JString s) ->
  0 < length s <= 8000000 ->
  clientReady rt st = false ->
  exists e, analyzePhoto rt req st
            = (Value (respond 500 (errorBody (message e))), st,
               [LoggerError (utf16 "analyzePhoto error")]).
Proof.
  intros V I [L0 L] C. destruct (getGeminiClient_missing st C) as (e & E & S).
  exists e. unfold analyzePhoto, tryCatch, bind.
  rewrite (assertPostJson_valid req V). cbn [ret].
  fold (field req "imageBase64"). rewrite I.
  destruct s as [|c s]; [cbn in L0; lia|].
  apply N.ltb_ge in L. rewrite L, E.
  unfold catchAll, bind, loggerError, ret. now rewrite S.
Qed.

Lemma analyzePhoto_run (req : request) (st : state) (s : jsstring) :
  validPost req = true ->
  field req "imageBase64" = Some (JString s) ->
  0 < length s <= 8000000 ->
  clientReady rt st = true ->
  analyzePhoto rt req st
  = match generateContent rt modelName (photoParts req s) with
    | Failed e =>
        (Value (respond (statusOf e) (errorBody (message e))), ready,
         [Generate modelName (photoParts req s);
          LoggerError (utf16 "analyzePhoto error")])
    | Answered t =>
        (Value (relayed t), ready, [Generate modelName (photoParts req s)])
    end.
Proof.
  intros V I [L0 L] C. unfold analyzePhoto, tryCatch, bind.
  rewrite (assertPostJson_valid req V). cbn [ret].
  fold (field req "imageBase64") (field req "prompt") (field req "lang").
  rewrite I. destruct s as [|c s]; [cbn in L0; lia|].
  apply N.ltb_ge in L. rewrite L.
  rewrite (getGeminiClient_ready st C). unfold generate.
  fold (photoParts req (c :: s)).
  destruct (generateContent rt modelName (photoParts req (c :: s))) as [e|t].
  - reflexivity.
  - destruct t as [[|d t]|]; reflexivity.
Qed.

End HandlerFacts.

Section CalledFacts.

Variable rt : runtime.

(** When [skinAnalysis] called the model, its answer is the reconciled
    model answer. *)
Lemma skinAnalysis_called (req : request) (st : state)
  (model : jsstring) (parts : list part) (t : option jsstring) :
  In (Generate model parts) (snd (skinAnalysis rt req st)) ->
  generateContent rt model parts = Answered t ->
  fst (fst (skinAnalysis rt req st)) = Value (fst (reconciled t)).
Proof.
  intros I G.
  destruct (validPost req) eqn:V.
  2:{ destruct (skinAnalysis_rejected rt req st V) as (e & E & _).
      rewrite E in I. cbn [snd In] in I. destruct I as [I|[]]. discriminate. }
  destruct (truthy (field req "profile")) eqn:P.
  2:{ rewrite (skinAnalysis_no_profile rt req st V P) in I. destruct I. }
  destruct (clientReady rt st) eqn:C.
  2:{ destruct (skinAnalysis_no_client rt req st V P C) as (e & E).
      rewrite E in I. cbn [snd In] in I. destruct I as [I|[]]. discriminate. }
  rewrite (skinAnalysis_run rt req st V P C) in I |- *.
  destruct (generateContent rt modelName (analysisParts rt req)) as [e|t'] eqn:G'.
  - cbn [snd In] in I. destruct I as [I|[I|[]]]; [|discriminate].
    injection I as <- <-. congruence.
  - cbn [fst snd In] in I |- *. destruct I as [I|I].
    + injection I as <- <-. congruence.
    + exfalso. unfold reconciled in I.
      destruct t' as [[|c t']|]; try destruct (decode (c :: t'));
        cbn [fst snd In] in I; try contradiction.
      destruct I as [I|[]]. discriminate.
Qed.

(** When [analyzePhoto] called the model, its answer is the relayed
    model answer. *)
Lemma analyzePhoto_called (req : request) (st : state)
  (model : jsstring) (parts : list part) (t : option jsstring) :
  In (Generate model parts) (snd (analyzePhoto rt req st)) ->
  generateContent rt model parts = Answered t ->
  fst (fst (analyzePhoto rt req st)) = Value (relayed t).
Proof.
  intros I G.
  destruct (validPost req) eqn:V.
  2:{ destruct (analyzePhoto_rejected rt req st V) as (e & E & _).
      rewrite E in I. cbn [snd In] in I. destruct I as [I|[]]. discriminate. }
  assert (Cases : (forall s, field req "imageBase64" = Some (JString s) -> s = [])
                  \/ exists s, field req "imageBase64" = Some (JString s)
                               /\ 0 < length s).
  { destruct (field req "imageBase64") as [[| | | s | |]|];
      try (left; intros s' [=]; fail).
    destruct s as [|c s].
    - left. now intros s' [= <-].
    - right. exists (c :: s). split; [reflexivity|]. cbn [length]. lia. }
  destruct Cases as [N|(s & F & L0)].
  { rewrite (analyzePhoto_no_image rt req st V N) in I. destruct I. }
  destruct (N.ltb_spec 8000000 (length s)) as [L|L].
  { rewrite (analyzePhoto_too_large rt req st s V F L) in I. destruct I. }
  destruct (clientReady rt st) eqn:C.
  2:{ destruct (analyzePhoto_no_client rt req st s V F (conj L0 L) C) as (e & E).
      rewrite E in I. cbn [snd In] in I. destruct I as [I|[]]. discriminate. }
  rewrite (analyzePhoto_run rt req st s V F (conj L0 L) C) in I |- *.
  destruct (generateContent rt modelName (photoParts req s)) as [e|t'] eqn:G'.
  - cbn [snd In] in I. destruct I as [I|[I|[]]]; [|discriminate].
    injection I as <- <-. congruence.
  - cbn [fst snd In] in I |- *. destruct I as [I|[]].
    injection I as <- <-. congruence.
Qed.

End CalledFacts.

(* ====================================================================== *)
(** * The error paths and the free-text endpoint *)
(* ====================================================================== *)

Lemma length_pos (c : code_unit) (s : jsstring) :
  (0 <? length (c :: s)) = true.
Proof. apply N.ltb_lt. cbn [length]. lia. Qed.

Lemma length_letters (n : N) : length (letters n) = n.
Proof.
  unfold letters. induction n as [|n IH] using N.peano_ind; [reflexivity|].
  rewrite N.iter_succ. cbn [length]. now rewrite IH.
Qed.


(** C7.  The size guard of [analyzePhoto] is strict at 8,000,000: a valid
    POST whose image string has 8,000,001 characters or more is answered
    413 and nothing is called; an image string of exactly 8,000,000
    characters passes the guard: the model is called with it (or, when the
    model client cannot be had, the answer is the 500 of the missing
    key). *)
Theorem C7_size_guard (rt : runtime) (req : request) (st : state)
  (s : jsstring) :
  validPost req = true ->
  field req "imageBase64" = Some (JString s) ->
  (8000001 <= length s ->
   analyzePhoto rt req st
   = (Value (respond 413
               (errorBody (utf16 "Image too large. Please upload a smaller image."))),
      st, []))
  /\ (length s = 8000000 ->
      (clientReady rt st = true ->
       exists answer trace,
         analyzePhoto rt req st
         = (Value answer, ready, Generate modelName (photoParts req s) :: trace))
      /\ (clientReady rt st = false ->
          exists e,
            analyzePhoto rt req st
            = (Value (respond 500 (errorBody (message e))), st,
               [LoggerError (utf16 "analyzePhoto error")]))).
Proof.
  intros V F. split.
  - intros L. apply (analyzePhoto_too_large rt req st s V F). lia.
  - intros L.
    assert (B : 0 < length s <= 8000000) by lia.
    split; intros C.
    + rewrite (analyzePhoto_run rt req st s V F B C).
      destruct (generateContent rt modelName _); eauto.
    + exact (analyzePhoto_no_client rt req st s V F B C).
Qed.


(** C4 (as amended).  On the free-text endpoint, a non-empty model text
    is neither stripped of fences nor parsed nor trimmed: the answer is
    200 with [ok] true and [analysisText] the model's text as it is. *)
Theorem C4_free_text_relayed (rt : runtime) (req : request) (st : state)
  (model : jsstring) (parts : list part) (t : jsstring) :
  In (Generate model parts) (snd (analyzePhoto rt req st)) ->
  generateContent rt model parts = Answered (Some t) ->
  t <> [] ->
  fst (fst (analyzePhoto rt req st))
  = Value (respond 200
             (JObject [(utf16 "ok", JBool true);
                       (utf16 "analysisText", JString t)])).
Proof.
  intros I G Ne.
  rewrite (analyzePhoto_called rt req st model parts (Some t) I G).
  destruct t as [|c t]; [contradiction|reflexivity].
Qed.

(** C6 (as amended).  On the free-text endpoint the instruction sent to
    the model is the caller's prompt trimmed of surrounding white space,
    when the prompt is a string with non-empty trimmed content; for every
    other request it is the cosmetic-coach template, written with
    "French" when [lang] is "fr" and with "English" for every other
    [lang]. *)
Theorem C6_instruction (rt : runtime) (req : request) (st : state)
  (s : jsstring) :
  validPost req = true ->
  field req "imageBase64" = Some (JString s) ->
  0 < length s <= 8000000 ->
  clientReady rt st = true ->
  exists answer trace instruction image,
    analyzePhoto rt req st
    = (Value answer, ready,
       Generate modelName [Text instruction; image] :: trace)
    /\ (forall p, field req "prompt" = Some (JString p) -> trim p <> [] ->
        instruction = trim p)
    /\ ((forall p, field req "prompt" = Some (JString p) -> trim p = []) ->
        (field req "lang" = Some (JString (utf16 "fr")) ->
         instruction = coachPrompt (utf16 "French"))
        /\ (field req "lang" <> Some (JString (utf16 "fr")) ->
            instruction = coachPrompt (utf16 "English"))).
Proof.
  intros V F B C. rewrite (analyzePhoto_run rt req st s V F B C).
  assert (P : (forall p, field req "prompt" = Some (JString p) -> trim p <> [] ->
                 basePrompt (field req "prompt") (field req "lang") = trim p)
              /\ ((forall p, field req "prompt" = Some (JString p) -> trim p = []) ->
                  basePrompt (field req "prompt") (field req "lang")
                  = coachPrompt (languageName (field req "lang")))).
  { unfold basePrompt. split.
    - intros p -> Ne. destruct p as [|c p]; [now contradiction Ne|].
      cbn [isEmpty negb andb]. destruct (trim (c :: p)); [contradiction|].
      now rewrite length_pos.
    - intros E. destruct (field req "prompt") as [[| | | p | |]|];
        try reflexivity.
      rewrite (E p eq_refl). cbn [length]. now rewrite andb_false_r. }
  assert (Lg : (field req "lang" = Some (JString (utf16 "fr")) ->
                languageName (field req "lang") = utf16 "French")
               /\ (field req "lang" <> Some (JString (utf16 "fr")) ->
                   languageName (field req "lang") = utf16 "English")).
  { unfold languageName, isFrench. split.
    - intros ->. reflexivity.
    - intros Ne. destruct (field req "lang") as [[| | | l | |]|];
        try reflexivity.
      destruct (eqb l (utf16 "fr")) eqn:E; [|reflexivity].
      apply eqb_eq in E. subst l. now contradiction Ne. }
  destruct P as [P1 P2]. destruct Lg as [L1 L2].
  unfold photoParts.
  destruct (generateContent rt modelName _);
    do 4 eexists; (split; [reflexivity|]); (split; [exact P1|]);
    intros E; rewrite (P2 E); (split; intros L);
    [rewrite (L1 L)|rewrite (L2 L)|rewrite (L1 L)|rewrite (L2 L)]; reflexivity.
Qed.

(* ====================================================================== *)
(** * The check-in client *)
(* ====================================================================== *)


(* ====================================================================== *)
(** * The user prompt *)
(* ====================================================================== *)

Section PromptFacts.

Variable rt : runtime.

Lemma joinArray_strings (sep : jsstring) (l : list jsstring) :
  joinArray rt sep (map JString l) = join sep l.
Proof.
  unfold joinArray, Json.joinArray. rewrite map_map. cbn [Json.toString].
  now rewrite map_id.
Qed.

Lemma fieldOr_skinType (p : ProfileInput) (placeholder : string) :
  fieldOr rt (Some (profileJson p)) "skinType" placeholder
  = shown (utf16 placeholder) (skinType p).
Proof.
  destruct p as [[[|c v]|] [cs|] [a|] [e|] [r|]]; reflexivity.
Qed.

Lemma fieldOr_ageRange (p : ProfileInput) (placeholder : string) :
  fieldOr rt (Some (profileJson p)) "ageRange" placeholder
  = shown (utf16 placeholder) (ageRange p).
Proof.
  destruct p as [[v|] [cs|] [[|c a]|] [e|] [r|]]; reflexivity.
Qed.

Lemma fieldOr_sunExposure (p : ProfileInput) (placeholder : string) :
  fieldOr rt (Some (profileJson p)) "sunExposure" placeholder
  = shown (utf16 placeholder) (sunExposure p).
Proof.
  destruct p as [[v|] [cs|] [a|] [[|c e]|] [r|]]; reflexivity.
Qed.

Lemma fieldOr_currentRoutine (p : ProfileInput) (placeholder : string) :
  fieldOr rt (Some (profileJson p)) "currentRoutine" placeholder
  = shown (utf16 placeholder) (currentRoutine p).
Proof.
  destruct p as [[v|] [cs|] [a|] [e|] [[|c r]|]]; reflexivity.
Qed.

Lemma concernsOr_concerns (p : ProfileInput) (lang : jsstring)
  (placeholder : string) :
  utf16 placeholder = noConcerns lang ->
  concernsOr rt (Some (profileJson p)) placeholder
  = shownConcerns lang (concerns p).
Proof.
  intros E.
  assert (L : prop (Some (profileJson p)) (utf16 "concerns")
              = option_map (fun l => JArray (map JString l)) (concerns p)).
  { destruct p as [[v|] [cs|] [a|] [e|] [r|]]; reflexivity. }
  unfold concernsOr. rewrite L. destruct (concerns p) as [l|]; cbn.
  - apply joinArray_strings.
  - now rewrite <- E.
Qed.

Lemma userPromptEn_layout (profile photoData : option json) :
  userPromptEn rt profile photoData
  = layout
      (utf16 "Analyze this skin profile and generate personalized recommendations:

Skin Type")
      (utf16 "Concerns") (utf16 "Age Range") (utf16 "Sun Exposure")
      (utf16 "Current Routine")
      (utf16 "
Generate a complete analysis with:
- A skin health score (0-100)
- A personalized summary
- 3-4 priority recommendations
- A morning routine (4-5 steps)
- An evening routine (4-5 steps)
- 5-6 recommended ingredients (with cautions for melanin-rich skin)")
      (fieldOr rt profile "skinType" "Not specified")
      (concernsOr rt profile "None")
      (fieldOr rt profile "ageRange" "Not specified")
      (fieldOr rt profile "sunExposure" "Not specified")
      (fieldOr rt profile "currentRoutine" "Not specified")
      (if truthy photoData then photoNoticeEn else []).
Proof.
  unfold userPromptEn, layout.
  generalize (fieldOr rt profile "skinType" "Not specified") as v1.
  generalize (concernsOr rt profile "None") as v2.
  generalize (fieldOr rt profile "ageRange" "Not specified") as v3.
  generalize (fieldOr rt profile "sunExposure" "Not specified") as v4.
  generalize (fieldOr rt profile "currentRoutine" "Not specified") as v5.
  generalize (if truthy photoData then photoNoticeEn else []) as n.
  intros. vm_compute. reflexivity.
Qed.

Lemma userPromptFr_layout (profile photoData : option json) :
  userPromptFr rt profile photoData
  = layout
      (utf16 "Analyse ce profil de peau et génère des recommandations personnalisées:

Type de peau")
      (utf16 "Préoccupations") (utf16 "Tranche d'âge")
      (utf16 "Exposition au soleil") (utf16 "Routine actuelle")
      (utf16 "
Génère une analyse complète avec:
- Un score de santé de la peau (0-100)
- Un résumé personnalisé
- 3-4 recommandations prioritaires
- Une routine matin (4-5 étapes)
- Une routine soir (4-5 étapes)
- 5-6 ingrédients recommandés (avec précautions pour peaux riches en mélanine)")
      (fieldOr rt profile "skinType" "Non spécifié")
      (concernsOr rt profile "Aucune")
      (fieldOr rt profile "ageRange" "Non spécifié")
      (fieldOr rt profile "sunExposure" "Non spécifié")
      (fieldOr rt profile "currentRoutine" "Non spécifié")
      (if truthy photoData then photoNoticeFr else []).
Proof.
  unfold userPromptFr, layout.
  generalize (fieldOr rt profile "skinType" "Non spécifié") as v1.
  generalize (concernsOr rt profile "Aucune") as v2.
  generalize (fieldOr rt profile "ageRange" "Non spécifié") as v3.
  generalize (fieldOr rt profile "sunExposure" "Non spécifié") as v4.
  generalize (fieldOr rt profile "currentRoutine" "Non spécifié") as v5.
  generalize (if truthy photoData then photoNoticeFr else []) as n.
  intros. vm_compute. reflexivity.
Qed.

End PromptFacts.

Section OccurrenceFacts.

(** An occurrence of [p] in [a ++ c :: b] holds [c], or lies in [a], or
    lies in [b]. *)
Lemma includes_across (a b p : jsstring) (c : code_unit) :
  includes (a ++ c :: b) p = true ->
  In c p \/ includes a p = true \/ includes b p = true.
Proof.
  rewrite !includes_iff. intros (pre & post & E).
  apply app_eq_app in E as [l [[Ea Ep]|[Epre Ecb]]].
  - apply app_eq_app in Ep as [l' [[Ep Ecb]|[El Epost]]].
    + destruct l' as [|x l'].
      * right. left. exists pre, []. subst. now rewrite !app_nil_r.
      * injection Ecb as <- _. left. subst p. apply in_or_app. right. now left.
    + right. left. exists pre, l'. subst. now rewrite <- ?app_assoc.
  - destruct l as [|x l].
    + destruct p as [|y p].
      * right. left. exists a, []. now rewrite app_nil_r.
      * injection Ecb as <- _. left. now left.
    + injection Ecb as _ ->. right. right. now exists l, post.
Qed.

Lemma unbroken_no_separator (p : jsstring) :
  unbroken p = true -> ~ In 58 p /\ ~ In 10 p.
Proof.
  unfold unbroken. destruct p as [|x p]; [discriminate|].
  intros H. apply andb_true_iff in H as [_ H].
  rewrite forallb_forall in H.
  split; intros I; specialize (H _ I); cbn in H; discriminate.
Qed.

Lemma unbroken_after_space (p v : jsstring) :
  unbroken p = true -> includes (32 :: v) p = includes v p.
Proof.
  unfold unbroken. destruct p as [|x p]; [discriminate|].
  intros H. apply andb_true_iff in H as [H _].
  rewrite includes_unfold. cbn [startsWith].
  apply negb_true_iff in H. now rewrite H.
Qed.

End OccurrenceFacts.

Section LayoutFacts.

Variables heading l2 l3 l4 l5 closing : jsstring.
Variables v1 v2 v3 v4 v5 notice : jsstring.

Abbreviation text :=
  (layout heading l2 l3 l4 l5 closing v1 v2 v3 v4 v5 notice).

Lemma layout_line1 (before l1 : jsstring) :
  heading = before ++ l1 ->
  includes text (l1 ++ 58 :: 32 :: v1 ++ [10]) = true.
Proof.
  intros E.
  apply includes_iff. exists before. eexists. unfold layout.
  rewrite E. repeat (rewrite <- ?app_assoc; cbn [app]). reflexivity.
Qed.

Lemma layout_line2 : includes text (l2 ++ 58 :: 32 :: v2 ++ [10]) = true.
Proof.
  apply includes_iff. exists (heading ++ 58 :: 32 :: v1 ++ [10]). eexists.
  unfold layout.
  repeat (rewrite <- ?app_assoc; cbn [app]). reflexivity.
Qed.

Lemma layout_line3 : includes text (l3 ++ 58 :: 32 :: v3 ++ [10]) = true.
Proof.
  apply includes_iff.
  exists (heading ++ 58 :: 32 :: v1 ++ 10 :: l2 ++ 58 :: 32 :: v2 ++ [10]).
  eexists. unfold layout.
  repeat (rewrite <- ?app_assoc; cbn [app]). reflexivity.
Qed.

Lemma layout_line4 : includes text (l4 ++ 58 :: 32 :: v4 ++ [10]) = true.
Proof.
  apply includes_iff.
  exists (heading ++ 58 :: 32 :: v1 ++ 10 :: l2 ++ 58 :: 32 :: v2
          ++ 10 :: l3 ++ 58 :: 32 :: v3 ++ [10]).
  eexists. unfold layout.
  repeat (rewrite <- ?app_assoc; cbn [app]). reflexivity.
Qed.

Lemma layout_line5 : includes text (l5 ++ 58 :: 32 :: v5 ++ [10]) = true.
Proof.
  apply includes_iff.
  exists (heading ++ 58 :: 32 :: v1 ++ 10 :: l2 ++ 58 :: 32 :: v2
          ++ 10 :: l3 ++ 58 :: 32 :: v3 ++ 10 :: l4 ++ 58 :: 32 :: v4
          ++ [10]).
  eexists. unfold layout.
  repeat (rewrite <- ?app_assoc; cbn [app]). reflexivity.
Qed.

Lemma layout_notice : includes text (10 :: notice ++ [10]) = true.
Proof.
  apply includes_iff.
  exists (heading ++ 58 :: 32 :: v1 ++ 10 :: l2 ++ 58 :: 32 :: v2
          ++ 10 :: l3 ++ 58 :: 32 :: v3 ++ 10 :: l4 ++ 58 :: 32 :: v4
          ++ 10 :: l5 ++ 58 :: 32 :: v5).
  eexists. unfold layout.
  repeat (rewrite <- ?app_assoc; cbn [app]). reflexivity.
Qed.

(** A text that cannot straddle the pieces of the layout occurs in the
    layout only if it occurs in one of the pieces. *)
Lemma layout_absent (p : jsstring) :
  unbroken p = true ->
  includes heading p = false -> includes l2 p = false ->
  includes l3 p = false -> includes l4 p = false -> includes l5 p = false ->
  includes closing p = false -> includes notice p = false ->
  (forall v, In v [v1; v2; v3; v4; v5] -> includes v p = false) ->
  includes text p = false.
Proof.
  intros U Hh H2 H3 H4 H5 Hc Hn Hv.
  destruct (unbroken_no_separator p U) as [N58 N10].
  assert (E1 := Hv v1 (or_introl eq_refl)).
  assert (E2 := Hv v2 (or_intror (or_introl eq_refl))).
  assert (E3 := Hv v3 (or_intror (or_intror (or_introl eq_refl)))).
  assert (E4 := Hv v4 (or_intror (or_intror (or_intror (or_introl eq_refl))))).
  assert (E5 := Hv v5
    (or_intror (or_intror (or_intror (or_intror (or_introl eq_refl)))))).
  destruct (includes text p) eqn:E; [exfalso|reflexivity].
  unfold layout in E.
  repeat (apply includes_across in E as [E|[E|E]];
          [contradiction|congruence|];
          rewrite ?(unbroken_after_space p _ U) in E).
  congruence.
Qed.

End LayoutFacts.

(** C5 (as amended).  For each of the two languages and every profile,
    the user prompt holds one labelled line per field.  The line of
    [skinType], [ageRange], [sunExposure] and [currentRoutine] shows the
    field's text when the field is present (and not empty) and the
    placeholder of the language ("Not specified", "Non spécifié") when it
    is absent; the line of [concerns] shows the concerns joined by a comma
    and a space when they are present, and "None" or "Aucune" when they
    are absent.  When [photoData] is truthy the prompt holds the notice
    line of the language; when it is falsy the prompt holds the notice
    text only if one of the shown field texts holds it. *)
Theorem C5_user_prompt (rt : runtime) (lang : jsstring) (p : ProfileInput)
  (photoData : option json) :
  lang = utf16 "en" \/ lang = utf16 "fr" ->
  let prompt :=
    userPrompt rt (Some (JString lang)) (Some (profileJson p)) photoData in
  includes prompt
    (labelled lang "Type de peau: " "Skin Type: "
       (shown (notSpecified lang) (skinType p))) = true
  /\ includes prompt
       (labelled lang "Préoccupations: " "Concerns: "
          (shownConcerns lang (concerns p))) = true
  /\ includes prompt
       (labelled lang "Tranche d'âge: " "Age Range: "
          (shown (notSpecified lang) (ageRange p))) = true
  /\ includes prompt
       (labelled lang "Exposition au soleil: " "Sun Exposure: "
          (shown (notSpecified lang) (sunExposure p))) = true
  /\ includes prompt
       (labelled lang "Routine actuelle: " "Current Routine: "
          (shown (notSpecified lang) (currentRoutine p))) = true
  /\ (truthy photoData = true ->
      includes prompt (10 :: photoNotice lang ++ [10]) = true)
  /\ (truthy photoData = false ->
      (forall v, In v (shownTexts lang p) ->
                 includes v (photoNotice lang) = false) ->
      includes prompt (photoNotice lang) = false).
Proof.
  intros [-> | ->]; intros prompt; subst prompt.
  - change (userPrompt rt (Some (JString (utf16 "en"))) (Some (profileJson p))
              photoData)
      with (userPromptEn rt (Some (profileJson p)) photoData).
    rewrite userPromptEn_layout.
    rewrite fieldOr_skinType, fieldOr_ageRange, fieldOr_sunExposure,
      fieldOr_currentRoutine, (concernsOr_concerns rt p (utf16 "en") "None" eq_refl).
    repeat split.
    + exact (layout_line1 _ _ _ _ _ _ _ _ _ _ _ _
               (utf16 "Analyze this skin profile and generate personalized recommendations:

") (utf16 "Skin Type") eq_refl).
    + exact (layout_line2 _ _ _ _ _ _ _ _ _ _ _ _).
    + exact (layout_line3 _ _ _ _ _ _ _ _ _ _ _ _).
    + exact (layout_line4 _ _ _ _ _ _ _ _ _ _ _ _).
    + exact (layout_line5 _ _ _ _ _ _ _ _ _ _ _ _).
    + intros ->. exact (layout_notice _ _ _ _ _ _ _ _ _ _ _ _).
    + intros -> Hv. apply layout_absent; try reflexivity. exact Hv.
  - change (userPrompt rt (Some (JString (utf16 "fr"))) (Some (profileJson p))
              photoData)
      with (userPromptFr rt (Some (profileJson p)) photoData).
    rewrite userPromptFr_layout.
    rewrite fieldOr_skinType, fieldOr_ageRange, fieldOr_sunExposure,
      fieldOr_currentRoutine, (concernsOr_concerns rt p (utf16 "fr") "Aucune" eq_refl).
    repeat split.
    + exact (layout_line1 _ _ _ _ _ _ _ _ _ _ _ _
               (utf16 "Analyse ce profil de peau et génère des recommandations personnalisées:

") (utf16 "Type de peau") eq_refl).
    + exact (layout_line2 _ _ _ _ _ _ _ _ _ _ _ _).
    + exact (layout_line3 _ _ _ _ _ _ _ _ _ _ _ _).
    + exact (layout_line4 _ _ _ _ _ _ _ _ _ _ _ _).
    + exact (layout_line5 _ _ _ _ _ _ _ _ _ _ _ _).
    + intros ->. exact (layout_notice _ _ _ _ _ _ _ _ _ _ _ _).
    + intros -> Hv. apply layout_absent; try reflexivity. exact Hv.
Qed.

(* ====================================================================== *)
(** * Concrete runs *)
(* ====================================================================== *)

Section SpecPatternFacts.

Lemma SpecDataUrl_scheme (s m p : jsstring) :
  SpecDataUrl s m p -> exists r, afterLiteral (utf16 "data:") s = Some r.
Proof.
  intros (scheme & Hs & -> & _). eexists. apply afterLiteral_iff.
  exists scheme. split; [exact Hs|reflexivity].
Qed.

Lemma SpecDataUrl_includes (s m p : jsstring) :
  SpecDataUrl s m p -> includes s (utf16 ";base64,") = true.
Proof.
  intros (scheme & _ & -> & _). apply includes_iff.
  exists (scheme ++ m), p. now rewrite <- app_assoc.
Qed.

(** Where the marker stands in a string of the pattern. *)
Lemma SpecDataUrl_position (s m p : jsstring) :
  SpecDataUrl s m p ->
  startsWith (skipn (5 + List.length m) s) (utf16 ";base64,") = true.
Proof.
  intros (scheme & Hs & -> & _).
  assert (L : List.length scheme = 5%nat)
    by now rewrite <- toLowerCase_length, Hs.
  rewrite app_assoc, skipn_app, length_app, L, Nat.sub_diag.
  rewrite skipn_all2 by (rewrite length_app; lia).
  cbn [skipn app]. apply startsWith_app.
Qed.

End SpecPatternFacts.



(** C2, a run: a fenced analysis result. *)
Lemma C2_witness :
  decode (wrapInFences (quoted "{^overallScore^: 72, ^summary^: ^Balanced^, ^concerns^: [^dryness^]}"))
  = Some (JObject [(utf16 "overallScore", JInt 72);
                   (utf16 "summary", JString (utf16 "Balanced"));
                   (utf16 "concerns", JArray [JString (utf16 "dryness")])]).
Proof.
  apply C2_decode_wrapInFences. vm_compute. reflexivity.
Defined.

(** C3, a run: between spaces, a fenced object whose text holds a
    marker of its own. *)
Lemma C3_witness :
  stripFences (stripFences (quoted "  ```json
{^note^: ^```^}
```  "))
  = stripFences (quoted "  ```json
{^note^: ^```^}
```  ").
Proof.
  apply C3_stripFences_idempotent.
  exists (utf16 "  "), fenceJson, (quoted "
{^note^: ^```^}
"), fence, (utf16 "  ").
  repeat split; try reflexivity; auto.
Defined.

(** C4, the claim as stated fails: the model's text is relayed with the
    white space around it. *)
Lemma C4_counterexample :
  fst (fst (analyzePhoto
              (sampleRuntime (Answered (Some (utf16 " Looks healthy. "))))
              (photoPost (utf16 "iVBORw0KGgo=")) fresh))
  = Value (respond 200
             (JObject [(utf16 "ok", JBool true);
                       (utf16 "analysisText",
                          JString (utf16 " Looks healthy. "))]))
  /\ fst (fst (analyzePhoto
                 (sampleRuntime (Answered (Some (utf16 " Looks healthy. "))))
                 (photoPost (utf16 "iVBORw0KGgo=")) fresh))
     <> Value (respond 200
                 (JObject [(utf16 "ok", JBool true);
                           (utf16 "analysisText",
                              JString (trim (utf16 " Looks healthy. ")))])).
Proof.
  split; vm_compute; [reflexivity|discriminate].
Qed.

(** C4, a run of the amended statement: a fenced JSON text is relayed
    as it is. *)
Lemma C4_witness :
  fst (fst (analyzePhoto
              (sampleRuntime (Answered (Some (wrapInFences (utf16 "{}")))))
              (photoPost (utf16 "iVBORw0KGgo=")) fresh))
  = Value (respond 200
             (JObject [(utf16 "ok", JBool true);
                       (utf16 "analysisText",
                          JString (wrapInFences (utf16 "{}")))])).
Proof.
  apply (C4_free_text_relayed
           (sampleRuntime (Answered (Some (wrapInFences (utf16 "{}")))))
           (photoPost (utf16 "iVBORw0KGgo=")) fresh modelName
           (photoParts (photoPost (utf16 "iVBORw0KGgo=")) (utf16 "iVBORw0KGgo="))).
  - vm_compute. left. reflexivity.
  - reflexivity.
  - discriminate.
Defined.

(** C5, the claim as stated fails.  With no concerns and every other
    field present, the English prompt holds "None" and does not hold
    "Not specified"; and with no photo, a routine that quotes the notice
    on a line of its own puts the notice line in the prompt. *)
Lemma C5_counterexample :
  (concerns profileWithoutConcerns = None
   /\ includes
        (userPrompt (sampleRuntime (Answered None)) (Some (JString (utf16 "en")))
           (Some (profileJson profileWithoutConcerns)) None)
        (utf16 "Not specified") = false
   /\ includes
        (userPrompt (sampleRuntime (Answered None)) (Some (JString (utf16 "en")))
           (Some (profileJson profileWithoutConcerns)) None)
        (utf16 "Concerns: None") = true)
  /\ (truthy None = false
      /\ includes
           (userPrompt (sampleRuntime (Answered None)) (Some (JString (utf16 "en")))
              (Some (profileJson profileQuotingNotice)) None)
           (10 :: photoNoticeEn ++ [10]) = true).
Proof.
  repeat split; vm_compute; reflexivity.
Qed.

(** C5, a run of the amended statement, in French: the line of the
    absent concerns, and no notice without a photo. *)
Lemma C5_witness :
  (labelled (utf16 "fr") "Préoccupations: " "Concerns: "
     (shownConcerns (utf16 "fr") (concerns profileWithoutConcerns))
   = utf16 "Préoccupations: Aucune
"
   /\ includes
        (userPrompt (sampleRuntime (Answered None)) (Some (JString (utf16 "fr")))
           (Some (profileJson profileWithoutConcerns))
           (Some (JString (utf16 "iVBORw0KGgo="))))
        (labelled (utf16 "fr") "Préoccupations: " "Concerns: "
           (shownConcerns (utf16 "fr") (concerns profileWithoutConcerns)))
      = true)
  /\ includes
       (userPrompt (sampleRuntime (Answered None)) (Some (JString (utf16 "fr")))
          (Some (profileJson profileWithoutConcerns)) None)
       (photoNotice (utf16 "fr")) = false.
Proof.
  destruct (C5_user_prompt (sampleRuntime (Answered None)) (utf16 "fr")
              profileWithoutConcerns (Some (JString (utf16 "iVBORw0KGgo=")))
              (or_intror eq_refl)) as (_ & Line & _).
  destruct (C5_user_prompt (sampleRuntime (Answered None)) (utf16 "fr")
              profileWithoutConcerns None (or_intror eq_refl))
    as (_ & _ & _ & _ & _ & _ & Absent).
  split; [split|].
  - vm_compute. reflexivity.
  - exact Line.
  - apply Absent; [reflexivity|].
    intros v I. vm_compute in I.
    repeat (destruct I as [<- | I]; [vm_compute; reflexivity|]).
    destruct I.
Defined.

(** C6, the claim as stated fails: the caller's prompt is trimmed. *)
Lemma C6_counterexample :
  trim (utf16 "  Describe my skin.  ") <> []
  /\ basePrompt (Some (JString (utf16 "  Describe my skin.  "))) None
     = utf16 "Describe my skin."
  /\ basePrompt (Some (JString (utf16 "  Describe my skin.  "))) None
     <> utf16 "  Describe my skin.  ".
Proof.
  repeat split; vm_compute; try reflexivity; discriminate.
Qed.

(** C6, a run of the amended statement: a prompt between spaces, and a
    blank prompt in French. *)
Lemma C6_witness :
  (exists answer trace instruction image,
      analyzePhoto (sampleRuntime (Answered (Some (utf16 "Fine."))))
        (jsonPost (JObject [(utf16 "imageBase64", JString (utf16 "iVBORw0KGgo="));
                            (utf16 "prompt", JString (utf16 "  Describe my skin.  "))]))
        fresh
      = (Value answer, ready,
         Generate modelName [Text instruction; image] :: trace)
      /\ instruction = utf16 "Describe my skin.")
  /\ (exists answer trace instruction image,
         analyzePhoto (sampleRuntime (Answered (Some (utf16 "Fine."))))
           (jsonPost (JObject [(utf16 "imageBase64", JString (utf16 "iVBORw0KGgo="));
                               (utf16 "prompt", JString (utf16 "   "));
                               (utf16 "lang", JString (utf16 "fr"))]))
           fresh
         = (Value answer, ready,
            Generate modelName [Text instruction; image] :: trace)
         /\ instruction = coachPrompt (utf16 "French")).
Proof.
  split.
  - destruct (C6_instruction (sampleRuntime (Answered (Some (utf16 "Fine."))))
                (jsonPost (JObject [(utf16 "imageBase64", JString (utf16 "iVBORw0KGgo="));
                                    (utf16 "prompt", JString (utf16 "  Describe my skin.  "))]))
                fresh (utf16 "iVBORw0KGgo=") eq_refl eq_refl)
      as (answer & trace & instruction & image & R & P & _).
    + vm_compute. split; [reflexivity|discriminate].
    + reflexivity.
    + exists answer, trace, instruction, image. split; [exact R|].
      apply (P (utf16 "  Describe my skin.  ") eq_refl).
      vm_compute. discriminate.
  - destruct (C6_instruction (sampleRuntime (Answered (Some (utf16 "Fine."))))
                (jsonPost (JObject [(utf16 "imageBase64", JString (utf16 "iVBORw0KGgo="));
                                    (utf16 "prompt", JString (utf16 "   "));
                                    (utf16 "lang", JString (utf16 "fr"))]))
                fresh (utf16 "iVBORw0KGgo=") eq_refl eq_refl)
      as (answer & trace & instruction & image & R & _ & T).
    + vm_compute. split; [reflexivity|discriminate].
    + reflexivity.
    + exists answer, trace, instruction, image. split; [exact R|].
      apply T; [|reflexivity].
      intros p E. vm_compute in E. injection E as <-. reflexivity.
Defined.

(** C7, a run at the boundary: 8,000,001 letters are refused, 8,000,000
    are sent to the model. *)
Lemma C7_witness :
  analyzePhoto (sampleRuntime (Answered (Some (utf16 "Fine."))))
    (photoPost (letters 8000001)) fresh
  = (Value (respond 413
              (errorBody (utf16 "Image too large. Please upload a smaller image."))),
     fresh, [])
  /\ exists answer trace,
       analyzePhoto (sampleRuntime (Answered (Some (utf16 "Fine."))))
         (photoPost (letters 8000000)) fresh
       = (Value answer, ready,
          Generate modelName
            (photoParts (photoPost (letters 8000000)) (letters 8000000))
          :: trace).
Proof.
  split.
  - apply (proj1 (C7_size_guard _ (photoPost (letters 8000001)) fresh
                    (letters 8000001) eq_refl eq_refl)).
    rewrite length_letters. lia.
  - apply (proj2 (C7_size_guard _ (photoPost (letters 8000000)) fresh
                    (letters 8000000) eq_refl eq_refl)).
    + apply length_letters.
    + reflexivity.
Defined.




(* ====================================================================== *)
(** * The handlers, request by request *)
(* ====================================================================== *)

Section PathFacts.

Variable rt : runtime.

(** The four ways through [skinAnalysis]. *)
Lemma skinAnalysis_paths (req : request) (st : state) :
  (validPost req = false
   /\ exists e, skinAnalysis rt req st
                = (Value (respond (statusOf e) (errorBody (message e))), st,
                   [LoggerError (utf16 "skinAnalysis error")])
                /\ (statusCode e = Some 405%Z \/ statusCode e = Some 415%Z))
  \/ (truthy (field req "profile") = false
      /\ skinAnalysis rt req st
         = (Value (respond 400 (errorBody (utf16 "Missing profile data."))),
            st, []))
  \/ (clientReady rt st = false
      /\ exists e, skinAnalysis rt req st
                   = (Value (respond 500 (errorBody (message e))), st,
                      [LoggerError (utf16 "skinAnalysis error")]))
  \/ (validPost req = true /\ truthy (field req "profile") = true
      /\ clientReady rt st = true
      /\ skinAnalysis rt req st
         = match generateContent rt modelName (analysisParts rt req) with
           | Failed e =>
               (Value (respond (statusOf e) (errorBody (message e))), ready,
                [Generate modelName (analysisParts rt req);
                 LoggerError (utf16 "skinAnalysis error")])
           | Answered t =>
               (Value (fst (reconciled t)), ready,
                Generate modelName (analysisParts rt req) :: snd (reconciled t))
           end).
Proof.
  destruct (validPost req) eqn:V.
  2:{ left. split; [reflexivity|]. exact (skinAnalysis_rejected rt req st V). }
  destruct (truthy (field req "profile")) eqn:P.
  2:{ right. left. split; [reflexivity|]. exact (skinAnalysis_no_profile rt req st V P). }
  destruct (clientReady rt st) eqn:C.
  2:{ right. right. left. split; [reflexivity|].
      exact (skinAnalysis_no_client rt req st V P C). }
  right. right. right. repeat split.
  exact (skinAnalysis_run rt req st V P C).
Qed.

(** The image string of a request, when it is one that is not empty. *)
Lemma imageBase64_cases (req : request) :
  (forall s, field req "imageBase64" = Some (JString s) -> s = [])
  \/ exists s, field req "imageBase64" = Some (JString s) /\ 0 < length s.
Proof.
  destruct (field req "imageBase64") as [[| | | s | |]|];
    try (left; intros s' [=]; fail).
  destruct s as [|c s].
  - left. now intros s' [= <-].
  - right. exists (c :: s). split; [reflexivity|]. cbn [length]. lia.
Qed.

(** The five ways through [analyzePhoto]. *)
Lemma analyzePhoto_paths (req : request) (st : state) :
  (validPost req = false
   /\ exists e, analyzePhoto rt req st
                = (Value (respond (statusOf e) (errorBody (message e))), st,
                   [LoggerError (utf16 "analyzePhoto error")])
                /\ (statusCode e = Some 405%Z \/ statusCode e = Some 415%Z))
  \/ ((forall s, field req "imageBase64" = Some (JString s) -> s = [])
      /\ analyzePhoto rt req st
         = (Value (respond 400 (errorBody (utf16 "Missing imageBase64 (string)."))),
            st, []))
  \/ ((exists s, field req "imageBase64" = Some (JString s) /\ 8000000 < length s)
      /\ analyzePhoto rt req st
         = (Value (respond 413
                     (errorBody (utf16 "Image too large. Please upload a smaller image."))),
            st, []))
  \/ (clientReady rt st = false
      /\ exists e, analyzePhoto rt req st
                   = (Value (respond 500 (errorBody (message e))), st,
                      [LoggerError (utf16 "analyzePhoto error")]))
  \/ (exists s,
        validPost req = true
        /\ field req "imageBase64" = Some (JString s)
        /\ 0 < length s <= 8000000
        /\ clientReady rt st = true
        /\ analyzePhoto rt req st
           = match generateContent rt modelName (photoParts req s) with
             | Failed e =>
                 (Value (respond (statusOf e) (errorBody (message e))), ready,
                  [Generate modelName (photoParts req s);
                   LoggerError (utf16 "analyzePhoto error")])
             | Answered t =>
                 (Value (relayed t), ready, [Generate modelName (photoParts req s)])
             end).
Proof.
  destruct (validPost req) eqn:V.
  2:{ left. split; [reflexivity|]. exact (analyzePhoto_rejected rt req st V). }
  destruct (imageBase64_cases req) as [N|(s & F & L0)].
  { right. left. split; [exact N|]. exact (analyzePhoto_no_image rt req st V N). }
  destruct (N.ltb_spec 8000000 (length s)) as [L|L].
  { right. right. left. split; [now exists s|].
    exact (analyzePhoto_too_large rt req st s V F L). }
  destruct (clientReady rt st) eqn:C.
  2:{ right. right. right. left. split; [reflexivity|].
      exact (analyzePhoto_no_client rt req st s V F (conj L0 L) C). }
  right. right. right. right. exists s. repeat split; try assumption.
  exact (analyzePhoto_run rt req st s V F (conj L0 L) C).
Qed.

(** A model call in the trace of [skinAnalysis]: the request went all the
    way to the model. *)
Lemma skinAnalysis_generated (req : request) (st : state)
  (model : jsstring) (parts : list part) :
  In (Generate model parts) (snd (skinAnalysis rt req st)) ->
  validPost req = true /\ truthy (field req "profile") = true
  /\ clientReady rt st = true
  /\ model = modelName /\ parts = analysisParts rt req.
Proof.
  intros I.
  destruct (skinAnalysis_paths req st)
    as [(_ & e & E & _) | [(_ & E) | [(_ & e & E) | (V & P & C & E)]]];
    rewrite E in I.
  - cbn [snd In] in I. destruct I as [I|[]]. discriminate.
  - destruct I.
  - cbn [snd In] in I. destruct I as [I|[]]. discriminate.
  - assert (G : Generate model parts = Generate modelName (analysisParts rt req)).
    { destruct (generateContent rt modelName (analysisParts rt req)) as [e|t].
      - cbn [snd In] in I. destruct I as [I|[I|[]]]; [now symmetry|discriminate].
      - cbn [snd In] in I. destruct I as [I|I]; [now symmetry|].
        exfalso. unfold reconciled in I.
        destruct t as [[|c t]|]; try destruct (decode (c :: t));
          cbn [fst snd In] in I; try contradiction.
        destruct I as [I|[]]. discriminate. }
    injection G as -> ->. now repeat split.
Qed.

Lemma analyzePhoto_generated (req : request) (st : state)
  (model : jsstring) (parts : list part) :
  In (Generate model parts) (snd (analyzePhoto rt req st)) ->
  exists s,
    validPost req = true
    /\ field req "imageBase64" = Some (JString s)
    /\ 0 < length s <= 8000000
    /\ clientReady rt st = true
    /\ model = modelName /\ parts = photoParts req s.
Proof.
  intros I.
  destruct (analyzePhoto_paths req st)
    as [(_ & e & E & _) | [(_ & E) | [(_ & E) | [(_ & e & E)
       | (s & V & F & L & C & E)]]]];
    rewrite E in I.
  - cbn [snd In] in I. destruct I as [I|[]]. discriminate.
  - destruct I.
  - destruct I.
  - cbn [snd In] in I. destruct I as [I|[]]. discriminate.
  - exists s.
    assert (G : Generate model parts = Generate modelName (photoParts req s)).
    { destruct (generateContent rt modelName (photoParts req s)) as [e|t];
        cbn [snd In] in I.
      - destruct I as [I|[I|[]]]; [now symmetry|discriminate].
      - destruct I as [I|[]]. now symmetry. }
    injection G as -> ->. now repeat split.
Qed.

End PathFacts.



(** X2.  [analyzePhoto] answers a valid POST with 400 and "Missing
    imageBase64 (string)." -- nothing called, nothing logged, no model
    client made -- exactly when the image field is not a string that is
    not empty: absent, [null], a number, an array, the empty string. *)
Theorem X2_missing_image (rt : runtime) (req : request) (st : state) :
  validPost req = true ->
  analyzePhoto rt req st
  = (Value (respond 400 (errorBody (utf16 "Missing imageBase64 (string)."))),
     st, [])
  <-> (forall s, field req "imageBase64" = Some (JString s) -> s = []).
Proof.
  intros V. split.
  - intros A.
    destruct (analyzePhoto_paths rt req st)
      as [(V' & _) | [(N & _) | [((s & F & L) & E) | [(_ & e & E)
         | (s & _ & F & L & C & E)]]]].
    + congruence.
    + exact N.
    + rewrite E in A. discriminate A.
    + rewrite E in A. discriminate A.
    + rewrite E in A.
      destruct (generateContent rt modelName (photoParts req s));
        discriminate A.
  - exact (analyzePhoto_no_image rt req st V).
Qed.

(** X2, a run: an image that is a number. *)
Lemma X2_witness :
  validPost (jsonPost (JObject [(utf16 "imageBase64", JInt 7)])) = true
  /\ analyzePhoto (sampleRuntime (Answered None))
       (jsonPost (JObject [(utf16 "imageBase64", JInt 7)])) fresh
     = (Value (respond 400 (errorBody (utf16 "Missing imageBase64 (string)."))),
        fresh, []).
Proof.
  assert (V : validPost (jsonPost (JObject [(utf16 "imageBase64", JInt 7)]))
              = true) by (vm_compute; reflexivity).
  split; [exact V|].
  apply (proj2 (X2_missing_image (sampleRuntime (Answered None))
                  (jsonPost (JObject [(utf16 "imageBase64", JInt 7)])) fresh V)).
  intros s E. vm_compute in E. discriminate E.
Defined.

(** X3.  When the model call fails, the answer of either handler carries
    the message of the error, with the status code of the error when that
    is an integer other than zero and with 500 otherwise; the error is
    logged under the handler's label. *)
Theorem X3_model_failure (rt : runtime) (req : request) (st : state)
  (model : jsstring) (parts : list part) (e : error) :
  generateContent rt model parts = Failed e ->
  (In (Generate model parts) (snd (skinAnalysis rt req st)) ->
   exists code,
     skinAnalysis rt req st
     = (Value (respond code (errorBody (message e))), ready,
        [Generate model parts; LoggerError (utf16 "skinAnalysis error")])
     /\ (forall n, statusCode e = Some n -> n <> 0%Z -> code = n)
     /\ (statusCode e = None \/ statusCode e = Some 0%Z -> code = 500%Z))
  /\ (In (Generate model parts) (snd (analyzePhoto rt req st)) ->
      exists code,
        analyzePhoto rt req st
        = (Value (respond code (errorBody (message e))), ready,
           [Generate model parts; LoggerError (utf16 "analyzePhoto error")])
        /\ (forall n, statusCode e = Some n -> n <> 0%Z -> code = n)
        /\ (statusCode e = None \/ statusCode e = Some 0%Z -> code = 500%Z)).
Proof.
  intros G.
  assert (S : (forall n, statusCode e = Some n -> n <> 0%Z -> statusOf e = n)
              /\ (statusCode e = None \/ statusCode e = Some 0%Z ->
                  statusOf e = 500%Z)).
  { unfold statusOf. split.
    - intros n -> Ne. now destruct (Z.eqb_spec n 0).
    - intros [-> | ->]; reflexivity. }
  split; intros I.
  - destruct (skinAnalysis_generated rt req st model parts I)
      as (V & P & C & -> & ->).
    exists (statusOf e). split; [|exact S].
    now rewrite (skinAnalysis_run rt req st V P C), G.
  - destruct (analyzePhoto_generated rt req st model parts I)
      as (s & V & F & L & C & -> & ->).
    exists (statusOf e). split; [|exact S].
    now rewrite (analyzePhoto_run rt req st s V F L C), G.
Qed.

(** X3, a run: the model is out of quota, and the answer is a 429. *)
Lemma X3_witness :
  In (Generate modelName (photoParts (photoPost tinyPng) tinyPng))
    (snd (analyzePhoto (sampleRuntime (Failed quotaError)) (photoPost tinyPng)
            fresh))
  /\ fst (fst (analyzePhoto (sampleRuntime (Failed quotaError))
                 (photoPost tinyPng) fresh))
     = Value (respond 429 (errorBody (message quotaError))).
Proof.
  assert (I : In (Generate modelName (photoParts (photoPost tinyPng) tinyPng))
                (snd (analyzePhoto (sampleRuntime (Failed quotaError))
                        (photoPost tinyPng) fresh)))
    by (vm_compute; left; reflexivity).
  assert (S : statusCode quotaError = Some 429%Z) by reflexivity.
  assert (Nz : 429%Z <> 0%Z) by discriminate.
  split; [exact I|].
  destruct (proj2 (X3_model_failure (sampleRuntime (Failed quotaError))
                     (photoPost tinyPng) fresh modelName
                     (photoParts (photoPost tinyPng) tinyPng) quotaError
                     eq_refl) I) as (code & E & Hn & _).
  rewrite E, (Hn 429%Z S Nz). reflexivity.
Defined.



(** X6.  A request costs one model call at most, on either handler.
    The model of a call is gemini-1.5-flash; its content is one text
    followed by at most one image for [skinAnalysis], and one text
    followed by one image for [analyzePhoto]. *)
Theorem X6_one_model_call (rt : runtime) (req : request) (st : state) :
  (List.length (modelCalls (snd (skinAnalysis rt req st))) <= 1)%nat
  /\ (List.length (modelCalls (snd (analyzePhoto rt req st))) <= 1)%nat
  /\ (forall model parts,
        In (model, parts) (modelCalls (snd (skinAnalysis rt req st))) ->
        model = modelName
        /\ exists t rest,
             parts = Text t :: rest
             /\ (rest = [] \/ exists data mime, rest = [InlineData data mime]))
  /\ (forall model parts,
        In (model, parts) (modelCalls (snd (analyzePhoto rt req st))) ->
        model = modelName
        /\ exists t data mime, parts = [Text t; InlineData data mime]).
Proof.
  assert (Shape : exists t rest,
            analysisParts rt req = Text t :: rest
            /\ (rest = [] \/ exists data mime, rest = [InlineData data mime])).
  { unfold analysisParts, contentParts. do 2 eexists. split; [reflexivity|].
    destruct (field req "photoData") as [[| | | [|c p] | |]|]; eauto. }
  split; [|split; [|split]].
  - destruct (skinAnalysis_paths rt req st)
      as [(_ & e & E & _) | [(_ & E) | [(_ & e & E) | (V & P & C & E)]]];
      rewrite E; try (cbn [snd modelCalls flat_map app List.length]; lia).
    destruct (generateContent rt modelName (analysisParts rt req)) as [e|t];
      [cbn [snd modelCalls flat_map app List.length]; lia|].
    unfold reconciled.
    destruct t as [[|c t]|]; try destruct (decode (c :: t));
      cbn [fst snd modelCalls flat_map app List.length]; lia.
  - destruct (analyzePhoto_paths rt req st)
      as [(_ & e & E & _) | [(_ & E) | [(_ & E) | [(_ & e & E)
         | (s & V & F & L & C & E)]]]];
      rewrite E; try (cbn [snd modelCalls flat_map app List.length]; lia).
    destruct (generateContent rt modelName (photoParts req s));
      cbn [snd modelCalls flat_map app List.length]; lia.
  - intros model parts I. unfold modelCalls in I.
    apply in_flat_map in I as ([m p | l] & I & J); [|destruct J].
    destruct J as [[= -> ->]|[]].
    destruct (skinAnalysis_generated rt req st model parts I)
      as (_ & _ & _ & -> & ->).
    split; [reflexivity|exact Shape].
  - intros model parts I. unfold modelCalls in I.
    apply in_flat_map in I as ([m p | l] & I & J); [|destruct J].
    destruct J as [[= -> ->]|[]].
    destruct (analyzePhoto_generated rt req st model parts I)
      as (s & _ & _ & _ & _ & -> & ->).
    split; [reflexivity|]. unfold photoParts. eauto.
Qed.

(** X6, a run: the one call of a request with a profile. *)
Lemma X6_witness :
  In (modelName,
      analysisParts (sampleRuntime (Answered None))
        (profilePost (profileJson profileWithoutConcerns)))
    (modelCalls (snd (skinAnalysis (sampleRuntime (Answered None))
                        (profilePost (profileJson profileWithoutConcerns))
                        fresh)))
  /\ exists t rest,
       analysisParts (sampleRuntime (Answered None))
         (profilePost (profileJson profileWithoutConcerns))
       = Text t :: rest
       /\ (rest = [] \/ exists data mime, rest = [InlineData data mime]).
Proof.
  assert (I : In (modelName,
                  analysisParts (sampleRuntime (Answered None))
                    (profilePost (profileJson profileWithoutConcerns)))
                (modelCalls (snd (skinAnalysis (sampleRuntime (Answered None))
                                    (profilePost (profileJson profileWithoutConcerns))
                                    fresh))))
    by (vm_compute; left; reflexivity).
  split; [exact I|].
  exact (proj2 (proj1 (proj2 (proj2 (X6_one_model_call
                                       (sampleRuntime (Answered None))
                                       (profilePost (profileJson profileWithoutConcerns))
                                       fresh))) _ _ I)).
Defined.



(* ====================================================================== *)
(** * The image on its way to the model *)
(* ====================================================================== *)

Section BlankFacts.

Lemma length_append (a b : jsstring) : length (a ++ b) = length a + length b.
Proof.
  induction a as [|c a IH]; cbn [app length]; [reflexivity|]. rewrite IH. lia.
Qed.

Lemma trimStart_blank (s : jsstring) :
  exists w, s = w ++ trimStart s /\ blank w = true.
Proof.
  induction s as [|c s (w & E & B)]; [now exists []|].
  cbn [trimStart]. destruct (isTrimmed c) eqn:T.
  - exists (c :: w). cbn [app blank forallb]. rewrite T. split; [now f_equal|exact B].
  - now exists [].
Qed.

Lemma blank_rev (w : jsstring) : blank (rev w) = blank w.
Proof.
  unfold blank. induction w as [|c w IH]; [reflexivity|].
  cbn [rev forallb]. rewrite forallb_app, IH. cbn [forallb].
  rewrite andb_true_r. apply andb_comm.
Qed.

Lemma trimEnd_blank (s : jsstring) :
  exists w, s = trimEnd s ++ w /\ blank w = true.
Proof.
  unfold trimEnd. destruct (trimStart_blank (rev s)) as (w & E & B).
  exists (rev w). split; [|now rewrite blank_rev].
  rewrite <- rev_app_distr, <- E. symmetry. apply rev_involutive.
Qed.

(** A string is its trimmed part between two runs of white space. *)
Lemma trim_blank (s : jsstring) :
  exists a b, s = a ++ trim s ++ b /\ blank a = true /\ blank b = true.
Proof.
  destruct (trimStart_blank s) as (a & Ea & Ba).
  destruct (trimEnd_blank (trimStart s)) as (b & Eb & Bb).
  exists a, b. unfold trim. now rewrite <- Eb, <- Ea.
Qed.

Lemma trimStart_nil (s : jsstring) : trimStart s = [] <-> blank s = true.
Proof.
  unfold blank. induction s as [|c s IH]; cbn [trimStart forallb]; [easy|].
  destruct (isTrimmed c); cbn [andb]; [exact IH|easy].
Qed.

(** Exactly the blank strings are trimmed to nothing. *)
Lemma trim_nil (s : jsstring) : trim s = [] <-> blank s = true.
Proof.
  split.
  - intros E. destruct (trim_blank s) as (a & b & Es & Ba & Bb).
    rewrite E in Es. rewrite Es. unfold blank in *.
    rewrite forallb_app, Ba. exact Bb.
  - intros B. unfold trim. apply trimStart_nil in B. now rewrite B.
Qed.

End BlankFacts.

Section ImageFacts.

(** The payload the normalizer returns is what the input ends with,
    white space apart. *)
Lemma normalizeBase64_suffix (input : jsstring) :
  exists before after,
    input = before ++ base64 (normalizeBase64 input) ++ after
    /\ blank after = true.
Proof.
  destruct (trim_blank input) as (a & b & E & _ & Bb).
  unfold normalizeBase64.
  destruct (matchDataUrl (trim input)) as [[m p]|] eqn:M; cbn [base64].
  - destruct (matchDataUrl_sound _ _ _ M) as [(sc & sep & _ & _ & T & _) _].
    exists (a ++ sc ++ m ++ sep), b. split; [|exact Bb].
    rewrite E at 1. rewrite T. now rewrite <- !app_assoc.
  - now exists a, b.
Qed.

Lemma normalizeBase64_length (input : jsstring) :
  length (base64 (normalizeBase64 input)) <= length input.
Proof.
  destruct (normalizeBase64_suffix input) as (a & b & E & _).
  rewrite E at 2. rewrite !length_append. lia.
Qed.

End ImageFacts.

(** X8.  Whatever the input, the image the normalizer returns has a mime
    type that is not empty and holds no line terminator, and a payload
    that is a piece of the input: what the input ends with, white space
    apart.  The payload is empty exactly when the input is blank. *)
Theorem X8_normalized_image (input : jsstring) :
  mimeType (normalizeBase64 input) <> []
  /\ oneLine (mimeType (normalizeBase64 input)) = true
  /\ (exists before after,
        input = before ++ base64 (normalizeBase64 input) ++ after
        /\ blank after = true)
  /\ (base64 (normalizeBase64 input) = [] <-> blank input = true)
  /\ length (base64 (normalizeBase64 input)) <= length input.
Proof.
  split; [|split; [|split; [exact (normalizeBase64_suffix input)|
                            split; [|exact (normalizeBase64_length input)]]]];
    unfold normalizeBase64;
    destruct (matchDataUrl (trim input)) as [[m p]|] eqn:M;
    cbn [mimeType base64]; try discriminate; try reflexivity;
    try (destruct (matchDataUrl_sound _ _ _ M)
           as [(sc & sep & Hsc & _ & T & Hm & Hp & Lm & _) _]).
  - exact Hm.
  - exact Lm.
  - split; [intros ->; now contradiction Hp|].
    intros B. apply trim_nil in B. rewrite B in T.
    destruct sc; [discriminate Hsc|discriminate T].
  - apply trim_nil.
Qed.

Section RoundTripFacts.

Lemma spaceless_oneLine (s : jsstring) : spaceless s = true -> oneLine s = true.
Proof.
  unfold spaceless, oneLine. rewrite !forallb_forall. intros H c I.
  specialize (H c I). unfold isTrimmed in H.
  apply negb_true_iff in H. apply orb_false_iff in H as [_ H].
  now rewrite H.
Qed.

(** A data URL whose payload holds no white space is left as it is by
    [trim], and white space around it is dropped. *)
Lemma trim_dataUrl (before after mime payload : jsstring) :
  payload <> [] -> spaceless payload = true ->
  blank before = true -> blank after = true ->
  trim (before ++ dataUrl mime payload ++ after) = dataUrl mime payload.
Proof.
  intros Ne S Bb Ba. rewrite (trim_surrounded _ _ _ Bb Ba).
  destruct (exists_last Ne) as (q & d & ->).
  assert (D : isTrimmed d = false).
  { unfold spaceless in S. rewrite forallb_app in S.
    apply andb_true_iff in S as [_ S]. cbn [forallb] in S.
    rewrite andb_true_r in S. now apply negb_true_iff in S. }
  unfold dataUrl.
  replace (utf16 "data:" ++ mime ++ utf16 ";base64," ++ q ++ [d])
    with (100 :: ([97; 116; 97; 58] ++ mime ++ utf16 ";base64," ++ q) ++ [d])
    by (rewrite <- !app_assoc; reflexivity).
  now apply trim_fixed.
Qed.

(** In a data URL whose mime type does not hold the marker, no split has
    a shorter mime type. *)
Lemma dataUrl_shortest (mime payload : jsstring) :
  mime <> [] -> oneLine mime = true ->
  includes (toLowerCase mime) (utf16 ";base64,") = false ->
  payload <> [] -> oneLine payload = true ->
  DataUrlShortest (dataUrl mime payload) mime payload.
Proof.
  intros Nm Lm H Np Lp. split.
  - exists (utf16 "data:"), (utf16 ";base64,"). now repeat split.
  - intros m' p' (sc & sep & Hsc & Hsep & E & Nm' & _).
    unfold dataUrl in E.
    assert (Lsc : List.length (utf16 "data:") = List.length sc)
      by now rewrite <- (toLowerCase_length sc), Hsc.
    destruct (app_same_length _ _ _ _ E Lsc) as [_ E1].
    apply app_eq_app in E1 as [l [[-> E2]|[-> E2]]];
      [|rewrite List.length_app; lia].
    destruct l as [|x l]; [rewrite app_nil_r; lia|].
    exfalso.
    apply app_eq_app in E2 as [l2 [[Hx E3]|[Hs E3]]].
    + (* the marker straddles the end of the mime type *)
      destruct l2 as [|y l2].
      * rewrite app_nil_r in Hx. subst sep.
        assert (I : includes (toLowerCase (m' ++ x :: l)) (utf16 ";base64,")
                    = true).
        { apply includes_iff. exists (toLowerCase m'), [].
          unfold toLowerCase. rewrite !map_app.
          fold (toLowerCase (x :: l)). rewrite Hsep. now rewrite app_nil_r. }
        congruence.
      * change (utf16 ";base64,") with (59 :: utf16 "base64,") in E3, Hsep.
        injection E3 as <- _. subst sep.
        cbn [toLowerCase map app] in Hsep. injection Hsep as _ T.
        assert (I : In (lowerAscii 59) (utf16 "base64,")).
        { rewrite <- T. rewrite map_app. apply in_or_app. right. now left. }
        vm_compute in I. intuition discriminate.
    + (* the marker lies inside the mime type *)
      assert (I : includes (toLowerCase (m' ++ x :: l)) (utf16 ";base64,")
                  = true).
      { apply includes_iff. exists (toLowerCase m'), (toLowerCase l2).
        rewrite Hs. unfold toLowerCase. rewrite !map_app.
        fold (toLowerCase sep). now rewrite Hsep. }
      congruence.
Qed.

End RoundTripFacts.

(** X9.  Round trip through the normalizer: a data URL written from a
    mime type and a payload -- the mime type not empty, on one line and
    without the marker in it, the payload not empty and without white
    space -- is split into that mime type and that payload, also when
    white space surrounds it. *)
Theorem X9_data_url_round_trip (before after mime payload : jsstring) :
  mime <> [] -> oneLine mime = true ->
  includes (toLowerCase mime) (utf16 ";base64,") = false ->
  payload <> [] -> spaceless payload = true ->
  blank before = true -> blank after = true ->
  normalizeBase64 (before ++ dataUrl mime payload ++ after)
  = {| mimeType := mime; base64 := payload |}.
Proof.
  intros Nm Lm H Np S Bb Ba. unfold normalizeBase64.
  rewrite (trim_dataUrl _ _ _ _ Np S Bb Ba).
  now rewrite (matchDataUrl_shortest _ _ _
                 (dataUrl_shortest _ _ Nm Lm H Np (spaceless_oneLine _ S))).
Qed.

(** X9, a run: a PNG data URL after a space and before a line break. *)
Lemma X9_witness :
  normalizeBase64
    ([32] ++ dataUrl (utf16 "image/png") (utf16 "iVBORw0KGgo=") ++ [13; 10])
  = {| mimeType := utf16 "image/png"; base64 := utf16 "iVBORw0KGgo=" |}.
Proof.
  assert (Nm : utf16 "image/png" <> []) by (vm_compute; discriminate).
  assert (Lm : oneLine (utf16 "image/png") = true) by (vm_compute; reflexivity).
  assert (H : includes (toLowerCase (utf16 "image/png")) (utf16 ";base64,")
              = false) by (vm_compute; reflexivity).
  assert (Np : utf16 "iVBORw0KGgo=" <> []) by (vm_compute; discriminate).
  assert (S : spaceless (utf16 "iVBORw0KGgo=") = true)
    by (vm_compute; reflexivity).
  exact (X9_data_url_round_trip [32] [13; 10] (utf16 "image/png")
           (utf16 "iVBORw0KGgo=") Nm Lm H Np S eq_refl eq_refl).
Defined.

(** X10.  The size guard bounds what reaches the model: the image data
    of a model call of [analyzePhoto] is never longer than 8,000,000
    code units. *)
Theorem X10_image_data_bound (rt : runtime) (req : request) (st : state)
  (model : jsstring) (parts : list part) (data mime : jsstring) :
  In (Generate model parts) (snd (analyzePhoto rt req st)) ->
  In (InlineData data mime) parts ->
  length data <= 8000000.
Proof.
  intros I J.
  destruct (analyzePhoto_generated rt req st model parts I)
    as (s & _ & _ & [_ L] & _ & _ & ->).
  unfold photoParts in J. destruct J as [J|[J|[]]]; [discriminate|].
  injection J as <- _.
  pose proof (normalizeBase64_length s). lia.
Qed.

(** X10, a run: the image data of a small PNG. *)
Lemma X10_witness :
  In (Generate modelName (photoParts (photoPost tinyPng) tinyPng))
    (snd (analyzePhoto (sampleRuntime (Answered None)) (photoPost tinyPng)
            fresh))
  /\ In (InlineData (utf16 "iVBORw0KGgo=") (utf16 "image/png"))
       (photoParts (photoPost tinyPng) tinyPng)
  /\ length (utf16 "iVBORw0KGgo=") <= 8000000.
Proof.
  assert (I : In (Generate modelName (photoParts (photoPost tinyPng) tinyPng))
                (snd (analyzePhoto (sampleRuntime (Answered None))
                        (photoPost tinyPng) fresh)))
    by (vm_compute; left; reflexivity).
  assert (J : In (InlineData (utf16 "iVBORw0KGgo=") (utf16 "image/png"))
                (photoParts (photoPost tinyPng) tinyPng))
    by (vm_compute; right; left; reflexivity).
  split; [exact I|]. split; [exact J|].
  exact (X10_image_data_bound _ _ _ _ _ _ _ I J).
Defined.

Section NoticeFacts.

Variable rt : runtime.

(** The notice is part of the user prompt whenever the photo is truthy. *)
Lemma userPrompt_notice (language profile photoData : option json) :
  truthy photoData = true ->
  includes (userPrompt rt language profile photoData)
    (if isFrench language then photoNoticeFr else photoNoticeEn) = true.
Proof.
  intros T. unfold userPrompt.
  assert (Inner : forall x n, includes x (10 :: n ++ [10]) = true ->
                              includes x n = true).
  { intros x n H. apply includes_iff in H as (pre & post & ->).
    apply includes_iff. exists (pre ++ [10]), (10 :: post).
    repeat (rewrite <- ?app_assoc; cbn [app]). reflexivity. }
  destruct (isFrench language); apply Inner.
  - rewrite userPromptFr_layout, T. apply layout_notice.
  - rewrite userPromptEn_layout, T. apply layout_notice.
Qed.

End NoticeFacts.



(* ====================================================================== *)
(** * The answer of the model on its way back *)
(* ====================================================================== *)

Section LexFacts.

(** No JSON text starts with a backtick. *)
Lemma tokens_backtick_first (r : jsstring) : tokens (96 :: r) = None.
Proof. reflexivity. Qed.

(** No JSON text ends with a backtick. *)
Lemma tokens_backtick_last (r : jsstring) : tokens (r ++ [96]) = None.
Proof.
  unfold tokens. rewrite run_app.
  destruct (run ([], Between) r) as [[toks [|w|b|b|b h]]|]; try reflexivity.
  cbn [run step]. change (isWordChar 96) with false. cbn iota.
  destruct (closeWord toks w); reflexivity.
Qed.

(** A word that starts with the letter j is no JSON literal. *)
Lemma classify_j (y : jsstring) : classify (106 :: y) = None.
Proof. reflexivity. Qed.

Lemma run_word_j (s : jsstring) (toks : list token) (w y : jsstring) :
  rev w = 106 :: y ->
  match run (toks, InWord w) s with
  | Some st => finish st = None
  | None => True
  end.
Proof.
  revert w y; induction s as [|c s IH]; intros w y E.
  - cbn [run finish]. unfold closeWord. now rewrite E, classify_j.
  - cbn [run step]. destruct (isWordChar c).
    + apply (IH (c :: w) (y ++ [c])). cbn [rev]. now rewrite E.
    + unfold closeWord. now rewrite E, classify_j.
Qed.

Lemma tokens_j_first (r : jsstring) : tokens (106 :: r) = None.
Proof.
  unfold tokens.
  change (run ([], Between) (106 :: r)) with (run ([], InWord [106]) r).
  pose proof (run_word_j r [] [106] [] eq_refl) as H.
  now destruct (run ([], InWord [106]) r).
Qed.

(** A text that parses, white space apart, neither starts nor ends with
    a fence marker, and does not start with the tag of one. *)
Lemma parse_not_fenced (body : jsstring) (v : json) :
  parse body = Some v ->
  startsWith (trim body) fence = false
  /\ endsWith (trim body) fence = false
  /\ startsWith body (utf16 "json") = false.
Proof.
  intros P. pose proof (parse_trim _ _ P) as T. unfold parse in P, T.
  split; [|split].
  - destruct (startsWith (trim body) fence) eqn:S; [|reflexivity].
    apply startsWith_true in S as [r S]. rewrite S, fence_eq in T.
    cbn [app] in T. now rewrite tokens_backtick_first in T.
  - destruct (endsWith (trim body) fence) eqn:S; [|reflexivity].
    apply endsWith_iff in S as [r S]. rewrite S, fence_eq in T.
    change [96; 96; 96] with ([96; 96] ++ [96]) in T.
    rewrite app_assoc in T. now rewrite tokens_backtick_last in T.
  - destruct (startsWith body (utf16 "json")) eqn:S; [|reflexivity].
    apply startsWith_true in S as [r S]. rewrite S in P.
    change (utf16 "json" ++ r) with (106 :: utf16 "son" ++ r) in P.
    now rewrite tokens_j_first in P.
Qed.

End LexFacts.

Section OptionalFences.

Lemma trim_before_fence (x : jsstring) :
  trim (x ++ fence) = trimStart x ++ fence.
Proof.
  unfold trim. rewrite fence_eq.
  rewrite (trimStart_app_kept x [96; 96] 96 eq_refl).
  now rewrite (trimEnd_app_kept (trimStart x) [96; 96] 96 eq_refl).
Qed.

Lemma trim_after_fence (l x : jsstring) :
  l = fence \/ l = fenceJson -> trim (l ++ x) = l ++ trimEnd x.
Proof.
  intros [-> | ->]; [rewrite fence_eq|rewrite fenceJson_eq];
    unfold trim; cbn [app]; rewrite (trimStart_kept 96 _ eq_refl).
  - exact (trimEnd_app_kept [96; 96] x 96 eq_refl).
  - exact (trimEnd_app_kept [96; 96; 96; 106; 115; 111] x 110 eq_refl).
Qed.

(** White space, an optional leading marker, a body, an optional
    trailing marker, white space: fence stripping gives the trimmed
    body, when the trimmed body itself has no marker at either end. *)
Lemma stripFences_around (before lead body trail after : jsstring) :
  blank before = true -> blank after = true ->
  lead = []
  \/ (lead = fence /\ startsWith body (utf16 "json") = false)
  \/ lead = fenceJson ->
  trail = [] \/ trail = fence ->
  startsWith (trim body) fence = false ->
  endsWith (trim body) fence = false ->
  stripFences (before ++ lead ++ body ++ trail ++ after) = trim body.
Proof.
  intros Hb Ha L T S E.
  assert (Start : forall b, trim b = trim body -> startsWith b fence = false).
  { intros b Eb. destruct (startsWith b fence) eqn:F; [|reflexivity].
    apply startsWith_fence_trim in F. congruence. }
  assert (End_ : forall b, trim b = trim body -> endsWith b fence = false).
  { intros b Eb. destruct (endsWith b fence) eqn:F; [|reflexivity].
    apply endsWith_fence_trim in F. congruence. }
  assert (Tag : startsWith body (utf16 "json") = false ->
                startsWith (trimEnd body) (utf16 "json") = false).
  { intros J. destruct (startsWith (trimEnd body) (utf16 "json")) eqn:J';
      [|reflexivity].
    apply startsWith_true in J' as [r J'].
    destruct (trimEnd_prefix body) as [w Hw]. rewrite J' in Hw.
    now rewrite Hw, <- app_assoc, startsWith_app in J. }
  assert (Shape : exists b,
            trim (lead ++ body ++ trail) = lead ++ b ++ trail
            /\ trim b = trim body
            /\ (lead = []
                \/ (lead = fence /\ startsWith b (utf16 "json") = false)
                \/ lead = fenceJson)).
  { destruct T as [-> | ->].
    - rewrite app_nil_r. destruct L as [-> | L].
      + exists (trim body). rewrite app_nil_r. cbn [app].
        split; [reflexivity|]. split; [apply trim_idem|now left].
      + exists (trimEnd body). rewrite app_nil_r.
        split; [apply trim_after_fence; destruct L as [[-> _] | ->]; auto|].
        split; [apply trim_trimEnd|].
        destruct L as [[-> J] | ->]; auto.
    - destruct L as [-> | L].
      + exists (trimStart body). cbn [app].
        split; [apply trim_before_fence|].
        split; [apply trim_trimStart|now left].
      + exists body. split; [|split; [reflexivity|now right]].
        rewrite trim_after_fence by (destruct L as [[-> _] | ->]; auto).
        f_equal. rewrite fence_eq.
        exact (trimEnd_app_kept body [96; 96] 96 eq_refl). }
  destruct Shape as (b & Et & Eb & L').
  unfold stripFences.
  replace (before ++ lead ++ body ++ trail ++ after)
    with (before ++ (lead ++ body ++ trail) ++ after)
    by now rewrite <- !app_assoc.
  rewrite (trim_surrounded _ _ _ Hb Ha).
  rewrite (removals_body _ _ _ _ Et L' T (Start b Eb) (fun _ => End_ b Eb)).
  exact Eb.
Qed.

End OptionalFences.

(** X12.  The reconciler reads a JSON text through optional fences: a
    text that parses to [v], with or without a leading marker (plain or
    tagged json), with or without a trailing marker, and with white
    space around it, is decoded to [v]. *)
Theorem X12_decode_optional_fences (before lead body trail after : jsstring)
  (v : json) :
  parse body = Some v ->
  blank before = true -> blank after = true ->
  lead = [] \/ lead = fence \/ lead = fenceJson ->
  trail = [] \/ trail = fence ->
  decode (before ++ lead ++ body ++ trail ++ after) = Some v.
Proof.
  intros P Hb Ha L T.
  destruct (parse_not_fenced body v P) as (S & E & J).
  unfold decode.
  rewrite (stripFences_around before lead body trail after Hb Ha); try assumption.
  - now apply parse_trim.
  - destruct L as [-> | [-> | ->]]; auto.
Qed.

(** X12, a run: a leading marker without a trailing one. *)
Lemma X12_witness :
  decode ([32] ++ fence ++ utf16 "
[1, 2]
" ++ [] ++ [10])
  = Some (JArray [JInt 1; JInt 2]).
Proof.
  assert (P : parse (utf16 "
[1, 2]
") = Some (JArray [JInt 1; JInt 2])) by (vm_compute; reflexivity).
  exact (X12_decode_optional_fences [32] fence _ [] [10] _ P eq_refl eq_refl
           (or_intror (or_introl eq_refl)) (or_introl eq_refl)).
Defined.

(** X13.  What [skinAnalysis] makes of a model text that is not empty.
    When fence stripping and [JSON.parse] give a value, the answer is 200
    with that value as it is -- an object or not: its shape is not
    checked -- and nothing is logged.  When they give none, the answer is
    502 with "Invalid AI response format." and the failure is logged. *)
Theorem X13_structured_answer (rt : runtime) (req : request) (st : state)
  (model : jsstring) (parts : list part) (t : jsstring) :
  In (Generate model parts) (snd (skinAnalysis rt req st)) ->
  generateContent rt model parts = Answered (Some t) ->
  t <> [] ->
  (forall v, decode t = Some v ->
     skinAnalysis rt req st
     = (Value (respond 200 v), ready, [Generate model parts]))
  /\ (decode t = None ->
      skinAnalysis rt req st
      = (Value (respond 502 (errorBody (utf16 "Invalid AI response format."))),
         ready,
         [Generate model parts;
          LoggerError (utf16 "Failed to parse AI response")])).
Proof.
  intros I G Ne.
  destruct (skinAnalysis_generated rt req st model parts I)
    as (V & P & C & -> & ->).
  rewrite (skinAnalysis_run rt req st V P C), G.
  destruct t as [|c t]; [contradiction|]. unfold reconciled.
  split; [intros v D|intros D]; now rewrite D.
Qed.

(** X13, a run: an empty object behind a tagged marker. *)
Lemma X13_witness :
  skinAnalysis
    (sampleRuntime (Answered (Some (utf16 "```json
{}"))))
    (profilePost (profileJson profileWithoutConcerns)) fresh
  = (Value (respond 200 (JObject [])), ready,
     [Generate modelName
        (analysisParts (sampleRuntime (Answered (Some (utf16 "```json
{}"))))
           (profilePost (profileJson profileWithoutConcerns)))]).
Proof.
  assert (I : In (Generate modelName
                    (analysisParts
                       (sampleRuntime (Answered (Some (utf16 "```json
{}"))))
                       (profilePost (profileJson profileWithoutConcerns))))
                (snd (skinAnalysis
                        (sampleRuntime (Answered (Some (utf16 "```json
{}"))))
                        (profilePost (profileJson profileWithoutConcerns))
                        fresh)))
    by (vm_compute; left; reflexivity).
  assert (Ne : utf16 "```json
{}" <> []) by (vm_compute; discriminate).
  assert (D : decode (utf16 "```json
{}") = Some (JObject [])) by (vm_compute; reflexivity).
  exact (proj1 (X13_structured_answer _ _ _ _ _ _ I eq_refl Ne) _ D).
Defined.

Section BlankAnswers.

(** Fence stripping leaves nothing of a blank text, and nothing is no
    JSON text. *)
Lemma decode_blank (t : jsstring) : blank t = true -> decode t = None.
Proof.
  intros B. apply trim_nil in B. unfold decode, stripFences. rewrite B.
  vm_compute. reflexivity.
Qed.

End BlankAnswers.

(** X25.  A model text of white space only.  It is not an empty text, so
    neither handler answers "Empty response from AI model.".
    [skinAnalysis] trims it to nothing, fails to parse that, logs the
    failure and answers 502 with "Invalid AI response format.";
    [analyzePhoto] answers 200 and relays the white space as the
    analysis. *)
Theorem X25_blank_model_text (rt : runtime) (req : request) (st : state)
  (model : jsstring) (parts : list part) (t : jsstring) :
  generateContent rt model parts = Answered (Some t) ->
  t <> [] -> blank t = true ->
  (In (Generate model parts) (snd (skinAnalysis rt req st)) ->
   skinAnalysis rt req st
   = (Value (respond 502 (errorBody (utf16 "Invalid AI response format."))),
      ready,
      [Generate model parts;
       LoggerError (utf16 "Failed to parse AI response")]))
  /\ (In (Generate model parts) (snd (analyzePhoto rt req st)) ->
      analyzePhoto rt req st
      = (Value (respond 200
                  (JObject [(utf16 "ok", JBool true);
                            (utf16 "analysisText", JString t)])),
         ready, [Generate model parts])).
Proof.
  intros G Ne B. destruct t as [|c t]; [contradiction|]. split; intros I.
  - destruct (skinAnalysis_generated rt req st model parts I)
      as (V & P & C & -> & ->).
    rewrite (skinAnalysis_run rt req st V P C), G. unfold reconciled.
    now rewrite (decode_blank _ B).
  - destruct (analyzePhoto_generated rt req st model parts I)
      as (s & V & F & L & C & -> & ->).
    now rewrite (analyzePhoto_run rt req st s V F L C), G.
Qed.

(** X25, a run: a space and a line feed from the model. *)
Lemma X25_witness :
  skinAnalysis (sampleRuntime (Answered (Some [32; 10])))
    (profilePost (profileJson profileWithoutConcerns)) fresh
  = (Value (respond 502 (errorBody (utf16 "Invalid AI response format."))),
     ready,
     [Generate modelName
        (analysisParts (sampleRuntime (Answered (Some [32; 10])))
           (profilePost (profileJson profileWithoutConcerns)));
      LoggerError (utf16 "Failed to parse AI response")]).
Proof.
  assert (I : In (Generate modelName
                    (analysisParts (sampleRuntime (Answered (Some [32; 10])))
                       (profilePost (profileJson profileWithoutConcerns))))
                (snd (skinAnalysis (sampleRuntime (Answered (Some [32; 10])))
                        (profilePost (profileJson profileWithoutConcerns))
                        fresh)))
    by (vm_compute; left; reflexivity).
  assert (Ne : [32; 10] <> @nil N) by discriminate.
  assert (B : blank [32; 10] = true) by (vm_compute; reflexivity).
  exact (proj1 (X25_blank_model_text
                  (sampleRuntime (Answered (Some [32; 10])))
                  (profilePost (profileJson profileWithoutConcerns)) fresh
                  modelName
                  (analysisParts (sampleRuntime (Answered (Some [32; 10])))
                     (profilePost (profileJson profileWithoutConcerns)))
                  [32; 10] eq_refl Ne B) I).
Defined.

(* ====================================================================== *)
(** * The origin, the API key, the blank image *)
(* ====================================================================== *)



Section OriginFacts.

(** No allowed origin is a part of another one. *)
Lemma allowedOrigins_apart (o o' : jsstring) :
  In o allowedOrigins -> In o' allowedOrigins -> includes o' o = true -> o = o'.
Proof.
  unfold allowedOrigins. intros I I'.
  repeat (destruct I as [<-|I]; [|try contradiction]);
    repeat (destruct I' as [<-|I']; [|try contradiction]);
    intros H; first [vm_compute in H; discriminate H | reflexivity].
Qed.

Lemma existsb_eqb (o : jsstring) (l : list jsstring) :
  existsb (eqb o) l = true <-> In o l.
Proof.
  rewrite existsb_exists. split.
  - intros (x & I & E). apply eqb_eq in E. now subst.
  - intros I. exists o. split; [exact I|apply eqb_refl].
Qed.

Lemma allowedOrigins_not_empty (o : jsstring) : In o allowedOrigins -> o <> [].
Proof.
  unfold allowedOrigins. intros I.
  repeat (destruct I as [<-|I]; [discriminate|]). destruct I.
Qed.

End OriginFacts.

(** X14.  The origin check is exact.  The callback is given [true]
    exactly for a request without an origin, with an empty one, or with
    one of the four listed origins; for every other origin it is given
    the error "Not allowed by CORS".  In particular an origin that only
    holds a listed one, with something before it or after it, is
    refused. *)
Theorem X14_cors_origin_is_exact (origin : option jsstring) :
  (corsOrigin origin = inr true
   <-> origin = None \/ origin = Some []
       \/ exists o, origin = Some o /\ In o allowedOrigins)
  /\ (corsOrigin origin <> inr true -> corsOrigin origin = inl notAllowed)
  /\ (forall o x y,
        In o allowedOrigins -> x <> [] \/ y <> [] ->
        origin = Some (x ++ o ++ y) ->
        corsOrigin origin = inl notAllowed).
Proof.
  assert (Iff : forall og, corsOrigin og = inr true
                <-> og = None \/ og = Some []
                    \/ exists o, og = Some o /\ In o allowedOrigins).
  { intros og. unfold corsOrigin. destruct og as [[|c o]|]; cbn [orb].
    - split; auto.
    - destruct (existsb (eqb (c :: o)) allowedOrigins) eqn:E.
      + split; [|reflexivity]. intros _. right. right. exists (c :: o).
        split; [reflexivity|]. now apply existsb_eqb.
      + split; [discriminate|].
        intros [H|[H|(o' & [= <-] & I)]]; try discriminate H.
        apply existsb_eqb in I. congruence.
    - split; auto. }
  assert (Or : forall og, corsOrigin og = inr true
                          \/ corsOrigin og = inl notAllowed).
  { intros og. unfold corsOrigin.
    destruct (_ || _); [now left|now right]. }
  split; [apply Iff|]. split.
  - intros N. now destruct (Or origin).
  - intros o x y I Ne ->.
    destruct (Or (Some (x ++ o ++ y))) as [A|A]; [exfalso|exact A].
    apply Iff in A as [A|[A|(o' & [= <-] & I')]]; try discriminate A.
    + injection A as A. apply app_eq_nil in A as [_ A].
      apply app_eq_nil in A as [A _].
      now apply (allowedOrigins_not_empty o I).
    + assert (E : o = x ++ o ++ y).
      { apply (allowedOrigins_apart o (x ++ o ++ y) I I').
        apply includes_iff. now exists x, y. }
      apply (f_equal (@List.length N)) in E.
      rewrite !List.length_app in E.
      destruct x, y; cbn [List.length] in E; try lia.
      now destruct Ne.
Qed.

(** X14, a run: a listed origin with a suffix. *)
Lemma X14_witness :
  corsOrigin (Some (utf16 "https://drbn1-40b01.web.app" ++ utf16 ".example.org"))
  = inl notAllowed.
Proof.
  assert (I : In (utf16 "https://drbn1-40b01.web.app") allowedOrigins)
    by (left; reflexivity).
  assert (Ne : @nil N <> [] \/ utf16 ".example.org" <> [])
    by (right; vm_compute; discriminate).
  exact (proj2 (proj2 (X14_cors_origin_is_exact
                         (Some (utf16 "https://drbn1-40b01.web.app"
                                ++ utf16 ".example.org"))))
           (utf16 "https://drbn1-40b01.web.app") [] (utf16 ".example.org")
           I Ne eq_refl).
Defined.

(** X15.  Without a model client and without an API key -- the
    variable unset or empty -- a request that passes the checks of either
    handler is answered 500 with the message that names the variable; the
    error is logged, the model is not called, and no client is made, so
    that the next request looks for the key again. *)
Theorem X15_missing_api_key (rt : runtime) (req : request) (st : state) :
  geminiClient st = false ->
  GEMINI_API_KEY rt = None \/ GEMINI_API_KEY rt = Some [] ->
  validPost req = true ->
  (truthy (field req "profile") = true ->
   skinAnalysis rt req st
   = (Value (respond 500 (errorBody missingKey)), st,
      [LoggerError (utf16 "skinAnalysis error")]))
  /\ (forall s, field req "imageBase64" = Some (JString s) ->
                0 < length s <= 8000000 ->
                analyzePhoto rt req st
                = (Value (respond 500 (errorBody missingKey)), st,
                   [LoggerError (utf16 "analyzePhoto error")])).
Proof.
  intros G K V.
  assert (E : getGeminiClient rt st
              = (Thrown {| message := missingKey; statusCode := None |}, st, [])).
  { unfold getGeminiClient, missingKey. rewrite G.
    destruct K as [-> | ->]; reflexivity. }
  split.
  - intros P. unfold skinAnalysis, tryCatch, bind.
    rewrite (assertPostJson_valid req V). cbn [ret].
    fold (field req "profile"). rewrite P. cbn [negb]. now rewrite E.
  - intros s F [L0 L]. unfold analyzePhoto, tryCatch, bind.
    rewrite (assertPostJson_valid req V). cbn [ret].
    fold (field req "imageBase64"). rewrite F.
    destruct s as [|c s]; [cbn in L0; lia|].
    apply N.ltb_ge in L. now rewrite L, E.
Qed.

(** X15, a run: no client and no key. *)
Lemma X15_witness :
  skinAnalysis (keyless (Answered None))
    (profilePost (profileJson profileWithoutConcerns)) fresh
  = (Value (respond 500 (errorBody missingKey)), fresh,
     [LoggerError (utf16 "skinAnalysis error")]).
Proof.
  assert (V : validPost (profilePost (profileJson profileWithoutConcerns))
              = true) by (vm_compute; reflexivity).
  assert (P : truthy (field (profilePost (profileJson profileWithoutConcerns))
                        "profile") = true) by (vm_compute; reflexivity).
  exact (proj1 (X15_missing_api_key (keyless (Answered None))
                  (profilePost (profileJson profileWithoutConcerns)) fresh
                  eq_refl (or_introl eq_refl) V) P).
Defined.



(* ====================================================================== *)
(** * The client, reply by reply *)
(* ====================================================================== *)

(** X17.  [generateSkinAnalysis] issues one request, a POST to
    [skinAnalysis] with the request as it is.  It returns exactly the 2xx
    bodies that are objects or arrays, unchanged: nothing of their shape
    is checked.  A 2xx body that is a boolean, a number or a string makes
    it throw "Invalid response format from AI service"; a 2xx body that
    is [null] makes it throw the TypeError of [Object.keys], not that
    message.  When [fetch] rejects, or the 2xx body cannot be read, it
    throws what was rejected with if that is an instance of [Error], and
    "Network error calling AI service" if not. *)
Theorem X17_generateSkinAnalysis (rt : Client.runtime)
  (rj : Client.rejections) (request : json) :
  let url := Client.FUNCTIONS_BASE_URL rt ++ utf16 "/skinAnalysis" in
  snd (Client.generateSkinAnalysis rt rj request) = [Client.Fetch url request]
  /\ (forall v,
        fst (Client.generateSkinAnalysis rt rj request) = inr v
        <-> exists r,
              Client.fetch rt url request = Client.Resolved r
              /\ Client.ok r = true
              /\ Client.jsonBody r = Some v
              /\ ((exists ms, v = JObject ms) \/ (exists l, v = JArray l)))
  /\ (forall r,
        Client.fetch rt url request = Client.Resolved r ->
        Client.ok r = true ->
        (Client.jsonBody r = Some JNull ->
         fst (Client.generateSkinAnalysis rt rj request)
         = inl Client.KeysOfNull)
        /\ (forall v, Client.jsonBody r = Some v ->
              (exists b, v = JBool b) \/ (exists m e, v = JNumber m e)
              \/ (exists s, v = JString s) ->
              fst (Client.generateSkinAnalysis rt rj request)
              = inl (Client.Error
                       (utf16 "Invalid response format from AI service")))
        /\ (Client.jsonBody r = None ->
            fst (Client.generateSkinAnalysis rt rj request)
            = inl (if Client.jsonError rj then Client.JsonRejected
                   else Client.Error (utf16 "Network error calling AI service"))))
  /\ (Client.fetch rt url request = Client.Rejected ->
      fst (Client.generateSkinAnalysis rt rj request)
      = inl (if Client.fetchError rj then Client.FetchRejected
             else Client.Error (utf16 "Network error calling AI service"))).
Proof.
  intros url. unfold Client.generateSkinAnalysis. fold url.
  split; [reflexivity|]. cbn [fst]. split; [|split].
  - intros v. split.
    + destruct (Client.fetch rt url request) as [|r];
        [destruct (Client.fetchError rj); discriminate|].
      destruct (Client.ok r) eqn:O; cbn [negb]; [|discriminate].
      destruct (Client.jsonBody r) as [[| | | | l | ms]|] eqn:J;
        try discriminate;
        try (destruct (Client.jsonError rj); discriminate);
        intros [= <-]; exists r; repeat split; eauto.
    + intros (r & -> & -> & -> & [[ms ->]|[l ->]]); reflexivity.
  - intros r -> ->. cbn [negb]. split; [|split].
    + now intros ->.
    + intros v -> [[b ->]|[(m & e & ->)|[s ->]]]; reflexivity.
    + intros ->. cbn [Client.caught]. now destruct (Client.jsonError rj).
  - intros ->. cbn [Client.caught]. now destruct (Client.fetchError rj).
Qed.

(** X17, a run: a 200 with an object. *)
Lemma X17_witness :
  fst (Client.generateSkinAnalysis
         (clientRuntime
            (Client.Resolved
               (jsonReply 200 "OK" (JObject [(utf16 "overallScore", JInt 80)]))))
         browser (JObject []))
  = inr (JObject [(utf16 "overallScore", JInt 80)]).
Proof.
  assert (O : Client.ok (jsonReply 200 "OK"
                           (JObject [(utf16 "overallScore", JInt 80)])) = true)
    by (vm_compute; reflexivity).
  apply (proj2 (proj1 (proj2 (X17_generateSkinAnalysis
                                (clientRuntime
                                   (Client.Resolved
                                      (jsonReply 200 "OK"
                                         (JObject [(utf16 "overallScore",
                                                    JInt 80)]))))
                                browser (JObject [])))
                  (JObject [(utf16 "overallScore", JInt 80)]))).
  exists (jsonReply 200 "OK" (JObject [(utf16 "overallScore", JInt 80)])).
  split; [reflexivity|]. split; [exact O|]. split; [reflexivity|].
  left. eexists. reflexivity.
Defined.

(** X18.  The client's [analyzePhoto], for a request other than
    [null], issues one request, a POST to [analyzePhoto] with the request
    as it is.  It returns exactly the 2xx bodies whose [ok] is truthy,
    unchanged.  A 2xx body other than [null] whose [ok] is falsy makes it
    throw an [Error] with the [error] of the body when that is a text
    that is not empty, and with "Invalid response from photo analysis"
    when the body has no truthy [error].  A 2xx body that is [null] makes
    it throw the TypeError of the read of [ok]; when [fetch] rejects, or
    the 2xx body cannot be read, it throws what was rejected with if that
    is an instance of [Error], and "Network error calling photo analysis"
    if not. *)
Theorem X18_client_analyzePhoto (rt : Client.runtime) (rj : Client.rejections)
  (request : json) :
  request <> JNull ->
  let url := Client.FUNCTIONS_BASE_URL rt ++ utf16 "/analyzePhoto" in
  snd (Client.analyzePhoto rt rj request) = [Client.Fetch url request]
  /\ (forall v,
        fst (Client.analyzePhoto rt rj request) = inr v
        <-> exists r,
              Client.fetch rt url request = Client.Resolved r
              /\ Client.ok r = true
              /\ Client.jsonBody r = Some v
              /\ truthy (prop (Some v) (utf16 "ok")) = true)
  /\ (forall r v,
        Client.fetch rt url request = Client.Resolved r ->
        Client.ok r = true ->
        Client.jsonBody r = Some v -> v <> JNull ->
        truthy (prop (Some v) (utf16 "ok")) = false ->
        (forall e, prop (Some v) (utf16 "error") = Some (JString e) ->
                   e <> [] ->
                   fst (Client.analyzePhoto rt rj request)
                   = inl (Client.Failure (Client.Error e)))
        /\ (truthy (prop (Some v) (utf16 "error")) = false ->
            fst (Client.analyzePhoto rt rj request)
            = inl (Client.Failure
                     (Client.Error
                        (utf16 "Invalid response from photo analysis")))))
  /\ (forall r,
        Client.fetch rt url request = Client.Resolved r ->
        Client.ok r = true ->
        (Client.jsonBody r = Some JNull ->
         fst (Client.analyzePhoto rt rj request) = inl Client.ReadOfNull)
        /\ (Client.jsonBody r = None ->
            fst (Client.analyzePhoto rt rj request)
            = inl (Client.Failure
                     (if Client.jsonError rj then Client.JsonRejected
                      else Client.Error
                             (utf16 "Network error calling photo analysis")))))
  /\ (Client.fetch rt url request = Client.Rejected ->
      fst (Client.analyzePhoto rt rj request)
      = inl (Client.Failure
               (if Client.fetchError rj then Client.FetchRejected
                else Client.Error
                       (utf16 "Network error calling photo analysis")))).
Proof.
  intros Ne url. unfold Client.analyzePhoto. fold url.
  assert (Shape :
    forall A (x : A) (y : A), match request with JNull => x | _ => y end = y)
    by (intros A x y; destruct request; try reflexivity; now contradiction Ne).
  rewrite Shape. split; [reflexivity|]. cbn [fst].
  split; [|split; [|split]].
  - intros v. split.
    + destruct (Client.fetch rt url request) as [|r]; [discriminate|].
      destruct (Client.ok r) eqn:O; cbn [negb]; [|discriminate].
      destruct (Client.jsonBody r) as [w|] eqn:J; [|discriminate].
      destruct (truthy (prop (Some w) (utf16 "ok"))) eqn:T.
      * destruct w; try discriminate T; intros [= <-]; exists r;
          repeat split; assumption.
      * destruct w; discriminate.
    + intros (r & -> & -> & -> & T). cbn [negb]. rewrite T.
      destruct v; try reflexivity. discriminate T.
  - intros r v -> -> -> Nv T. cbn [negb]. rewrite T. split.
    + intros e E Nee. rewrite E. unfold orElse.
      destruct e as [|c e]; [contradiction|].
      destruct v; try reflexivity. now contradiction Nv.
    + intros F. unfold orElse. rewrite F.
      destruct v; try reflexivity. now contradiction Nv.
  - intros r -> ->. cbn [negb]. split.
    + now intros ->.
    + intros ->. cbn [Client.caught]. now destruct (Client.jsonError rj).
  - intros ->. cbn [Client.caught]. now destruct (Client.fetchError rj).
Qed.

(** X18, a run: a 200 with [ok] true. *)
Lemma X18_witness :
  JObject [(utf16 "imageBase64", JString tinyPng)] <> JNull
  /\ fst (Client.analyzePhoto
            (clientRuntime
               (Client.Resolved
                  (jsonReply 200 "OK"
                     (JObject [(utf16 "ok", JBool true);
                               (utf16 "analysisText",
                                  JString (utf16 "Looks healthy."))]))))
            browser (JObject [(utf16 "imageBase64", JString tinyPng)]))
     = inr (JObject [(utf16 "ok", JBool true);
                     (utf16 "analysisText", JString (utf16 "Looks healthy."))]).
Proof.
  assert (Ne : JObject [(utf16 "imageBase64", JString tinyPng)] <> JNull)
    by discriminate.
  assert (O : Client.ok
                (jsonReply 200 "OK"
                   (JObject [(utf16 "ok", JBool true);
                             (utf16 "analysisText",
                                JString (utf16 "Looks healthy."))])) = true)
    by (vm_compute; reflexivity).
  assert (T : truthy
                (prop (Some (JObject [(utf16 "ok", JBool true);
                                      (utf16 "analysisText",
                                         JString (utf16 "Looks healthy."))]))
                   (utf16 "ok")) = true) by (vm_compute; reflexivity).
  split; [exact Ne|].
  apply (proj2 (proj1 (proj2 (X18_client_analyzePhoto
                                (clientRuntime
                                   (Client.Resolved
                                      (jsonReply 200 "OK"
                                         (JObject [(utf16 "ok", JBool true);
                                                   (utf16 "analysisText",
                                                      JString
                                                        (utf16 "Looks healthy."))]))))
                                browser
                                (JObject [(utf16 "imageBase64", JString tinyPng)])
                                Ne))
                  (JObject [(utf16 "ok", JBool true);
                            (utf16 "analysisText",
                               JString (utf16 "Looks healthy."))]))).
  exists (jsonReply 200 "OK"
            (JObject [(utf16 "ok", JBool true);
                      (utf16 "analysisText", JString (utf16 "Looks healthy."))])).
  split; [reflexivity|]. split; [exact O|]. split; [reflexivity|exact T].
Defined.


Section ClientFacts.

Variable rt : Client.runtime.

Lemma failureMessage_reported (default : jsstring) (r : Client.reply) :
  Reported rt default r (Client.failureMessage rt default r).
Proof.
  unfold Reported, Client.failureMessage. split; [|split].
  - intros e E Ne. destruct (Client.jsonBody r) as [[| | | | |ms]|];
      try discriminate E.
    rewrite E. unfold orElse. destruct e; [contradiction|reflexivity].
  - intros v -> Nv F. unfold orElse. rewrite F.
    destruct v; try reflexivity. now contradiction Nv.
  - intros [-> | ->]; reflexivity.
Qed.

(** The message of a failed reply whose body is an error body of the
    handlers. *)
Lemma failureMessage_errorBody (default msg : jsstring) (r : Client.reply) :
  Client.jsonBody r = Some (errorBody msg) ->
  Client.failureMessage rt default r = if isEmpty msg then default else msg.
Proof.
  unfold Client.failureMessage. intros ->. now destruct msg.
Qed.

End ClientFacts.





(* ====================================================================== *)
(** * Client and server together *)
(* ====================================================================== *)

Section AnswerFacts.

Variable rt : runtime.

(** An answer of [skinAnalysis] with another status than 200 carries an
    error body. *)
Lemma skinAnalysis_error_body (req : request) (st : state) (r : response) :
  fst (fst (skinAnalysis rt req st)) = Value r -> status r <> 200%Z ->
  exists msg, payload r = errorBody msg.
Proof.
  intros A S.
  destruct (skinAnalysis_paths rt req st)
    as [(_ & e & E & _) | [(_ & E) | [(_ & e & E) | (V & P & C & E)]]];
    rewrite E in A; try (injection A as <-; eexists; reflexivity).
  destruct (generateContent rt modelName (analysisParts rt req)) as [e|t];
    [injection A as <-; eexists; reflexivity|].
  unfold reconciled in A.
  destruct t as [[|c t]|]; try destruct (decode (c :: t));
    injection A as <-; try (eexists; reflexivity).
  now contradiction S.
Qed.

(** An answer of [analyzePhoto] carries an error body, or it is the 200
    that relays a model text. *)
Lemma analyzePhoto_body (req : request) (st : state) (r : response) :
  fst (fst (analyzePhoto rt req st)) = Value r ->
  (exists msg, payload r = errorBody msg)
  \/ (status r = 200%Z
      /\ exists s t,
           generateContent rt modelName (photoParts req s) = Answered (Some t)
           /\ t <> []
           /\ payload r = JObject [(utf16 "ok", JBool true);
                                   (utf16 "analysisText", JString t)]).
Proof.
  intros A.
  destruct (analyzePhoto_paths rt req st)
    as [(_ & e & E & _) | [(_ & E) | [(_ & E) | [(_ & e & E)
       | (s & V & F & L & C & E)]]]];
    rewrite E in A; try (injection A as <-; left; eexists; reflexivity).
  destruct (generateContent rt modelName (photoParts req s)) as [e|t] eqn:G;
    [injection A as <-; left; eexists; reflexivity|].
  destruct t as [[|c t]|]; injection A as <-;
    try (left; eexists; reflexivity).
  right. split; [reflexivity|]. exists s, (c :: t).
  repeat split; [assumption|discriminate].
Qed.

End AnswerFacts.

(** X21.  Client and server together, on the structured endpoint.
    When [fetch] resolves to the reply that carries the answer of
    [skinAnalysis] to the request as it arrives, and that answer is
    outside 2xx, the answer holds an error body, and the caller of
    [generateSkinAnalysis] and the caller of [analyzeCheckInPhotos] get
    an [Error] with the message of the server (with the operation's own
    message when the server's is empty). *)
Theorem X21_errors_reach_the_caller (crt : Client.runtime)
  (rj : Client.rejections) (srt : runtime) (st : state) (sent : json)
  (r : response) (statusText : jsstring) :
  let url := Client.FUNCTIONS_BASE_URL crt ++ utf16 "/skinAnalysis" in
  fst (fst (skinAnalysis srt (arrives (Client.Fetch url sent)) st)) = Value r ->
  Client.fetch crt url sent = Client.Resolved (replyOf r statusText) ->
  Client.ok (replyOf r statusText) = false ->
  exists msg,
    payload r = errorBody msg
    /\ fst (Client.generateSkinAnalysis crt rj sent)
       = inl (Client.Error
                (if isEmpty msg then utf16 "Failed to generate skin analysis"
                 else msg))
    /\ (forall payload photo,
          firstAvailable (Client.photos payload) = Some photo ->
          sent = JObject [(utf16 "profile", Client.profile payload);
                          (utf16 "language", JString (Client.language payload));
                          (utf16 "photoData", JString photo)] ->
          fst (Client.analyzeCheckInPhotos crt payload)
          = inl (Client.Error
                   (if isEmpty msg then utf16 "Failed to analyze check-in photos"
                    else msg))).
Proof.
  intros url A F O.
  assert (S : status r <> 200%Z).
  { intros E. unfold Client.ok, replyOf in O. cbn in O. rewrite E in O.
    discriminate O. }
  destruct (skinAnalysis_error_body srt _ st r A S) as (msg & B).
  exists msg. split; [exact B|]. split.
  - unfold Client.generateSkinAnalysis. fold url. rewrite F, O. cbn [negb fst].
    now rewrite (failureMessage_errorBody crt _ msg (replyOf r statusText))
      by (cbn; now rewrite B).
  - intros payload photo Av ->.
    unfold firstAvailable in Av.
    unfold Client.analyzeCheckInPhotos, Client.orText.
    destruct payload as [prof [[[|c1 f]|] [[|c2 l]|] [[|c3 q]|]] lang];
      cbn [Client.photos Client.front Client.left_profile Client.right_profile
           Client.profile Client.language Client.truthyText available app
           hd_error] in Av, F |- *;
      try discriminate Av; injection Av as <-;
      cbv zeta; fold url; rewrite F, O; cbn [negb fst];
      now rewrite (failureMessage_errorBody crt _ msg (replyOf r statusText))
        by (cbn; now rewrite B).
Qed.

(** X21, a run: a request without a profile, through the client and the
    server. *)
Lemma X21_witness :
  fst (Client.generateSkinAnalysis
         (clientRuntime
            (Client.Resolved
               (replyOf (respond 400 (errorBody (utf16 "Missing profile data.")))
                  (utf16 "Bad Request"))))
         browser (JObject []))
  = inl (Client.Error (utf16 "Missing profile data.")).
Proof.
  assert (A : fst (fst (skinAnalysis (sampleRuntime (Answered None))
                          (arrives
                             (Client.Fetch
                                (Client.FUNCTIONS_BASE_URL
                                   (clientRuntime
                                      (Client.Resolved
                                         (replyOf
                                            (respond 400
                                               (errorBody
                                                  (utf16 "Missing profile data.")))
                                            (utf16 "Bad Request"))))
                                 ++ utf16 "/skinAnalysis")
                                (JObject [])))
                          fresh))
              = Value (respond 400 (errorBody (utf16 "Missing profile data."))))
    by (vm_compute; reflexivity).
  assert (O : Client.ok
                (replyOf (respond 400 (errorBody (utf16 "Missing profile data.")))
                   (utf16 "Bad Request")) = false)
    by (vm_compute; reflexivity).
  destruct (X21_errors_reach_the_caller _ browser _ _ _ _ (utf16 "Bad Request")
              A eq_refl O)
    as (msg & B & G & _).
  assert (M : msg = utf16 "Missing profile data.")
    by (vm_compute in B; injection B as <-; vm_compute; reflexivity).
  rewrite G, M. vm_compute. reflexivity.
Defined.

(** X22.  Client and server together, on the free-text endpoint.  When
    [fetch] resolves to the reply that carries the answer of the
    [analyzePhoto] handler to the request as it arrives, the caller of
    the client's [analyzePhoto] gets [{ok: true, analysisText}] with the
    non-empty text the model answered, or an [Error] with the message of
    the server (with a message of the client when the server's is
    empty); it never gets a TypeError or a rejection. *)
Theorem X22_analyzePhoto_end_to_end (crt : Client.runtime)
  (rj : Client.rejections) (srt : runtime) (st : state) (request : json)
  (r : response) (statusText : jsstring) :
  request <> JNull ->
  let url := Client.FUNCTIONS_BASE_URL crt ++ utf16 "/analyzePhoto" in
  fst (fst (analyzePhoto srt (arrives (Client.Fetch url request)) st))
  = Value r ->
  Client.fetch crt url request = Client.Resolved (replyOf r statusText) ->
  (exists s t,
     generateContent srt modelName
       (photoParts (arrives (Client.Fetch url request)) s) = Answered (Some t)
     /\ t <> []
     /\ fst (Client.analyzePhoto crt rj request)
        = inr (JObject [(utf16 "ok", JBool true);
                        (utf16 "analysisText", JString t)]))
  \/ (exists msg,
        payload r = errorBody msg
        /\ fst (Client.analyzePhoto crt rj request)
           = inl (Client.Failure
                    (Client.Error
                       (if isEmpty msg then
                          if Client.ok (replyOf r statusText)
                          then utf16 "Invalid response from photo analysis"
                          else utf16 "Failed to analyze photo"
                        else msg)))).
Proof.
  intros Ne url A F.
  assert (Shape :
    forall T (x : T) (y : T), match request with JNull => x | _ => y end = y)
    by (intros T x y; destruct request; try reflexivity; now contradiction Ne).
  unfold Client.analyzePhoto. fold url. rewrite Shape, F. cbn [fst].
  destruct (analyzePhoto_body srt _ st r A) as [(msg & B)|(S & s & t & G & Nt & B)].
  - right. exists msg. split; [exact B|].
    destruct (Client.ok (replyOf r statusText)) eqn:O; cbn [negb].
    + cbn [replyOf Client.jsonBody]. rewrite B.
      destruct msg; vm_compute; reflexivity.
    + now rewrite (failureMessage_errorBody crt _ msg (replyOf r statusText))
        by (cbn; now rewrite B).
  - left. exists s, t. split; [exact G|]. split; [exact Nt|].
    assert (O : Client.ok (replyOf r statusText) = true)
      by (unfold Client.ok, replyOf; cbn; now rewrite S).
    rewrite O. cbn [negb replyOf Client.jsonBody]. now rewrite B.
Qed.

(** X22, a run: a photo, through the client and the server. *)
Lemma X22_witness :
  fst (Client.analyzePhoto
         (clientRuntime
            (Client.Resolved
               (replyOf
                  (respond 200
                     (JObject [(utf16 "ok", JBool true);
                               (utf16 "analysisText",
                                  JString (utf16 "Looks healthy."))]))
                  (utf16 "OK"))))
         browser (JObject [(utf16 "imageBase64", JString tinyPng)]))
  = inr (JObject [(utf16 "ok", JBool true);
                  (utf16 "analysisText", JString (utf16 "Looks healthy."))]).
Proof.
  assert (Ne : JObject [(utf16 "imageBase64", JString tinyPng)] <> JNull)
    by discriminate.
  assert (A : fst (fst (analyzePhoto
                          (sampleRuntime (Answered (Some (utf16 "Looks healthy."))))
                          (arrives
                             (Client.Fetch
                                (Client.FUNCTIONS_BASE_URL
                                   (clientRuntime
                                      (Client.Resolved
                                         (replyOf
                                            (respond 200
                                               (JObject
                                                  [(utf16 "ok", JBool true);
                                                   (utf16 "analysisText",
                                                      JString
                                                        (utf16 "Looks healthy."))]))
                                            (utf16 "OK"))))
                                 ++ utf16 "/analyzePhoto")
                                (JObject [(utf16 "imageBase64", JString tinyPng)])))
                          fresh))
              = Value (respond 200
                         (JObject [(utf16 "ok", JBool true);
                                   (utf16 "analysisText",
                                      JString (utf16 "Looks healthy."))])))
    by (vm_compute; reflexivity).
  destruct (X22_analyzePhoto_end_to_end _ browser _ _ _ _ (utf16 "OK") Ne A
              eq_refl)
    as [(s & t & G & _ & R)|(msg & B & _)].
  - rewrite R. injection G as <-. reflexivity.
  - vm_compute in B. discriminate B.
Defined.

(** X23.  The photo of a profile does not reach the model through
    [generateSkinAnalysisFromProfile]: the request carries it inside the
    profile, where [skinAnalysis] does not look, and the model call of
    such a request holds the prompt alone. *)
Theorem X23_profile_photo_is_not_sent (crt : Client.runtime)
  (rj : Client.rejections) (profile : Client.UserProfile)
  (language : option jsstring) (srt : runtime) (st : state) (c : Client.call) :
  In c (snd (Client.generateSkinAnalysisFromProfile crt rj profile language)) ->
  prop (field (arrives c) "profile") (utf16 "photoData")
  = Client.photoData profile
  /\ field (arrives c) "photoData" = None
  /\ forall model parts,
       In (Generate model parts) (snd (skinAnalysis srt (arrives c) st)) ->
       exists t, parts = [Text t].
Proof.
  intros I. destruct I as [<-|[]]. split; [|split].
  - destruct profile as [[a|] [b|] [d|] [e|] [f|] [g|]]; reflexivity.
  - reflexivity.
  - intros model parts I.
    destruct (skinAnalysis_generated srt _ st model parts I)
      as (_ & _ & _ & _ & ->).
    unfold analysisParts, contentParts.
    change (field (arrives _) "photoData") with (@None json). eauto.
Qed.

(** X23, a run: a profile with a photo. *)
Lemma X23_witness :
  In profileCall
    (snd (Client.generateSkinAnalysisFromProfile (clientRuntime Client.Rejected)
            browser profileWithPhoto None))
  /\ prop (field (arrives profileCall) "profile") (utf16 "photoData")
     = Some (JString tinyPng)
  /\ field (arrives profileCall) "photoData" = None
  /\ In (Generate modelName
           (analysisParts (sampleRuntime (Answered None)) (arrives profileCall)))
       (snd (skinAnalysis (sampleRuntime (Answered None)) (arrives profileCall)
               fresh))
  /\ exists t,
       analysisParts (sampleRuntime (Answered None)) (arrives profileCall)
       = [Text t].
Proof.
  assert (I : In profileCall
                (snd (Client.generateSkinAnalysisFromProfile
                        (clientRuntime Client.Rejected) browser profileWithPhoto
                        None)))
    by (left; vm_compute; reflexivity).
  assert (G : In (Generate modelName
                    (analysisParts (sampleRuntime (Answered None))
                       (arrives profileCall)))
                (snd (skinAnalysis (sampleRuntime (Answered None))
                        (arrives profileCall) fresh)))
    by (vm_compute; left; reflexivity).
  destruct (X23_profile_photo_is_not_sent (clientRuntime Client.Rejected)
              browser profileWithPhoto None (sampleRuntime (Answered None))
              fresh profileCall I) as (Inside & Outside & Alone).
  split; [exact I|]. split; [exact Inside|]. split; [exact Outside|].
  split; [exact G|]. exact (Alone _ _ G).
Defined.


